(** * RVO subsidy analyser: the autonomous scraping-plan pipeline

    A shallow embedding of [agent-ai-autonomous.js] (class
    [RVOAgentAIAutonomous]) and the properties of its link harvester, plan
    validator, crawl executor and classifier; and of the handler of
    [POST /analyze] in [server.js], which runs the agent for a request.

    Conventions of the embedding:
    - a JavaScript string is a [string] whose characters are the code units
      U+0000..U+00FF (Latin-1);
    - a value produced by [JSON.parse] is a [value]; a JSON number is the
      binary64 float it denotes ([spec_float], precision 53, emax 1024);
    - a function that may throw returns a [result]; the methods that touch
      the visited set or the network run in the monad [M], which threads the
      agent's state and keeps it when an exception is thrown;
    - the network, the completion service, the clock and the parsing
      libraries (cheerio, pdf-parse, mammoth, xlsx, [JSON.parse]) are the
      fields of an environment [Env], over which every theorem quantifies. *)

From Stdlib Require Import List String Ascii ZArith Bool Lia.
From Stdlib Require Import SpecFloat DecimalString.
Import ListNotations.

Set Warnings "-abstract-large-number".

Open Scope list_scope.
Open Scope string_scope.
Open Scope nat_scope.

(* ================================================================= *)
(** ** JavaScript string methods used by the agent *)

Module JsString.

Definition code (c : ascii) : nat := nat_of_ascii c.

(** White space as [String.prototype.trim] and the regular expression
    class [\s] see it, within Latin-1: TAB, LF, VT, FF, CR, SP, NBSP. *)
Definition is_space (c : ascii) : bool :=
  let n := code c in
  ((9 <=? n) && (n <=? 13)) || (n =? 32) || (n =? 160).

Definition is_empty (s : string) : bool :=
  match s with EmptyString => true | String _ _ => false end.

Fixpoint trimStart (s : string) : string :=
  match s with
  | String c r => if is_space c then trimStart r else s
  | EmptyString => EmptyString
  end.

Fixpoint trimEnd (s : string) : string :=
  match s with
  | String c r =>
      let r' := trimEnd r in
      if is_space c && is_empty r' then EmptyString else String c r'
  | EmptyString => EmptyString
  end.

Definition trim (s : string) : string := trimEnd (trimStart s).

Definition startsWith (s p : string) : bool := prefix p s.

(** [s.includes(p)] *)
Fixpoint includes (s p : string) : bool :=
  prefix p s ||
  match s with
  | String _ r => includes r p
  | EmptyString => false
  end.

(** [s.indexOf(p)], [None] for -1 *)
Fixpoint indexOf (s p : string) : option nat :=
  if prefix p s then Some 0
  else match s with
       | String _ r => option_map S (indexOf r p)
       | EmptyString => None
       end.

(** [s.lastIndexOf(c)] for a one-character pattern, [None] for -1 *)
Fixpoint lastIndexOf (s : string) (c : ascii) : option nat :=
  match s with
  | String d r =>
      match lastIndexOf r c with
      | Some i => Some (S i)
      | None => if Ascii.eqb d c then Some 0 else None
      end
  | EmptyString => None
  end.

(** [s.substring(a, b)] for [a <= b] *)
Definition substring (s : string) (a b : nat) : string :=
  String.substring a (b - a) s.

(** the rest of the string from index [a], [s.substring(a)] *)
Fixpoint drop (a : nat) (s : string) : string :=
  match a, s with
  | S a', String _ r => drop a' r
  | _, _ => s
  end.

Definition lower_char (c : ascii) : ascii :=
  let n := code c in
  if ((65 <=? n) && (n <=? 90))
     || ((192 <=? n) && (n <=? 222) && negb (n =? 215))
  then ascii_of_nat (n + 32) else c.

Fixpoint toLowerCase (s : string) : string :=
  match s with
  | String c r => String (lower_char c) (toLowerCase r)
  | EmptyString => EmptyString
  end.

(** [toUpperCase] is only applied to the document type tags, which are
    lower-case ASCII words. *)
Definition upper_char (c : ascii) : ascii :=
  let n := code c in
  if (97 <=? n) && (n <=? 122) then ascii_of_nat (n - 32) else c.

Fixpoint toUpperCase (s : string) : string :=
  match s with
  | String c r => String (upper_char c) (toUpperCase r)
  | EmptyString => EmptyString
  end.

(** [s.split(c).pop()]: what follows the last occurrence of [c], the
    whole string when there is none. *)
Definition lastSegment (s : string) (c : ascii) : string :=
  match lastIndexOf s c with
  | Some i => drop (S i) s
  | None => s
  end.

(** [parts.join(sep)] *)
Fixpoint join (sep : string) (parts : list string) : string :=
  match parts with
  | [] => EmptyString
  | [p] => p
  | p :: rest => p ++ sep ++ join sep rest
  end.

(** [s.replace(/\s+/g, ' ')] *)
Fixpoint collapse_from (in_run : bool) (s : string) : string :=
  match s with
  | String c r =>
      if is_space c
      then if in_run then collapse_from true r
           else String " " (collapse_from true r)
      else String c (collapse_from false r)
  | EmptyString => EmptyString
  end.

Definition collapseSpaces (s : string) : string := collapse_from false s.

Definition of_nat (n : nat) : string := NilZero.string_of_uint (Nat.to_uint n).
Definition of_Z (z : Z) : string := NilZero.string_of_int (Z.to_int z).

Definition LF : string := String (ascii_of_nat 10) EmptyString.
Definition quote : ascii := ascii_of_nat 34.
Definition apostrophe : ascii := ascii_of_nat 39.

End JsString.

(* ================================================================= *)
(** ** JavaScript values, exceptions and the coercions the agent relies on *)

Module Js.

(** The values the agent handles dynamically: what [JSON.parse] returns
    (the oracle's plan, the classification, the attestation schema) and
    [undefined].  An object lists its own properties in property order. *)
#[local] Unset Elimination Schemes.
Inductive value : Type :=
| VUndefined
| VNull
| VBool (b : bool)
| VNumber (x : spec_float)
| VString (s : string)
| VArray (items : list value)
| VObject (props : list (string * value)).
#[local] Set Elimination Schemes.

Inductive exn : Type :=
| Error (msg : string)
| TypeError (msg : string)
| SyntaxError (msg : string).

(** [error.message] *)
Definition message (e : exn) : string :=
  match e with Error m | TypeError m | SyntaxError m => m end.

Inductive result (A : Type) : Type :=
| Ok (a : A)
| Throw (e : exn).
Arguments Ok {A} a.
Arguments Throw {A} e.

Definition bind {A B} (r : result A) (k : A -> result B) : result B :=
  match r with Ok a => k a | Throw e => Throw e end.

Definition number_of_Z (z : Z) : spec_float := binary_normalize 53 1024 z 0 false.

Definition is_nan (x : spec_float) : bool :=
  match x with S754_nan => true | _ => false end.

(** ToBoolean *)
Definition truthy (v : value) : bool :=
  match v with
  | VUndefined | VNull => false
  | VBool b => b
  | VNumber (S754_zero _) | VNumber S754_nan => false
  | VNumber _ => true
  | VString s => negb (JsString.is_empty s)
  | VArray _ | VObject _ => true
  end.

(** [v || d] *)
Definition or_else (v d : value) : value := if truthy v then v else d.

Fixpoint lookup (props : list (string * value)) (k : string) : option value :=
  match props with
  | [] => None
  | (k', v) :: rest => if String.eqb k' k then Some v else lookup rest k
  end.

Definition reading (who k : string) : exn :=
  TypeError ("Cannot read properties of " ++ who ++ " (reading '" ++ k ++ "')").

Definition not_a_function (what : string) : exn :=
  TypeError (what ++ " is not a function").

(** The property read [v.k], for the keys the agent reads ([main_page],
    [sub_pages], [documents], [max_pages], [max_documents], [url],
    [priority], [reason], [attestations], [non_attestations],
    [analysis_notes], [attestation_schema]): none of them is defined on a
    prototype, so only an object's own property can answer. *)
Definition get (v : value) (k : string) : result value :=
  match v with
  | VUndefined => Throw (reading "undefined" k)
  | VNull => Throw (reading "null" k)
  | VObject props =>
      match lookup props k with Some x => Ok x | None => Ok VUndefined end
  | _ => Ok VUndefined
  end.

(** The object literal [{...o, k: v}] for an object [o]: [k] keeps its
    place when [o] has it, and comes last otherwise. *)
Fixpoint store (props : list (string * value)) (k : string) (v : value)
  : list (string * value) :=
  match props with
  | [] => [(k, v)]
  | (k', v') :: rest =>
      if String.eqb k' k then (k, v) :: rest else (k', v') :: store rest k v
  end.

(** SameValueZero, the comparison of [Set.prototype.has].  Two objects or
    arrays are the same value only when they are the same reference; the
    nodes of a freshly parsed JSON tree are pairwise distinct references,
    and each is looked up at most once, so the answer is [false]. *)
Definition same_value_zero (a b : value) : bool :=
  match a, b with
  | VUndefined, VUndefined => true
  | VNull, VNull => true
  | VBool x, VBool y => Bool.eqb x y
  | VNumber x, VNumber y => SFeqb x y || (is_nan x && is_nan y)
  | VString x, VString y => String.eqb x y
  | _, _ => false
  end.

Definition set_has (s : list value) (v : value) : bool :=
  existsb (same_value_zero v) s.

Section Coercions.

(** Number::toString and StringToNumber belong to the run time. *)
Variable NumberToString : spec_float -> string.
Variable StringToNumber : string -> spec_float.

(** ToString, as a template literal applies it.  An object with an own
    [toString] property (never callable in a JSON tree) has no primitive
    value; an array is joined with commas, [null] and [undefined]
    elements giving the empty string. *)
Fixpoint to_string (v : value) : result string :=
  match v with
  | VUndefined => Ok "undefined"
  | VNull => Ok "null"
  | VBool true => Ok "true"
  | VBool false => Ok "false"
  | VNumber x => Ok (NumberToString x)
  | VString s => Ok s
  | VArray items =>
      let fix each (l : list value) : result (list string) :=
        match l with
        | [] => Ok []
        | x :: rest =>
            bind (match x with
                  | VUndefined | VNull => Ok EmptyString
                  | _ => to_string x
                  end)
                 (fun s => bind (each rest) (fun ss => Ok (s :: ss)))
        end in
      bind (each items) (fun ss => Ok (JsString.join "," ss))
  | VObject props =>
      match lookup props "toString" with
      | Some _ => Throw (TypeError "Cannot convert object to primitive value")
      | None => Ok "[object Object]"
      end
  end.

(** ToNumber *)
Definition to_number (v : value) : result spec_float :=
  match v with
  | VUndefined => Ok S754_nan
  | VNull => Ok (S754_zero false)
  | VBool true => Ok (number_of_Z 1)
  | VBool false => Ok (S754_zero false)
  | VNumber x => Ok x
  | VString s => Ok (StringToNumber s)
  | VArray _ | VObject _ => bind (to_string v) (fun s => Ok (StringToNumber s))
  end.

Inductive integer_or_infinity : Type :=
| Finite (z : Z)
| PlusInfinity
| MinusInfinity.

(** ToIntegerOrInfinity of a number: truncation towards zero. *)
Definition to_integer_or_infinity (x : spec_float) : integer_or_infinity :=
  match x with
  | S754_nan | S754_zero _ => Finite 0
  | S754_infinity false => PlusInfinity
  | S754_infinity true => MinusInfinity
  | S754_finite s m e =>
      let a := match e with
               | Zneg p => Z.shiftr (Zpos m) (Zpos p)
               | _ => Z.shiftl (Zpos m) e
               end in
      Finite (if s then Z.opp a else a)
  end.

(** How many items [x.slice(0, end)] keeps out of [len]. *)
Definition slice_count (len : nat) (e : integer_or_infinity) : nat :=
  match e with
  | MinusInfinity => 0
  | PlusInfinity => len
  | Finite z =>
      if (z <? 0)%Z then Z.to_nat (Z.max (Z.of_nat len + z) 0)
      else Nat.min (Z.to_nat z) len
  end.

Fixpoint chars (s : string) : list value :=
  match s with
  | String c r => VString (String c EmptyString) :: chars r
  | EmptyString => []
  end.

(** The items a [for ... of] loop visits in [x.slice(0, end)], [what]
    being the source text of [x] for the error message.  Arrays and
    strings have a [slice] method; a string is iterated character by
    character; on anything else the call throws. *)
Definition slice_items (what : string) (x end_ : value) : result (list value) :=
  match x with
  | VUndefined => Throw (reading "undefined" "slice")
  | VNull => Throw (reading "null" "slice")
  | VArray items =>
      bind (to_number end_) (fun n =>
      Ok (firstn (slice_count (List.length items) (to_integer_or_infinity n)) items))
  | VString s =>
      bind (to_number end_) (fun n =>
      Ok (firstn (slice_count (String.length s) (to_integer_or_infinity n)) (chars s)))
  | _ => Throw (not_a_function (what ++ ".slice"))
  end.

(** The own enumerable string-keyed properties [Object.keys] lists,
    each with its value. *)
Definition indexed (items : list value) : list (string * value) :=
  combine (map JsString.of_nat (seq 0 (List.length items))) items.

Definition entries (v : value) : result (list (string * value)) :=
  match v with
  | VUndefined | VNull =>
      Throw (TypeError "Cannot convert undefined or null to object")
  | VObject props => Ok props
  | VArray items => Ok (indexed items)
  | VString s => Ok (indexed (chars s))
  | VBool _ | VNumber _ => Ok []
  end.

End Coercions.

End Js.

Import Js.

Notation "'let?' x ':=' e 'in' k" := (Js.bind e (fun x => k))
  (at level 10, x name, e at level 100, k at level 200).

(* ================================================================= *)
(** ** Records of the pipeline *)

(** An entry of [extractActualLinks]: [{ url, text, href }]. *)
Record LinkRecord : Type := {
  link_url : string;
  link_text : string;
  link_href : string
}.

(** An entry of [extractDocumentLinks]: [{ url, text, href, type }]. *)
Record DocumentLink : Type := {
  doc_url : string;
  doc_text : string;
  doc_href : string;
  doc_type : string
}.

(** What [scrapePage] returns: [{ url, title, html, textContent }]. *)
Record PageData : Type := {
  page_url : value;
  page_title : string;
  page_html : string;
  page_textContent : string
}.

(** An element of [allPages]: [{ ...pageData, priority, reason }]. *)
Record PageRecord : Type := {
  pr_data : PageData;
  pr_priority : value;
  pr_reason : value
}.

(** An element of [allDocuments]. *)
Record DocumentRecord : Type := {
  dr_url : value;
  dr_title : string;
  dr_textContent : string;
  dr_priority : value;
  dr_reason : value;
  dr_type : string
}.

(** What [aiExecuteScrapingPlan] returns; [mainPage] is [allPages[0]]. *)
Record ScrapedData : Type := {
  mainPage : option PageRecord;
  allPages : list PageRecord;
  allDocuments : list DocumentRecord
}.

(** What [aiAnalyzeAllData] returns. *)
Record RequirementSet : Type := {
  attestations : value;
  non_attestations : value;
  analysis_notes : value
}.

(** The two shapes [analyzeSubsidy] returns. *)
Inductive AnalysisResult : Type :=
| Analysis (url title : string) (requirements : RequirementSet)
           (analyzed_at : string) (pages_analyzed : nat) (ai_scraping_plan : value)
| AnalysisError (url error analyzed_at : string).

(** A prompt, reduced to the values interpolated into its fixed template. *)
Inductive Prompt : Type :=
| PlanPrompt (mainUrl title content : string)
             (actualLinks : list LinkRecord) (documentLinks : list DocumentLink)
| SchemaPrompt (content fieldList : string)
| BasicPrompt (content : string).

Record Response : Type := {
  status : Z;
  body : string
}.

(** [response.ok] *)
Definition ok (r : Response) : bool := ((200 <=? status r) && (status r <=? 299))%Z.

(** What the agent does to the outside world, in order. *)
Inductive Event : Type :=
| Get (url : value)
| Head (url : value)
| Chat (p : Prompt)
| Delay (ms : nat).

(** The outside world and the libraries.  An answer of the network, of the
    completion service or of the clock may depend on how many events came
    before it, so that a server may answer the same request differently
    the second time. *)
Record Env : Type := {
  (** [fetch(url, { headers })]; [Throw] when the promise rejects *)
  http_get : nat -> value -> result Response;
  (** [fetch(url, { method: 'HEAD', headers })] *)
  http_head : nat -> value -> result Response;
  (** [openai.chat.completions.create(...)], then
      [completion.choices[0].message.content]; [None] when either throws *)
  chat : nat -> Prompt -> option string;
  (** [new Date().toISOString()] *)
  now : nat -> string;
  (** [JSON.parse]; [None] when it throws a SyntaxError *)
  JSON_parse : string -> option value;
  (** cheerio: the [a[href]] elements of a document, each with its [href]
      attribute and its text *)
  anchors : string -> list (string * string);
  (** [$('h1').first().text()] *)
  h1_text : string -> string;
  (** [$('title').text()] *)
  title_text : string -> string;
  (** [$('body').text()] once
      [nav, header, footer, .navigation, .menu, .sidebar] are removed *)
  body_text : string -> string;
  (** [(await pdf(buffer)).text]; [None] when it throws *)
  pdf : string -> option string;
  (** [(await mammoth.extractRawText({ buffer })).value] *)
  mammoth_extractRawText : string -> option string;
  (** [XLSX.read(buffer)]: the sheets in [SheetNames] order, each with its
      name and its [XLSX.utils.sheet_to_txt] rendering *)
  XLSX_read : string -> option (list (string * string));
  NumberToString : spec_float -> string;
  StringToNumber : string -> spec_float;
  (** the content of [./attestation-schema.json], [None] when unreadable *)
  schema_file : option string
}.

(* ================================================================= *)
(** ** The agent's state and its monad *)

Record State : Type := {
  visitedUrls : list value;
  trace : list Event
}.

Definition M (A : Type) : Type := State -> result A * State.

Definition ret {A} (a : A) : M A := fun st => (Ok a, st).

Definition throw {A} (e : exn) : M A := fun st => (Throw e, st).

Definition bindM {A B} (m : M A) (k : A -> M B) : M B :=
  fun st =>
    match m st with
    | (Ok a, st') => k a st'
    | (Throw e, st') => (Throw e, st')
    end.

(** [try { m } catch (error) { h error }] *)
Definition try_catch {A} (m : M A) (h : exn -> M A) : M A :=
  fun st =>
    match m st with
    | (Ok a, st') => (Ok a, st')
    | (Throw e, st') => h e st'
    end.

Definition lift {A} (r : result A) : M A := fun st => (r, st).

Notation "'let*' x ':=' e 'in' k" := (bindM e (fun x => k))
  (at level 10, x name, e at level 100, k at level 200).

(** The state once [ev] has happened. *)
Definition log (ev : Event) (st : State) : State :=
  {| visitedUrls := visitedUrls st; trace := (trace st ++ [ev])%list |}.

(** The state once [v] is in the visited set. *)
Definition mark (v : value) (st : State) : State :=
  if set_has (visitedUrls st) v then st
  else {| visitedUrls := (visitedUrls st ++ [v])%list; trace := trace st |}.

Definition emit (ev : Event) : M unit := fun st => (Ok tt, log ev st).

Definition time : M nat := fun st => (Ok (List.length (trace st)), st).

(** [this.visitedUrls.has(v)] *)
Definition visited_has (v : value) : M bool :=
  fun st => (Ok (set_has (visitedUrls st) v), st).

(** [this.visitedUrls.add(v)] *)
Definition visited_add (v : value) : M unit := fun st => (Ok tt, mark v st).

Definition fetch (env : Env) (url : value) : M Response :=
  let* t := time in
  let* _ := emit (Get url) in
  lift (http_get env t url).

Definition fetch_head (env : Env) (url : value) : M Response :=
  let* t := time in
  let* _ := emit (Head url) in
  lift (http_head env t url).

(** [await new Promise(resolve => setTimeout(resolve, ms))] *)
Definition sleep (ms : nat) : M unit := emit (Delay ms).


Definition getState : M State := fun st => (Ok st, st).

(** A loop [for (const x of items) { ... }] whose body updates [acc]. *)
Fixpoint for_each {A B} (body : A -> B -> M B) (items : list A) (acc : B) : M B :=
  match items with
  | [] => ret acc
  | x :: rest => let* acc' := body x acc in for_each body rest acc'
  end.

(** [items.map(f)] for an [f] that may throw. *)
Fixpoint map_result {A B} (f : A -> result B) (items : list A) : result (list B) :=
  match items with
  | [] => Ok []
  | x :: rest =>
      let? y := f x in
      let? ys := map_result f rest in
      Ok (y :: ys)
  end.

(** [items.filter(f)] for an [f] that may throw. *)
Fixpoint filter_result {A} (f : A -> result bool) (items : list A) : result (list A) :=
  match items with
  | [] => Ok []
  | x :: rest =>
      let? keep := f x in
      let? kept := filter_result f rest in
      Ok (if keep then x :: kept else kept)
  end.

(** [items.findIndex(p)], [None] for -1 *)
Fixpoint findIndex {A} (p : A -> bool) (items : list A) : option nat :=
  match items with
  | [] => None
  | x :: rest => if p x then Some 0 else option_map S (findIndex p rest)
  end.

(** [items.filter((x, index, self) => p x index)] *)
Definition filter_indexed {A} (p : A -> nat -> bool) (items : list A) : list A :=
  map snd (filter (fun ix => p (snd ix) (fst ix))
                  (combine (seq 0 (List.length items)) items)).

(* ================================================================= *)
(** ** class RVOAgentAIAutonomous *)

Section Agent.

Variable env : Env.

(** [this.baseUrl] *)
Definition baseUrl : string := "https://www.rvo.nl".

(** [loadAttestationSchema], which gives [this.attestationSchema] *)
Definition loadAttestationSchema : value :=
  match schema_file env with
  | Some schemaData =>
      match JSON_parse env schemaData with
      | Some schema => schema
      | None => VNull
      end
  | None => VNull
  end.

Definition js_to_string : value -> result string := Js.to_string (NumberToString env).

(** *** Fetching *)

Definition scrapePage (url : value) : M PageData :=
  try_catch
    (let* response := fetch env url in
     if negb (ok response)
     then throw (Error ("HTTP error! status: " ++ JsString.of_Z (status response)))
     else
       let html := body response in
       let h1 := JsString.trim (h1_text env html) in
       let title := if JsString.is_empty h1
                    then JsString.trim (title_text env html) else h1 in
       let textContent := JsString.trim (JsString.collapseSpaces (body_text env html)) in
       ret {| page_url := url; page_title := title;
              page_html := html; page_textContent := textContent |})
    (fun error =>
       let* shown := lift (js_to_string url) in
       throw (Error ("Failed to scrape " ++ shown ++ ": " ++ message error))).

Definition checkUrlExists (url : value) : M bool :=
  try_catch
    (let* response := fetch_head env url in ret (ok response))
    (fun _ => ret false).

(** *** Link harvesting *)

(** The body of the [each] callback of [extractActualLinks], for one
    [a[href]] element: the links it pushes. *)
Definition actual_link_of (visited : list value) (a : string * string)
  : list LinkRecord :=
  let href := fst a in
  let text := JsString.trim (snd a) in
  if negb (JsString.is_empty href) && negb (JsString.is_empty text) then
    let fullUrl :=
      if JsString.startsWith href "/" then Some (baseUrl ++ href)
      else if JsString.startsWith href "http" then Some href
      else if JsString.startsWith href "#" then None
      else Some href in
    match fullUrl with
    | Some fullUrl =>
        if JsString.includes fullUrl "rvo.nl"
           && negb (set_has visited (VString fullUrl))
        then [ {| link_url := fullUrl;
                  link_text := JsString.substring text 0 100;
                  link_href := href |} ]
        else []
    | None => []
    end
  else [].

(** [links.filter((link, index, self) =>
      index === self.findIndex(l => l.url === link.url))] *)
Definition uniqueLinks (links : list LinkRecord) : list LinkRecord :=
  filter_indexed
    (fun link index =>
       match findIndex (fun l => String.eqb (link_url l) (link_url link)) links with
       | Some first => index =? first
       | None => false
       end)
    links.

(** [extractActualLinks(html, baseUrl)], [visited] being [this.visitedUrls] *)
Definition extractActualLinks (visited : list value) (html baseUrl_ : string)
  : list LinkRecord :=
  let links := flat_map (actual_link_of visited) (anchors env html) in
  uniqueLinks links.

Definition documentExtensions : list string :=
  [".pdf"; ".doc"; ".docx"; ".xls"; ".xlsx"; ".ppt"; ".pptx"].

Definition isDocument (fullUrl : string) : bool :=
  existsb (fun ext => JsString.includes (JsString.toLowerCase fullUrl) ext)
          documentExtensions.

(** The body of [getDocumentType] after [url.toLowerCase()] *)
Definition documentTypeOf (urlLower : string) : string :=
  if JsString.includes urlLower ".pdf" then "pdf"
  else if JsString.includes urlLower ".docx" || JsString.includes urlLower ".doc"
  then "docx"
  else if JsString.includes urlLower ".xlsx" || JsString.includes urlLower ".xls"
  then "xlsx"
  else if JsString.includes urlLower ".pptx" || JsString.includes urlLower ".ppt"
  then "pptx"
  else "unknown".

(** [getDocumentType(url)]; only a string has a [toLowerCase] method. *)
Definition getDocumentType (url : value) : result string :=
  match url with
  | VString s => Ok (documentTypeOf (JsString.toLowerCase s))
  | VUndefined => Throw (reading "undefined" "toLowerCase")
  | VNull => Throw (reading "null" "toLowerCase")
  | _ => Throw (not_a_function "url.toLowerCase")
  end.

(** The body of the [each] callback of [extractDocumentLinks]. *)
Definition document_link_of (visited : list value) (a : string * string)
  : list DocumentLink :=
  let href := fst a in
  let text := JsString.trim (snd a) in
  if negb (JsString.is_empty href) then
    let fullUrl :=
      if JsString.startsWith href "/" then baseUrl ++ href
      else if JsString.startsWith href "http" then href
      else href in
    if isDocument fullUrl && negb (set_has visited (VString fullUrl))
    then [ {| doc_url := fullUrl;
              doc_text := JsString.substring text 0 100;
              doc_href := href;
              doc_type := documentTypeOf (JsString.toLowerCase fullUrl) |} ]
    else []
  else [].

(** [extractDocumentLinks(html, baseUrl)] *)
Definition extractDocumentLinks (visited : list value) (html baseUrl_ : string)
  : list DocumentLink :=
  flat_map (document_link_of visited) (anchors env html).

(** *** Document text extraction *)

Definition extractPdfText (buffer : string) : string :=
  match pdf env buffer with Some text => text | None => EmptyString end.

Definition extractDocxText (buffer : string) : string :=
  match mammoth_extractRawText env buffer with
  | Some text => text
  | None => EmptyString
  end.

Definition extractXlsxText (buffer : string) : string :=
  match XLSX_read env buffer with
  | Some sheets =>
      fold_left
        (fun text sheet =>
           text ++ JsString.LF ++ "=== Sheet: " ++ fst sheet ++ " ===" ++ JsString.LF
                ++ snd sheet ++ JsString.LF)
        sheets EmptyString
  | None => EmptyString
  end.

(** The [switch (documentType)] of [extractDocumentText]. *)
Definition extract_by_type (documentType buffer : string) : string :=
  if String.eqb documentType "pdf" then extractPdfText buffer
  else if String.eqb documentType "docx" then extractDocxText buffer
  else if String.eqb documentType "xlsx" then extractXlsxText buffer
  else EmptyString.

Definition extractDocumentText (url : value) (documentType : string) : M string :=
  try_catch
    (let* response := fetch env url in
     if negb (ok response)
     then throw (Error ("HTTP error! status: " ++ JsString.of_Z (status response)))
     else
       let buffer := body response in
       ret (extract_by_type documentType buffer))
    (fun _ => ret EmptyString).

(** *** The plan: validation and fallback *)

(** The own properties an object spread [{...v}] copies. *)
Definition spread_props (v : value) : list (string * value) :=
  match v with
  | VObject props => props
  | VArray items => Js.indexed items
  | VString s => Js.indexed (Js.chars s)
  | _ => []
  end.

Definition validateScrapingPlan (plan : value) (actualLinks : list LinkRecord)
  : result value :=
  let actualUrls := map (fun link => VString (link_url link)) actualLinks in
  let? sub_pages := get plan "sub_pages" in
  match sub_pages with
  | VArray items =>
      let? validSubPages :=
        filter_result
          (fun subPage =>
             let? url := get subPage "url" in
             let isValid := set_has actualUrls url in
             Ok isValid)
          items in
      Ok (VObject (store (spread_props plan) "sub_pages" (VArray validSubPages)))
  | VUndefined => Throw (reading "undefined" "filter")
  | VNull => Throw (reading "null" "filter")
  | _ => Throw (not_a_function "plan.sub_pages.filter")
  end.

Definition createFallbackScrapingPlan (mainUrl : string) (mainPageData : PageData)
  : value :=
  VObject
    [ ("main_page",
       VObject [ ("url", VString mainUrl);
                 ("title", VString (page_title mainPageData));
                 ("priority", VString "high") ]);
      ("sub_pages", VArray []);
      ("max_pages", VNumber (number_of_Z 1));
      ("focus_keywords", VArray []) ].

(** [openai.chat.completions.create(...)] and then
    [completion.choices[0].message.content.trim()].  The guard
    [if (!openai)] before it is dead code: [openai] is assigned a client
    when the module is loaded and never changes. *)
Definition complete (prompt : Prompt) : M string :=
  let* t := time in
  let* _ := emit (Chat prompt) in
  match chat env t prompt with
  | Some content => ret (JsString.trim content)
  | None => throw (Error "completion failed")
  end.

(** The prompt of [aiCreateScrapingPlan]. *)
Definition plan_prompt (mainUrl : string) (mainPageData : PageData)
  (actualLinks : list LinkRecord) (documentLinks : list DocumentLink) : Prompt :=
  PlanPrompt mainUrl (page_title mainPageData)
             (JsString.substring (page_textContent mainPageData) 0 3000)
             actualLinks documentLinks.

Definition aiCreateScrapingPlan (mainUrl : string) : M value :=
  try_catch
    (let* mainPageData := scrapePage (VString mainUrl) in
     let* this := getState in
     let actualLinks :=
       extractActualLinks (visitedUrls this) (page_html mainPageData) mainUrl in
     let documentLinks :=
       extractDocumentLinks (visitedUrls this) (page_html mainPageData) mainUrl in
     let prompt := plan_prompt mainUrl mainPageData actualLinks documentLinks in
     let* response := complete prompt in
     try_catch
       (match JSON_parse env response with
        | Some plan =>
            let* validPlan := lift (validateScrapingPlan plan actualLinks) in
            ret validPlan
        | None => throw (SyntaxError "Unexpected token in JSON")
        end)
       (fun parseError => ret (createFallbackScrapingPlan mainUrl mainPageData)))
    (fun error =>
       let* mainPageData := scrapePage (VString mainUrl) in
       ret (createFallbackScrapingPlan mainUrl mainPageData)).

(** *** The crawl executor *)

(** The first [try] block of [aiExecuteScrapingPlan]. *)
Definition scrape_main_page (plan : value) (allPages : list PageRecord)
  : M (list PageRecord) :=
  try_catch
    (let* main_page := lift (get plan "main_page") in
     let* url := lift (get main_page "url") in
     let* mainPage := scrapePage url in
     let* priority := lift (get main_page "priority") in
     ret (allPages ++ [ {| pr_data := mainPage; pr_priority := priority;
                           pr_reason := VString "Main subsidy page" |} ])%list)
    (fun _ => ret allPages).

(** The body of the sub-page loop. *)
Definition scrape_sub_page (subPage : value) (allPages : list PageRecord)
  : M (list PageRecord) :=
  try_catch
    (let* url := lift (get subPage "url") in
     let* seen := visited_has url in
     if negb seen then
       let* urlExists := checkUrlExists url in
       if urlExists then
         let* pageData := scrapePage url in
         let* priority := lift (get subPage "priority") in
         let* reason := lift (get subPage "reason") in
         let* _ := visited_add url in
         let* _ := sleep 1000 in
         ret (allPages ++ [ {| pr_data := pageData; pr_priority := priority;
                               pr_reason := reason |} ])%list
       else ret allPages
     else ret allPages)
    (fun _ => ret allPages).

(** [document.url.split('/').pop() || 'Document'] *)
Definition document_title (url : value) : result string :=
  match url with
  | VString s =>
      let last := JsString.lastSegment s "/" in
      Ok (if JsString.is_empty last then "Document" else last)
  | VUndefined => Throw (reading "undefined" "split")
  | VNull => Throw (reading "null" "split")
  | _ => Throw (not_a_function "document.url.split")
  end.

(** The body of the document loop. *)
Definition process_document (document : value) (allDocuments : list DocumentRecord)
  : M (list DocumentRecord) :=
  try_catch
    (let* url := lift (get document "url") in
     let* seen := visited_has url in
     if negb seen then
       let* documentType := lift (getDocumentType url) in
       let* documentText := extractDocumentText url documentType in
       if negb (JsString.is_empty documentText) then
         let* title := lift (document_title url) in
         let* priority := lift (get document "priority") in
         let* reason := lift (get document "reason") in
         let* _ := visited_add url in
         let* _ := sleep 1000 in
         ret (allDocuments ++ [ {| dr_url := url; dr_title := title;
                                   dr_textContent := documentText;
                                   dr_priority := priority; dr_reason := reason;
                                   dr_type := documentType |} ])%list
       else ret allDocuments
     else ret allDocuments)
    (fun _ => ret allDocuments).

Definition aiExecuteScrapingPlan (plan : value) : M ScrapedData :=
  let* allPages := scrape_main_page plan [] in
  let* sub_pages := lift (get plan "sub_pages") in
  let* max_pages := lift (get plan "max_pages") in
  let* subPages :=
    lift (Js.slice_items (NumberToString env) (StringToNumber env)
            "plan.sub_pages" sub_pages (or_else max_pages (VNumber (number_of_Z 8)))) in
  let* allPages := for_each scrape_sub_page subPages allPages in
  let* documents := lift (get plan "documents") in
  let* max_documents := lift (get plan "max_documents") in
  let* documents :=
    lift (Js.slice_items (NumberToString env) (StringToNumber env)
            "plan.documents" documents (or_else max_documents (VNumber (number_of_Z 5)))) in
  let* allDocuments := for_each process_document documents [] in
  ret {| mainPage := hd_error allPages;
         allPages := allPages;
         allDocuments := allDocuments |}.

(** *** The classifier *)

Definition fallbackAnalysis (scrapedData : ScrapedData) : RequirementSet :=
  {| attestations := VArray [];
     non_attestations := VArray [];
     analysis_notes := VString "Fallback analysis - no hardcoded patterns used" |}.

(** [jsonResponse.match(/```json\s*([\s\S]*?)\s*```/)], giving [jsonMatch[1]]:
    the match starts at the first [```json] and needs a closing fence after
    it; the lazy group stops before the white space that precedes the first
    such fence, and the greedy [\s*] has eaten the white space that follows
    [```json], so the group is what lies between them, trimmed. *)
Definition match_json_fence (s : string) : option string :=
  match JsString.indexOf s "```json" with
  | Some i =>
      let rest := JsString.drop (i + 7) s in
      match JsString.indexOf rest "```" with
      | Some j => Some (JsString.trim (JsString.substring rest 0 j))
      | None => None
      end
  | None => None
  end.

(** The cleaning of the response that precedes [JSON.parse]. *)
Definition extract_json (response : string) : string :=
  let jsonResponse := JsString.trim response in
  let jsonResponse :=
    if JsString.includes jsonResponse "```json" then
      match match_json_fence jsonResponse with
      | Some inner => JsString.trim inner
      | None => jsonResponse
      end
    else jsonResponse in
  if JsString.includes jsonResponse "{" && JsString.includes jsonResponse "}" then
    match JsString.indexOf jsonResponse "{", JsString.lastIndexOf jsonResponse "}" with
    | Some startIndex, Some lastIndex =>
        if startIndex <? lastIndex
        then JsString.substring jsonResponse startIndex (lastIndex + 1)
        else jsonResponse
    | _, _ => jsonResponse
    end
  else jsonResponse.

(** The inner [try] block of [aiAnalyzeAllData]. *)
Definition read_classification (response : string) : result RequirementSet :=
  match JSON_parse env (extract_json response) with
  | Some parsed =>
      let? a := get parsed "attestations" in
      let? n := get parsed "non_attestations" in
      let? notes := get parsed "analysis_notes" in
      Ok {| attestations := or_else a (VArray []);
            non_attestations := or_else n (VArray []);
            analysis_notes := or_else notes (VString "AI analysis completed") |}
  | None => Throw (SyntaxError "Unexpected token in JSON")
  end.

(** The inner [try ... catch (parseError)] of [aiAnalyzeAllData]. *)
Definition classify_response (scrapedData : ScrapedData) (response : string)
  : RequirementSet :=
  match read_classification response with
  | Ok requirements => requirements
  | Throw parseError => fallbackAnalysis scrapedData
  end.

Definition page_section (page : PageRecord) : result string :=
  let? reason := js_to_string (pr_reason page) in
  Ok ("=== " ++ page_title (pr_data page) ++ " (" ++ reason ++ ") ===" ++ JsString.LF
      ++ page_textContent (pr_data page)).

Definition document_section (doc : DocumentRecord) : result string :=
  let? reason := js_to_string (dr_reason doc) in
  Ok ("=== " ++ dr_title doc ++ " (" ++ reason ++ ") ["
      ++ JsString.toUpperCase (dr_type doc) ++ "] ===" ++ JsString.LF
      ++ dr_textContent doc).

Definition all_content (scrapedData : ScrapedData) : result string :=
  let? pages := map_result page_section (allPages scrapedData) in
  let pageContent := JsString.join (JsString.LF ++ JsString.LF) pages in
  let? docs := map_result document_section (allDocuments scrapedData) in
  let documentContent := JsString.join (JsString.LF ++ JsString.LF) docs in
  Ok (pageContent ++
      (if negb (JsString.is_empty documentContent)
       then JsString.LF ++ JsString.LF ++ documentContent else EmptyString)).

Definition createSchemaBasedPrompt (attestationSchema : value) (allContent : string)
  : result Prompt :=
  let? schema := get attestationSchema "attestation_schema" in
  let? fields := Js.entries schema in
  let? shown :=
    map_result
      (fun field =>
         let? displayName := js_to_string (snd field) in
         Ok (fst field ++ " (" ++ displayName ++ ")"))
      fields in
  Ok (SchemaPrompt (JsString.substring allContent 0 12000) (JsString.join ", " shown)).

Definition createBasicPrompt (allContent : string) : Prompt :=
  BasicPrompt (JsString.substring allContent 0 12000).

(** What [aiAnalyzeAllData] computes before its [try] block. *)
Definition classification_prompt (scrapedData : ScrapedData) : result Prompt :=
  let? allContent := all_content scrapedData in
  let attestationSchema := loadAttestationSchema in
  if truthy attestationSchema
  then createSchemaBasedPrompt attestationSchema allContent
  else Ok (createBasicPrompt allContent).

Definition aiAnalyzeAllData (scrapedData : ScrapedData) (originalUrl : string)
  : M RequirementSet :=
  let* prompt := lift (classification_prompt scrapedData) in
  try_catch
    (let* response := complete prompt in
     ret (classify_response scrapedData response))
    (fun error => ret (fallbackAnalysis scrapedData)).

(** *** The entry point *)

Definition result_title (scrapedData : ScrapedData) : string :=
  match mainPage scrapedData with
  | Some page =>
      if JsString.is_empty (page_title (pr_data page)) then "Unknown"
      else page_title (pr_data page)
  | None => "Unknown"
  end.

Definition analyzeSubsidy (url : string) : M AnalysisResult :=
  try_catch
    (let* scrapingPlan := aiCreateScrapingPlan url in
     let* scrapedData := aiExecuteScrapingPlan scrapingPlan in
     let* requirements := aiAnalyzeAllData scrapedData url in
     let* t := time in
     ret (Analysis url (result_title scrapedData) requirements (now env t)
                   (List.length (allPages scrapedData)) scrapingPlan))
    (fun error =>
       let* t := time in
       ret (AnalysisError url (message error) (now env t))).

End Agent.

(** A freshly constructed agent. *)
Definition new_agent : State := {| visitedUrls := []; trace := [] |}.

(* ================================================================= *)
(** ** Vocabulary of the properties *)

(** Whether the validator keeps a proposed sub-page. *)
Definition listed (actualLinks : list LinkRecord) (subPage : value) : bool :=
  match get subPage "url" with
  | Ok url => set_has (map (fun link => VString (link_url link)) actualLinks) url
  | Throw _ => false
  end.

Section Observations.

Variable env : Env.

(** The text [extractDocumentText] returns at time [t]: the extractor's
    output when the download succeeds, the empty string otherwise. *)
Definition document_text (t : nat) (url : value) (documentType : string) : string :=
  match http_get env t url with
  | Ok response =>
      if ok response then extract_by_type env documentType (body response)
      else EmptyString
  | Throw _ => EmptyString
  end.

(** The three ways one turn of the document loop can go: the target is
    skipped before any request; it is requested and the text is empty, so
    nothing is recorded; or it is requested, recorded and marked visited. *)
Inductive DocumentStep (document : value) (allDocuments : list DocumentRecord)
  (st : State) : list DocumentRecord -> State -> Prop :=
| SkipDocument :
    (forall url, get document "url" = Ok url ->
                 set_has (visitedUrls st) url = false ->
                 exists e, getDocumentType url = Throw e) ->
    DocumentStep document allDocuments st allDocuments st
| EmptyDocument u documentType :
    get document "url" = Ok (VString u) ->
    set_has (visitedUrls st) (VString u) = false ->
    getDocumentType (VString u) = Ok documentType ->
    document_text (List.length (trace st)) (VString u) documentType = EmptyString ->
    DocumentStep document allDocuments st allDocuments (log (Get (VString u)) st)
| RecordDocument u documentType record :
    get document "url" = Ok (VString u) ->
    set_has (visitedUrls st) (VString u) = false ->
    getDocumentType (VString u) = Ok documentType ->
    document_text (List.length (trace st)) (VString u) documentType <> EmptyString ->
    dr_url record = VString u ->
    dr_type record = documentType ->
    dr_textContent record
      = document_text (List.length (trace st)) (VString u) documentType ->
    DocumentStep document allDocuments st (allDocuments ++ [record])%list
      (log (Delay 1000) (mark (VString u) (log (Get (VString u)) st))).

(** The prompt the synthesizer sends after it has scraped the main page. *)
Definition synthesis_prompt (mainUrl : string) (mainPageData : PageData) (st : State)
  : Prompt :=
  plan_prompt mainUrl mainPageData
    (extractActualLinks env (visitedUrls st) (page_html mainPageData) mainUrl)
    (extractDocumentLinks env (visitedUrls st) (page_html mainPageData) mainUrl).

End Observations.

(* ================================================================= *)
(** ** A JSON reader

    An executable instance of [JSON_parse] for the concrete runs below: the
    JSON grammar of ECMA-404 on Latin-1 text.  A [\u] escape above U+00FF
    has no character in this alphabet and is refused.  Numbers are rounded
    to the nearest binary64 float, ties to even. *)

Module Json.

Definition is_ws (c : ascii) : bool :=
  let n := JsString.code c in (n =? 32) || (n =? 9) || (n =? 10) || (n =? 13).

Fixpoint skip_ws (s : string) : string :=
  match s with
  | String c r => if is_ws c then skip_ws r else s
  | EmptyString => EmptyString
  end.

Definition is_digit (c : ascii) : bool :=
  let n := JsString.code c in (48 <=? n) && (n <=? 57).

(** the longest prefix of digits, and what follows it *)
Fixpoint span_digits (s : string) : string * string :=
  match s with
  | String c r =>
      if is_digit c
      then let (ds, rest) := span_digits r in (String c ds, rest)
      else (EmptyString, s)
  | EmptyString => (EmptyString, EmptyString)
  end.

Fixpoint digits_value (acc : Z) (ds : string) : Z :=
  match ds with
  | String c r => digits_value (10 * acc + Z.of_nat (JsString.code c - 48))%Z r
  | EmptyString => acc
  end.

Definition hex_value (c : ascii) : option nat :=
  let n := JsString.code c in
  if (48 <=? n) && (n <=? 57) then Some (n - 48)
  else if (65 <=? n) && (n <=? 70) then Some (n - 55)
  else if (97 <=? n) && (n <=? 102) then Some (n - 87)
  else None.

(** [m * 10^e] as a binary64 float *)
Definition of_decimal (negative : bool) (m e : Z) : spec_float :=
  match m with
  | Zpos p =>
      if (0 <=? e)%Z
      then binary_round 53 1024 negative (p * Z.to_pos (10 ^ e)) 0
      else SFdiv 53 1024 (S754_finite negative p 0)
                         (S754_finite false (Z.to_pos (10 ^ (- e))) 0)
  | _ => S754_zero negative
  end.

Definition parse_number (s : string) : option (spec_float * string) :=
  let (negative, s1) :=
    match s with
    | String "-" r => (true, r)
    | _ => (false, s)
    end in
  let (int_part, s2) := span_digits s1 in
  let int_ok :=
    match int_part with
    | EmptyString => false
    | String "0" (String _ _) => false
    | _ => true
    end in
  if negb int_ok then None else
  let frac :=
    match s2 with
    | String "." r =>
        let (ds, rest) := span_digits r in
        if JsString.is_empty ds then None else Some (ds, rest)
    | _ => Some (EmptyString, s2)
    end in
  match frac with
  | None => None
  | Some (frac_part, s3) =>
      let expo :=
        match s3 with
        | String c r =>
            if Ascii.eqb c "e" || Ascii.eqb c "E" then
              let (minus, r1) :=
                match r with
                | String "-" r' => (true, r')
                | String "+" r' => (false, r')
                | _ => (false, r)
                end in
              let (ds, rest) := span_digits r1 in
              if JsString.is_empty ds then None
              else Some (if minus then Z.opp (digits_value 0 ds)
                         else digits_value 0 ds, rest)
            else Some (0%Z, s3)
        | EmptyString => Some (0%Z, s3)
        end in
      match expo with
      | None => None
      | Some (e, s4) =>
          Some (of_decimal negative (digits_value 0 (int_part ++ frac_part))
                           (e - Z.of_nat (String.length frac_part)), s4)
      end
  end.

(** The characters of a string literal after its opening quote, up to the
    closing one. *)
Fixpoint parse_chars (fuel : nat) (s : string) : option (string * string) :=
  match fuel, s with
  | S fuel', String c r =>
      if Ascii.eqb c JsString.quote then Some (EmptyString, r)
      else if Ascii.eqb c "\" then
        match r with
        | String e r' =>
            let plain (x : ascii) :=
              match parse_chars fuel' r' with
              | Some (str, rest) => Some (String x str, rest)
              | None => None
              end in
            if Ascii.eqb e JsString.quote then plain JsString.quote
            else if Ascii.eqb e "\" then plain "\"%char
            else if Ascii.eqb e "/" then plain "/"%char
            else if Ascii.eqb e "b" then plain (ascii_of_nat 8)
            else if Ascii.eqb e "f" then plain (ascii_of_nat 12)
            else if Ascii.eqb e "n" then plain (ascii_of_nat 10)
            else if Ascii.eqb e "r" then plain (ascii_of_nat 13)
            else if Ascii.eqb e "t" then plain (ascii_of_nat 9)
            else if Ascii.eqb e "u" then
              match r' with
              | String h1 (String h2 (String h3 (String h4 r''))) =>
                  match hex_value h1, hex_value h2, hex_value h3, hex_value h4 with
                  | Some 0, Some 0, Some a, Some b =>
                      match parse_chars fuel' r'' with
                      | Some (str, rest) => Some (String (ascii_of_nat (16 * a + b)) str, rest)
                      | None => None
                      end
                  | _, _, _, _ => None
                  end
              | _ => None
              end
            else None
        | EmptyString => None
        end
      else if JsString.code c <? 32 then None
      else
        match parse_chars fuel' r with
        | Some (str, rest) => Some (String c str, rest)
        | None => None
        end
  | _, _ => None
  end.

(** An array index: the canonical decimal form of an integer below
    [2^32 - 1].  Such keys come first in property order, ascending. *)
Definition array_index (k : string) : option Z :=
  let (ds, rest) := span_digits k in
  if JsString.is_empty rest && negb (JsString.is_empty ds)
     && (String.eqb ds "0" || negb (prefix "0" ds))
     && (digits_value 0 ds <? 4294967295)%Z
  then Some (digits_value 0 ds) else None.

Fixpoint insert_index (k : Z) (p : string * value) (sorted : list (Z * (string * value)))
  : list (Z * (string * value)) :=
  match sorted with
  | [] => [(k, p)]
  | (k', p') :: rest =>
      if (k <? k')%Z then (k, p) :: sorted else (k', p') :: insert_index k p rest
  end.

(** The properties of an object literal read left to right: a repeated key
    keeps its first place and takes its last value. *)
Definition define_props (members : list (string * value)) : list (string * value) :=
  let props := fold_left (fun acc m => store acc (fst m) (snd m)) members [] in
  let indices :=
    fold_left
      (fun acc p => match array_index (fst p) with
                    | Some k => insert_index k p acc
                    | None => acc
                    end)
      props [] in
  let named :=
    filter (fun p => match array_index (fst p) with Some _ => false | None => true end)
           props in
  (map snd indices ++ named)%list.

Fixpoint parse_value (fuel : nat) (s : string) : option (value * string) :=
  match fuel with
  | O => None
  | S fuel' =>
      let s := skip_ws s in
      if prefix "null" s then Some (VNull, JsString.drop 4 s)
      else if prefix "true" s then Some (VBool true, JsString.drop 4 s)
      else if prefix "false" s then Some (VBool false, JsString.drop 5 s)
      else
        match s with
        | String c r =>
            if Ascii.eqb c JsString.quote then
              match parse_chars (String.length r) r with
              | Some (str, rest) => Some (VString str, rest)
              | None => None
              end
            else if Ascii.eqb c "[" then
              match skip_ws r with
              | String "]" rest => Some (VArray [], rest)
              | _ =>
                  match parse_elements fuel' r with
                  | Some (items, rest) => Some (VArray items, rest)
                  | None => None
                  end
              end
            else if Ascii.eqb c "{" then
              match skip_ws r with
              | String "}" rest => Some (VObject [], rest)
              | _ =>
                  match parse_members fuel' r with
                  | Some (members, rest) => Some (VObject (define_props members), rest)
                  | None => None
                  end
              end
            else
              match parse_number s with
              | Some (x, rest) => Some (VNumber x, rest)
              | None => None
              end
        | EmptyString => None
        end
  end

with parse_elements (fuel : nat) (s : string) : option (list value * string) :=
  match fuel with
  | O => None
  | S fuel' =>
      match parse_value fuel' s with
      | Some (v, rest) =>
          match skip_ws rest with
          | String "," rest' =>
              match parse_elements fuel' rest' with
              | Some (vs, rest'') => Some (v :: vs, rest'')
              | None => None
              end
          | String "]" rest' => Some ([v], rest')
          | _ => None
          end
      | None => None
      end
  end

with parse_members (fuel : nat) (s : string)
  : option (list (string * value) * string) :=
  match fuel with
  | O => None
  | S fuel' =>
      match skip_ws s with
      | String c r =>
          if Ascii.eqb c JsString.quote then
            match parse_chars (String.length r) r with
            | Some (key, rest) =>
                match skip_ws rest with
                | String ":" rest1 =>
                    match parse_value fuel' rest1 with
                    | Some (v, rest2) =>
                        match skip_ws rest2 with
                        | String "," rest3 =>
                            match parse_members fuel' rest3 with
                            | Some (ms, rest4) => Some ((key, v) :: ms, rest4)
                            | None => None
                            end
                        | String "}" rest3 => Some ([(key, v)], rest3)
                        | _ => None
                        end
                    | None => None
                    end
                | _ => None
                end
            | None => None
            end
          else None
      | EmptyString => None
      end
  end.

Definition parse (s : string) : option value :=
  match parse_value (2 * String.length s + 2) s with
  | Some (v, rest) => if JsString.is_empty (skip_ws rest) then Some v else None
  | None => None
  end.

(** Test data is written with apostrophes where JSON has quotation marks. *)
Fixpoint quoted (s : string) : string :=
  match s with
  | String c r =>
      String (if Ascii.eqb c JsString.apostrophe then JsString.quote else c) (quoted r)
  | EmptyString => EmptyString
  end.

End Json.

(* ================================================================= *)
(** ** Concrete worlds

    The scenario of the specification: the main page links to
    [/onderwerpen/a] (text "Voorwaarden") and to [/doc/plan.pdf]; the
    oracle proposes both, and a sub-page [/onderwerpen/fake] that is not on
    the page. *)

Module Scenario.

Definition mainUrl : string := "https://www.rvo.nl/onderwerpen/dhi".
Definition pageUrl : string := "https://www.rvo.nl/onderwerpen/a".
Definition planUrl : string := "https://www.rvo.nl/doc/plan.pdf".
Definition fakeUrl : string := "https://www.rvo.nl/onderwerpen/fake".

Definition main_html : string := "<h1>DHI</h1>".
Definition page_html_a : string := "<h1>Voorwaarden</h1>".
Definition pdf_bytes : string := "%PDF-1.7".

Definition main_anchors : list (string * string) :=
  [ ("/onderwerpen/a", "Voorwaarden"); ("/doc/plan.pdf", " Projectplan ") ].

Definition plan_json : string :=
  Json.quoted
    ("{'main_page':{'url':'https://www.rvo.nl/onderwerpen/dhi','title':'DHI','priority':'high'},"
     ++ "'sub_pages':[{'url':'https://www.rvo.nl/onderwerpen/a','reason':'conditions','priority':'high'},"
     ++ "{'url':'https://www.rvo.nl/onderwerpen/fake','reason':'invented','priority':'low'}],"
     ++ "'documents':[{'url':'https://www.rvo.nl/doc/plan.pdf','reason':'plan','priority':'high'}],"
     ++ "'max_pages':8,'max_documents':5,'focus_keywords':['requirement']}").

Definition classification_json : string :=
  Json.quoted
    "{'attestations':['chamber_of_commerce_kvk_nummer'],'non_attestations':['projectplan'],'analysis_notes':'ok'}".

Definition serve (u : string) : Response :=
  if String.eqb u mainUrl then {| status := 200; body := main_html |}
  else if String.eqb u pageUrl then {| status := 200; body := page_html_a |}
  else if String.eqb u planUrl then {| status := 200; body := pdf_bytes |}
  else {| status := 404; body := "Not found" |}.

Definition request (answer : string -> Response) (url : value) : result Response :=
  match url with
  | VString u => Ok (answer u)
  | _ => Throw (TypeError "Only absolute URLs are supported")
  end.

Definition oracle (p : Prompt) : option string :=
  match p with
  | PlanPrompt _ _ _ _ _ => Some plan_json
  | _ => Some classification_json
  end.

(** Decimal literals only; the scenarios never coerce a string or print a
    number. *)
Definition string_to_number (s : string) : spec_float :=
  match Json.parse_number (JsString.trim s) with
  | Some (x, EmptyString) => x
  | _ => S754_nan
  end.

Definition number_to_string (x : spec_float) : string :=
  match Js.to_integer_or_infinity x with
  | Js.Finite z => JsString.of_Z z
  | Js.PlusInfinity => "Infinity"
  | Js.MinusInfinity => "-Infinity"
  end.

Definition world : Env :=
  {| http_get := fun _ => request serve;
     http_head := fun _ => request serve;
     chat := fun _ => oracle;
     now := fun _ => "2025-01-01T00:00:00.000Z";
     JSON_parse := Json.parse;
     anchors := fun html => if String.eqb html main_html then main_anchors else [];
     h1_text := fun html => if String.eqb html main_html then "DHI" else "Voorwaarden";
     title_text := fun _ => "RVO";
     body_text := fun html =>
       if String.eqb html main_html then "DHI   subsidie" else "U heeft een KvK-nummer nodig";
     pdf := fun _ => Some "Projectplan vereist";
     mammoth_extractRawText := fun _ => None;
     XLSX_read := fun _ => None;
     NumberToString := number_to_string;
     StringToNumber := string_to_number;
     schema_file := None |}.

Definition with_chat (c : nat -> Prompt -> option string) (w : Env) : Env :=
  {| http_get := http_get w; http_head := http_head w; chat := c; now := now w;
     JSON_parse := JSON_parse w; anchors := anchors w; h1_text := h1_text w;
     title_text := title_text w; body_text := body_text w; pdf := pdf w;
     mammoth_extractRawText := mammoth_extractRawText w; XLSX_read := XLSX_read w;
     NumberToString := NumberToString w; StringToNumber := StringToNumber w;
     schema_file := schema_file w |}.

Definition with_http_get (g : nat -> value -> result Response) (w : Env) : Env :=
  {| http_get := g; http_head := http_head w; chat := chat w; now := now w;
     JSON_parse := JSON_parse w; anchors := anchors w; h1_text := h1_text w;
     title_text := title_text w; body_text := body_text w; pdf := pdf w;
     mammoth_extractRawText := mammoth_extractRawText w; XLSX_read := XLSX_read w;
     NumberToString := NumberToString w; StringToNumber := StringToNumber w;
     schema_file := schema_file w |}.

Definition with_pdf (f : string -> option string) (w : Env) : Env :=
  {| http_get := http_get w; http_head := http_head w; chat := chat w; now := now w;
     JSON_parse := JSON_parse w; anchors := anchors w; h1_text := h1_text w;
     title_text := title_text w; body_text := body_text w; pdf := f;
     mammoth_extractRawText := mammoth_extractRawText w; XLSX_read := XLSX_read w;
     NumberToString := NumberToString w; StringToNumber := StringToNumber w;
     schema_file := schema_file w |}.

(** The links harvested from the main page by a fresh agent. *)
Definition links : list LinkRecord := extractActualLinks world [] main_html mainUrl.
Definition documentLinks : list DocumentLink := extractDocumentLinks world [] main_html mainUrl.

Definition entry (url reason priority : string) : value :=
  VObject [ ("url", VString url); ("reason", VString reason);
            ("priority", VString priority) ].

(** The plan the oracle proposes, parsed. *)
Definition proposed_plan : value :=
  VObject
    [ ("main_page", VObject [ ("url", VString mainUrl); ("title", VString "DHI");
                              ("priority", VString "high") ]);
      ("sub_pages", VArray [ entry pageUrl "conditions" "high";
                             entry fakeUrl "invented" "low" ]);
      ("documents", VArray [ entry planUrl "plan" "high" ]);
      ("max_pages", VNumber (number_of_Z 8));
      ("max_documents", VNumber (number_of_Z 5));
      ("focus_keywords", VArray [ VString "requirement" ]) ].

(** A plan that names the document both as a sub-page and as a document. *)
Definition overlapping_plan : value :=
  VObject
    [ ("main_page", VObject [ ("url", VString mainUrl); ("title", VString "DHI");
                              ("priority", VString "high") ]);
      ("sub_pages", VArray [ entry planUrl "plan as page" "high" ]);
      ("documents", VArray [ entry planUrl "plan" "high" ]) ].

(** A server that fails the retrieval of the document. *)
Definition serve_failing (u : string) : Response :=
  if String.eqb u planUrl then {| status := 500; body := "Internal Server Error" |}
  else serve u.

(** What validation leaves of the proposed plan. *)
Definition validated_plan : value :=
  VObject
    [ ("main_page", VObject [ ("url", VString mainUrl); ("title", VString "DHI");
                              ("priority", VString "high") ]);
      ("sub_pages", VArray [ entry pageUrl "conditions" "high" ]);
      ("documents", VArray [ entry planUrl "plan" "high" ]);
      ("max_pages", VNumber (number_of_Z 8));
      ("max_documents", VNumber (number_of_Z 5));
      ("focus_keywords", VArray [ VString "requirement" ]) ].

(** A presentation that classifies as ['pptx']. *)
Definition slidesUrl : string := "https://www.rvo.nl/doc/slides.pptx".

Definition nothing_scraped : ScrapedData :=
  {| mainPage := None; allPages := []; allDocuments := [] |}.

(** The oracle answers in prose at both stages. *)
Definition prose : string := "I am sorry, I cannot produce a plan for this page.".
Definition world_prose : Env := with_chat (fun _ _ => Some prose) world.

(** The oracle cannot be reached at all. *)
Definition world_oracle_down : Env := with_chat (fun _ _ => None) world.

(** The oracle gives the plan, then cannot be reached for the
    classification. *)
Definition world_classifier_down : Env :=
  with_chat (fun _ p => match p with
                        | PlanPrompt _ _ _ _ _ => Some plan_json
                        | _ => None
                        end) world.

(** The PDF extractor finds no text in the document. *)
Definition world_empty_pdf : Env := with_pdf (fun _ => Some EmptyString) world.

(** The server answers the probe for the document and fails its retrieval. *)
Definition world_failing_get : Env := with_http_get (fun _ => request serve_failing) world.

(** How often [url] was requested with GET. *)
Definition gets (url : string) (events : list Event) : nat :=
  List.length
    (filter (fun ev => match ev with
                       | Get (VString u) => String.eqb u url
                       | _ => false
                       end) events).

End Scenario.

(* ================================================================= *)
(** ** Vocabulary of the further properties *)

(** The URL a link's [href] stands for. *)
Definition resolved (href : string) : string :=
  if JsString.startsWith href "/" then baseUrl ++ href else href.

(** The plans on which validation does not throw. *)
Definition validatable (plan : value) : Prop :=
  exists props proposed,
    plan = VObject props /\
    lookup props "sub_pages" = Some (VArray proposed) /\
    Forall (fun subPage => subPage <> VNull /\ subPage <> VUndefined) proposed.

(** What is known of a recorded document. *)
Definition recorded (before after : State) (record : DocumentRecord) : Prop :=
  exists u,
    dr_url record = VString u /\
    dr_textContent record <> EmptyString /\
    getDocumentType (VString u) = Ok (dr_type record) /\
    In (dr_type record) ["pdf"; "docx"; "xlsx"] /\
    dr_title record <> EmptyString /\
    set_has (visitedUrls before) (VString u) = false /\
    set_has (visitedUrls after) (VString u) = true.

(** The block [extractXlsxText] writes for one sheet. *)
Definition sheet_block (sheet : string * string) : string :=
  JsString.LF ++ "=== Sheet: " ++ fst sheet ++ " ===" ++ JsString.LF
  ++ snd sheet ++ JsString.LF.

Section Attempts.

Variable env : Env.

(** The second attempt of the synthesizer, from state [st1]: the main page
    is fetched again and the fallback plan built from it. *)
Definition second_attempt (mainUrl : string) (st1 : State) : result value * State :=
  match scrapePage env (VString mainUrl) st1 with
  | (Ok mainPageData, st2) => (Ok (createFallbackScrapingPlan mainUrl mainPageData), st2)
  | (Throw e, st2) => (Throw e, st2)
  end.

End Attempts.

(** [v.k] where the read cannot throw. *)
Definition prop (v : value) (k : string) : value :=
  match get v k with Ok x => x | Throw _ => VUndefined end.

(** How many delays a sequence of events holds. *)
Definition delays (events : list Event) : nat :=
  List.length (filter (fun ev => match ev with Delay _ => true | _ => false end) events).

(** The events of the crawl: requests, and delays of one second. *)
Definition crawl_event (ev : Event) : Prop :=
  match ev with
  | Get _ | Head _ => True
  | Delay ms => ms = 1000
  | Chat _ => False
  end.

(** The values [ToNumber] never throws on. *)
Definition primitive (v : value) : Prop :=
  match v with
  | VArray _ | VObject _ => False
  | _ => True
  end.

(** [st'] comes after [st]: the visited set and the trace have only been
    appended to. *)
Definition extends (st st' : State) : Prop :=
  (exists new, visitedUrls st' = (visitedUrls st ++ new)%list) /\
  (exists added, trace st' = (trace st ++ added)%list).

(** A computation that only appends to the agent's state, whether it
    returns or throws. *)
Definition Extending {A} (m : M A) : Prop := forall st, extends st (snd (m st)).

(** A sub-page the synthesizer may hand to the executor: its URL is a
    string on the site's domain that the agent has not visited. *)
Definition crawlable (visited : list value) (subPage : value) : Prop :=
  exists u,
    get subPage "url" = Ok (VString u) /\
    JsString.includes u "rvo.nl" = true /\
    set_has visited (VString u) = false.

(** An exception whose message is not empty. *)
Definition informative (e : exn) : Prop := message e <> EmptyString.

(** A computation that throws only informative exceptions. *)
Definition Informative {A} (m : M A) : Prop :=
  forall st e st', m st = (Throw e, st') -> informative e.

Definition informative_result {A} (r : result A) : Prop :=
  forall e, r = Throw e -> informative e.

(* ================================================================= *)
(** ** server.js: the handler of [POST /analyze] *)

(** What the handler sends: [res.status(code).json(body)]. *)
Record Reply : Type := {
  reply_status : nat;
  reply_body : value
}.

(** [const { url } = req.body] *)
Definition body_url (body : value) : result value :=
  match body with
  | VUndefined =>
      Throw (TypeError
        "Cannot destructure property 'url' of 'req.body' as it is undefined.")
  | VNull =>
      Throw (TypeError "Cannot destructure property 'url' of 'req.body' as it is null.")
  | _ => get body "url"
  end.

(** [url.startsWith(p)]; only a string has the method. *)
Definition url_startsWith (url : value) (p : string) : result bool :=
  match url with
  | VString s => Ok (JsString.startsWith s p)
  | VUndefined => Throw (reading "undefined" "startsWith")
  | VNull => Throw (reading "null" "startsWith")
  | _ => Throw (not_a_function "url.startsWith")
  end.

Definition url_required : Reply :=
  {| reply_status := 400;
     reply_body :=
       VObject [ ("error", VString "URL is required");
                 ("message", VString "Please provide a URL in the request body") ] |}.

Definition invalid_url_format : Reply :=
  {| reply_status := 400;
     reply_body :=
       VObject [ ("error", VString "Invalid URL format");
                 ("message", VString "URL must start with http:// or https://") ] |}.

Definition analysis_failed (error : string) (url : value) : Reply :=
  {| reply_status := 500;
     reply_body :=
       VObject [ ("error", VString "Analysis failed");
                 ("message", VString error);
                 ("url", url) ] |}.

Definition internal_server_error (error : exn) : Reply :=
  {| reply_status := 500;
     reply_body :=
       VObject [ ("error", VString "Internal server error");
                 ("message", VString (message error)) ] |}.

(** The clean JSON response of a successful analysis, sent with status 200. *)
Definition analysis_response (url title analyzed_at : string) (pages_analyzed : nat)
  (requirements : RequirementSet) : Reply :=
  {| reply_status := 200;
     reply_body :=
       VObject [ ("success", VBool true);
                 ("url", VString url);
                 ("title", VString title);
                 ("analyzed_at", VString analyzed_at);
                 ("pages_analyzed", VNumber (number_of_Z (Z.of_nat pages_analyzed)));
                 ("attestations", or_else (attestations requirements) (VArray []));
                 ("non_attestations",
                  or_else (non_attestations requirements) (VArray []));
                 ("analysis_notes",
                  or_else (analysis_notes requirements) (VString EmptyString)) ] |}.

(** [v.length]: an array and a string have the property, an object its
    own one if any, and nothing else has one. *)
Definition length_of (v : value) : result value :=
  match v with
  | VArray items => Ok (VNumber (number_of_Z (Z.of_nat (List.length items))))
  | VString s => Ok (VNumber (number_of_Z (Z.of_nat (String.length s))))
  | _ => get v "length"
  end.

Section Server.

Variable env : Env.

(** The line the handler logs before it sends the response of a successful
    analysis, a template literal over [url], [response.attestations.length]
    and [response.non_attestations.length], reduced to the three strings
    interpolated into it. It is evaluated inside the handler's [try], and
    ToString throws on a length that has no primitive value. *)
Definition completion_log (url attestations non_attestations : value)
  : result (string * string * string) :=
  let? shown := js_to_string env url in
  let? a := length_of attestations in
  let? a := js_to_string env a in
  let? n := length_of non_attestations in
  let? n := js_to_string env n in
  Ok (shown, a, n).

(** What follows [await agent.analyzeSubsidy(url)]. *)
Definition reply_to (url : value) (answer : AnalysisResult) : result Reply :=
  match answer with
  | AnalysisError _ error _ =>
      if negb (JsString.is_empty error) then Ok (analysis_failed error url)
      else Throw (reading "undefined" "attestations")
  | Analysis u title requirements analyzed_at pages_analyzed _ =>
      let response := analysis_response u title analyzed_at pages_analyzed requirements in
      let? logged :=
        completion_log url (prop (reply_body response) "attestations")
                       (prop (reply_body response) "non_attestations") in
      Ok response
  end.

(** The [try] block of the handler: the reply, and what the agent created
    for the request has done. *)
Definition analyze_request (body : value) : result Reply * list Event :=
  match body_url body with
  | Throw e => (Throw e, [])
  | Ok url =>
      if negb (truthy url) then (Ok url_required, [])
      else
        match url_startsWith url "http://" with
        | Throw e => (Throw e, [])
        | Ok http =>
            match (if negb http then url_startsWith url "https://" else Ok true) with
            | Throw e => (Throw e, [])
            | Ok false => (Ok invalid_url_format, [])
            | Ok true =>
                match url with
                | VString u =>
                    match analyzeSubsidy env u new_agent with
                    | (Ok answer, agent) => (reply_to url answer, trace agent)
                    | (Throw e, agent) => (Throw e, trace agent)
                    end
                | _ => (Throw (not_a_function "url.startsWith"), [])
                end
            end
        end
  end.

(** [app.post('/analyze', ...)]: the reply to a request with body [body]. *)
Definition post_analyze (body : value) : Reply * list Event :=
  match analyze_request body with
  | (Ok reply, events) => (reply, events)
  | (Throw error, events) => (internal_server_error error, events)
  end.

End Server.

(** The prompts among a sequence of events, in order. *)
Definition chats (events : list Event) : list Prompt :=
  flat_map (fun ev => match ev with Chat p => [p] | _ => [] end) events.

(** The scraped text a prompt carries, and the number of characters its
    template cuts it to. *)
Definition prompt_content (p : Prompt) : string :=
  match p with
  | PlanPrompt _ _ content _ _ => content
  | SchemaPrompt content _ => content
  | BasicPrompt content => content
  end.

Definition prompt_limit (p : Prompt) : nat :=
  match p with
  | PlanPrompt _ _ _ _ _ => 3000
  | SchemaPrompt _ _ | BasicPrompt _ => 12000
  end.

(** A string URL that names the site's domain. *)
Definition on_site (v : value) : Prop :=
  exists u, v = VString u /\ JsString.includes u "rvo.nl" = true.

(** What a run of the pipeline may do to the outside world: probe the site
    only, send prompts cut to their limit, pause for a second. *)
Definition polite (ev : Event) : Prop :=
  match ev with
  | Get _ => True
  | Head url => on_site url
  | Chat p => String.length (prompt_content p) <= prompt_limit p
  | Delay ms => ms = 1000
  end.

(** A computation that, whether it returns or throws, appends to the trace
    only events that satisfy [P], at most [n] prompts among them. *)
Definition Emitting (P : Event -> Prop) (n : nat) {A} (m : M A) : Prop :=
  forall st,
    exists added,
      trace (snd (m st)) = (trace st ++ added)%list /\
      Forall P added /\
      List.length (chats added) <= n.

(** A text whose only white space is single spaces: every white-space
    character is [" "] and none follows another; [after_space] tells
    whether the character before the text is white space. *)
Fixpoint single_spaced (after_space : bool) (s : string) : bool :=
  match s with
  | String c r =>
      if JsString.is_space c
      then negb after_space && Ascii.eqb c " " && single_spaced true r
      else single_spaced false r
  | EmptyString => true
  end.

(** The scenario world with a presentation linked from the main page and
    served by the site. *)
Definition serve_slides (u : string) : Response :=
  if String.eqb u Scenario.slidesUrl then {| status := 200; body := "PK" |}
  else Scenario.serve u.

Definition world_slides : Env :=
  let w := Scenario.world in
  {| http_get := fun _ => Scenario.request serve_slides;
     http_head := fun _ => Scenario.request serve_slides;
     chat := chat w; now := now w; JSON_parse := JSON_parse w;
     anchors := fun html =>
       if String.eqb html Scenario.main_html
       then (Scenario.main_anchors ++ [ ("/doc/slides.pptx", "Presentatie") ])%list
       else [];
     h1_text := h1_text w; title_text := title_text w; body_text := body_text w;
     pdf := pdf w; mammoth_extractRawText := mammoth_extractRawText w;
     XLSX_read := XLSX_read w; NumberToString := NumberToString w;
     StringToNumber := StringToNumber w; schema_file := schema_file w |}.

(** A plan that names the presentation both as a sub-page and as a
    document. *)
Definition slides_plan : value :=
  VObject
    [ ("main_page", VObject [ ("url", VString Scenario.mainUrl);
                              ("title", VString "DHI");
                              ("priority", VString "high") ]);
      ("sub_pages", VArray [ Scenario.entry Scenario.slidesUrl "slides as page" "low" ]);
      ("documents", VArray [ Scenario.entry Scenario.slidesUrl "slides" "low" ]) ].

(** The oracle gives the plan, then a classification whose [attestations]
    is an object with a [length] that cannot be printed. *)
Definition unprintable_json : string :=
  Json.quoted "{'attestations':{'length':{'toString':1}},'non_attestations':[]}".

Definition world_unprintable : Env :=
  Scenario.with_chat
    (fun _ p => match p with
                | PlanPrompt _ _ _ _ _ => Some Scenario.plan_json
                | _ => Some unprintable_json
                end) Scenario.world.

(** The scenario world with a schema file that holds an object without
    the field list. *)
Definition world_schema_without_fields : Env :=
  let w := Scenario.world in
  {| http_get := http_get w; http_head := http_head w; chat := chat w; now := now w;
     JSON_parse := JSON_parse w; anchors := anchors w; h1_text := h1_text w;
     title_text := title_text w; body_text := body_text w; pdf := pdf w;
     mammoth_extractRawText := mammoth_extractRawText w; XLSX_read := XLSX_read w;
     NumberToString := NumberToString w; StringToNumber := StringToNumber w;
     schema_file := Some "{}" |}.

(* ================================================================= *)
(** ** Properties of the plan validator *)

Lemma bind_Ok {A B} (r : result A) (k : A -> result B) (b : B) :
  Js.bind r k = Ok b -> exists a, r = Ok a /\ k a = Ok b.
Proof.
  destruct r as [a|e]; simpl; intros H; [exists a; auto | discriminate].
Qed.

Lemma lookup_store_same props k v : lookup (store props k v) k = Some v.
Proof.
  induction props as [|[k' v'] rest IH]; simpl.
  - now rewrite String.eqb_refl.
  - destruct (String.eqb k' k) eqn:E; simpl.
    + now rewrite String.eqb_refl.
    + now rewrite E.
Qed.

Lemma lookup_store_other props k v k' :
  k' <> k -> lookup (store props k v) k' = lookup props k'.
Proof.
  intros Hne. induction props as [|[k0 v0] rest IH]; simpl.
  - destruct (String.eqb k k') eqn:E; [apply String.eqb_eq in E; congruence | reflexivity].
  - destruct (String.eqb k0 k) eqn:E; simpl.
    + apply String.eqb_eq in E. subst k0.
      destruct (String.eqb k k') eqn:E'; [apply String.eqb_eq in E'; congruence | reflexivity].
    + destruct (String.eqb k0 k'); [reflexivity | exact IH].
Qed.

Lemma store_keys props k v :
  lookup props k <> None -> map fst (store props k v) = map fst props.
Proof.
  induction props as [|[k' v'] rest IH]; simpl; intros H.
  - congruence.
  - destruct (String.eqb k' k) eqn:E; simpl.
    + apply String.eqb_eq in E. now subst.
    + now rewrite IH.
Qed.

Lemma filter_result_Ok {A} (f : A -> result bool) items kept :
  filter_result f items = Ok kept ->
  kept = filter (fun x => match f x with Ok b => b | Throw _ => false end) items.
Proof.
  revert kept. induction items as [|x rest IH]; simpl; intros kept H.
  - now inversion H.
  - apply bind_Ok in H as (keep & Hx & H).
    apply bind_Ok in H as (kept' & Hrest & H).
    inversion H; subst. rewrite Hx, (IH _ Hrest). reflexivity.
Qed.

Lemma set_has_urls actualLinks url :
  set_has (map (fun link => VString (link_url link)) actualLinks) url = true ->
  exists u, url = VString u /\ In u (map link_url actualLinks).
Proof.
  unfold set_has. rewrite existsb_exists. intros (x & Hin & Hsame).
  apply in_map_iff in Hin as (link & <- & Hin).
  destruct url; simpl in Hsame; try discriminate.
  apply String.eqb_eq in Hsame. subst.
  eexists; split; [reflexivity | now apply in_map].
Qed.

(** What a successful validation looks like: the plan is an object whose
    [sub_pages] is an array, and the result is that object with the array
    filtered. *)
Lemma validateScrapingPlan_Ok plan actualLinks validPlan :
  validateScrapingPlan plan actualLinks = Ok validPlan ->
  exists props proposed,
    plan = VObject props /\
    lookup props "sub_pages" = Some (VArray proposed) /\
    validPlan =
      VObject (store props "sub_pages" (VArray (filter (listed actualLinks) proposed))).
Proof.
  unfold validateScrapingPlan. intros H.
  apply bind_Ok in H as (sub_pages & Hget & H).
  destruct sub_pages; try discriminate.
  apply bind_Ok in H as (kept & Hf & H). inversion H; subst; clear H.
  destruct plan; simpl in Hget; try discriminate.
  destruct (lookup props "sub_pages") eqn:L; inversion Hget; subst.
  exists props, items. repeat split; trivial.
  apply filter_result_Ok in Hf. subst kept.
  do 3 f_equal. apply filter_ext. intros x. unfold listed.
  destruct (get x "url"); reflexivity.
Qed.

Lemma filter_result_total {A} (f : A -> result bool) items :
  Forall (fun x => exists b, f x = Ok b) items ->
  exists kept, filter_result f items = Ok kept.
Proof.
  induction 1 as [|x rest [b Hx] _ [kept IH]]; simpl.
  - eexists; reflexivity.
  - rewrite Hx, IH. simpl. eexists; reflexivity.
Qed.

(** A plan of the prompted shape always validates: validation throws only
    when [sub_pages] is not an array or holds a [null]. *)
Lemma validateScrapingPlan_total props proposed actualLinks :
  lookup props "sub_pages" = Some (VArray proposed) ->
  Forall (fun subPage => subPage <> VNull /\ subPage <> VUndefined) proposed ->
  exists validPlan, validateScrapingPlan (VObject props) actualLinks = Ok validPlan.
Proof.
  intros L Hall. unfold validateScrapingPlan. simpl. rewrite L. simpl.
  match goal with
  | |- context [filter_result ?f proposed] =>
      destruct (filter_result_total f proposed) as [kept ->]
  end.
  - eapply Forall_impl; [|exact Hall]. intros x [Hn Hu].
    destruct x as [| | | | | |ps]; try congruence; simpl; try (eexists; reflexivity).
    destruct (lookup ps "url"); eexists; reflexivity.
  - simpl. eexists; reflexivity.
Qed.

(** C1. Validator soundness: in the plan [validateScrapingPlan] returns,
    [sub_pages] holds exactly those proposed entries whose [url] is the
    [url] of a harvested page link, in their order; so every entry has a
    string [url] that is a member of the harvested set, whatever URLs the
    proposed plan contained. *)
Theorem validate_sound plan actualLinks validPlan :
  validateScrapingPlan plan actualLinks = Ok validPlan ->
  exists proposed kept,
    get plan "sub_pages" = Ok (VArray proposed) /\
    get validPlan "sub_pages" = Ok (VArray kept) /\
    kept = filter (listed actualLinks) proposed /\
    Forall (fun subPage =>
              exists url, get subPage "url" = Ok (VString url) /\
                          In url (map link_url actualLinks)) kept.
Proof.
  intros H. apply validateScrapingPlan_Ok in H as (props & proposed & -> & L & ->).
  exists proposed, (filter (listed actualLinks) proposed).
  simpl. rewrite L, lookup_store_same. repeat split; trivial.
  apply Forall_forall. intros subPage Hin.
  apply filter_In in Hin as [_ Hl]. unfold listed in Hl.
  destruct (get subPage "url") as [url|] eqn:G; [|discriminate].
  apply set_has_urls in Hl as (u & -> & Hu). now exists u.
Qed.

(** C8. Validator frame property: the validated plan has the keys of the
    proposed plan in the same order, and every property other than
    [sub_pages] keeps its value; in particular [documents], [main_page],
    [max_pages], [max_documents] and [focus_keywords]. *)
Theorem validate_frame plan actualLinks validPlan :
  validateScrapingPlan plan actualLinks = Ok validPlan ->
  (forall k, k <> "sub_pages" -> get validPlan k = get plan k) /\
  map fst (spread_props validPlan) = map fst (spread_props plan) /\
  get validPlan "documents" = get plan "documents" /\
  get validPlan "main_page" = get plan "main_page" /\
  get validPlan "max_pages" = get plan "max_pages" /\
  get validPlan "max_documents" = get plan "max_documents" /\
  get validPlan "focus_keywords" = get plan "focus_keywords".
Proof.
  intros H. apply validateScrapingPlan_Ok in H as (props & proposed & -> & L & ->).
  assert (forall k, k <> "sub_pages" ->
            get (VObject (store props "sub_pages"
                            (VArray (filter (listed actualLinks) proposed)))) k
            = get (VObject props) k) as Hframe.
  { intros k Hk. simpl. now rewrite lookup_store_other. }
  split; [exact Hframe|]. split.
  - simpl. apply store_keys. congruence.
  - repeat split; apply Hframe; discriminate.
Qed.

(* ================================================================= *)
(** ** Properties of the crawl executor *)

Section Executor.

Variable env : Env.

Lemma extractDocumentText_eq url documentType st :
  extractDocumentText env url documentType st
  = (Ok (document_text env (List.length (trace st)) url documentType), log (Get url) st).
Proof.
  unfold extractDocumentText, document_text, try_catch, fetch, bindM, time, emit, lift.
  destruct (http_get env (List.length (trace st)) url) as [response|e]; simpl.
  - destruct (ok response); reflexivity.
  - reflexivity.
Qed.

Lemma checkUrlExists_eq url st :
  exists b, checkUrlExists env url st = (Ok b, log (Head url) st).
Proof.
  unfold checkUrlExists, try_catch, fetch_head, bindM, time, emit, lift, ret.
  destruct (http_head env (List.length (trace st)) url); simpl; eexists; reflexivity.
Qed.

Lemma scrapePage_state url st :
  exists r, scrapePage env url st = (r, log (Get url) st).
Proof.
  unfold scrapePage, try_catch, fetch, bindM, time, emit, lift, ret, throw.
  destruct (http_get env (List.length (trace st)) url) as [response|e]; simpl.
  - destruct (ok response); simpl; [eexists; reflexivity|].
    destruct (js_to_string env url); eexists; reflexivity.
  - destruct (js_to_string env url); eexists; reflexivity.
Qed.

(** No exception leaves the first block of the executor. *)
Lemma scrape_main_page_total plan allPages st :
  exists pages st', scrape_main_page env plan allPages st = (Ok pages, st').
Proof.
  unfold scrape_main_page, try_catch, bindM, lift, ret.
  destruct (get plan "main_page") as [main_page|]; [|eauto].
  destruct (get main_page "url") as [url|]; [|eauto].
  destruct (scrapePage_state url st) as [[page|] ->]; [|eauto].
  destruct (get main_page "priority"); eauto.
Qed.

Lemma get_after_get document k k' v :
  get document k = Ok v -> exists v', get document k' = Ok v'.
Proof.
  destruct document; simpl; try discriminate; intros _; eauto.
  destruct (lookup props k'); eauto.
Qed.

Lemma getDocumentType_string url documentType :
  getDocumentType url = Ok documentType -> exists u, url = VString u.
Proof. destruct url; simpl; try discriminate. eauto. Qed.

Lemma process_document_step document allDocuments st :
  exists allDocuments' st',
    process_document env document allDocuments st = (Ok allDocuments', st') /\
    DocumentStep env document allDocuments st allDocuments' st'.
Proof.
  unfold process_document, try_catch, bindM, lift, ret, visited_has.
  destruct (get document "url") as [url|e] eqn:G.
  2:{ do 2 eexists; split; [reflexivity|]. constructor. intros; congruence. }
  destruct (set_has (visitedUrls st) url) eqn:V; simpl.
  { do 2 eexists; split; [reflexivity|]. constructor.
    intros url' H. assert (url' = url) by congruence. subst. congruence. }
  destruct (getDocumentType url) as [documentType|e] eqn:T.
  2:{ do 2 eexists; split; [reflexivity|]. constructor.
      intros url' H _. assert (url' = url) by congruence. subst. eauto. }
  destruct (getDocumentType_string _ _ T) as [u ->].
  rewrite extractDocumentText_eq.
  destruct (document_text env (List.length (trace st)) (VString u) documentType)
    as [|c text] eqn:D; simpl.
  { do 2 eexists; split; [reflexivity|]. eapply EmptyDocument; eauto. }
  destruct (get_after_get _ _ "priority" _ G) as [priority ->].
  destruct (get_after_get _ _ "reason" _ G) as [reason ->].
  unfold visited_add, sleep, emit. simpl.
  do 2 eexists; split; [reflexivity|].
  eapply RecordDocument; eauto; simpl; try reflexivity.
  rewrite D. discriminate.
Qed.

Lemma for_each_invariant {A B} (body : A -> B -> M B) (I : B -> State -> Prop) :
  (forall x acc st, I acc st ->
     exists acc' st', body x acc st = (Ok acc', st') /\ I acc' st') ->
  forall items acc st, I acc st ->
    exists acc' st', for_each body items acc st = (Ok acc', st') /\ I acc' st'.
Proof.
  intros Hbody. induction items as [|x rest IH]; intros acc st HI; simpl.
  - exists acc, st. split; [reflexivity | assumption].
  - unfold bindM. destruct (Hbody x acc st HI) as (acc1 & st1 & -> & HI1).
    apply IH, HI1.
Qed.

(** The document loop never throws, and keeps whatever every turn keeps. *)
Lemma document_loop_invariant (I : list DocumentRecord -> State -> Prop) :
  (forall document acc st acc' st',
     I acc st -> DocumentStep env document acc st acc' st' -> I acc' st') ->
  forall documents acc st, I acc st ->
    exists acc' st',
      for_each (process_document env) documents acc st = (Ok acc', st') /\ I acc' st'.
Proof.
  intros Hstep. apply for_each_invariant. intros document acc st HI.
  destruct (process_document_step document acc st) as (acc' & st' & E & S).
  exists acc', st'. split; [exact E | eapply Hstep; eauto].
Qed.

(** When the executor returns, its documents are those of a document loop
    started from the empty sequence. *)
Lemma aiExecuteScrapingPlan_documents plan st data st' :
  aiExecuteScrapingPlan env plan st = (Ok data, st') ->
  exists documents st1,
    for_each (process_document env) documents [] st1 = (Ok (allDocuments data), st').
Proof.
  unfold aiExecuteScrapingPlan, bindM, lift, ret. intros H.
  repeat match type of H with
         | match ?m with _ => _ end = _ => destruct m eqn:?; try discriminate H
         end.
  inversion H; subst; clear H. simpl. eauto.
Qed.

Lemma set_has_app visited v w :
  set_has (visited ++ [v])%list w = set_has visited w || same_value_zero w v.
Proof. unfold set_has. rewrite existsb_app. simpl. now rewrite orb_false_r. Qed.

Lemma set_has_mark v w st :
  set_has (visitedUrls (mark v st)) w
  = set_has (visitedUrls st) w || (negb (set_has (visitedUrls st) v) && same_value_zero w v).
Proof.
  unfold mark. destruct (set_has (visitedUrls st) v) eqn:E; simpl.
  - now rewrite orb_false_r.
  - apply set_has_app.
Qed.

(** The URLs of type ['pptx']: a [.ppt] or [.pptx] in the lower-cased URL,
    and none of the extensions that are tested before. *)
Lemma getDocumentType_pptx u :
  getDocumentType (VString u) = Ok "pptx" <->
  JsString.includes (JsString.toLowerCase u) ".pptx"
    || JsString.includes (JsString.toLowerCase u) ".ppt" = true /\
  JsString.includes (JsString.toLowerCase u) ".pdf" = false /\
  JsString.includes (JsString.toLowerCase u) ".docx"
    || JsString.includes (JsString.toLowerCase u) ".doc" = false /\
  JsString.includes (JsString.toLowerCase u) ".xlsx"
    || JsString.includes (JsString.toLowerCase u) ".xls" = false.
Proof.
  unfold getDocumentType, documentTypeOf.
  destruct (JsString.includes (JsString.toLowerCase u) ".pdf");
    destruct (JsString.includes (JsString.toLowerCase u) ".docx");
    destruct (JsString.includes (JsString.toLowerCase u) ".doc");
    destruct (JsString.includes (JsString.toLowerCase u) ".xlsx");
    destruct (JsString.includes (JsString.toLowerCase u) ".xls");
    destruct (JsString.includes (JsString.toLowerCase u) ".pptx");
    destruct (JsString.includes (JsString.toLowerCase u) ".ppt");
    simpl; split; try (intros H; discriminate H); try tauto;
    intros (? & ? & ? & ?); discriminate.
Qed.

Lemma document_text_pptx t url : document_text env t url "pptx" = EmptyString.
Proof.
  unfold document_text. destruct (http_get env t url) as [response|]; [|reflexivity].
  destruct (ok response); reflexivity.
Qed.

Lemma scrapePage_url url st pageData st' :
  scrapePage env url st = (Ok pageData, st') -> page_url pageData = url.
Proof.
  unfold scrapePage, try_catch, fetch, bindM, time, emit, lift, ret, throw.
  destruct (http_get env (List.length (trace st)) url) as [response|e]; simpl.
  - destruct (ok response); simpl.
    + intros H. inversion H; subst. reflexivity.
    + destruct (js_to_string env url); discriminate.
  - destruct (js_to_string env url); discriminate.
Qed.

(** One turn of the sub-page loop never throws and removes nothing from
    the visited set; it either leaves [allPages] as it was or pushes the
    record of the page it has retrieved, whose URL is then visited. *)
Lemma scrape_sub_page_step subPage allPages st :
  exists allPages' st',
    scrape_sub_page env subPage allPages st = (Ok allPages', st') /\
    (forall v, set_has (visitedUrls st) v = true ->
               set_has (visitedUrls st') v = true) /\
    (allPages' = allPages \/
     exists record,
       allPages' = (allPages ++ [record])%list /\
       get subPage "url" = Ok (page_url (pr_data record)) /\
       forall u, page_url (pr_data record) = VString u ->
                 set_has (visitedUrls st') (VString u) = true).
Proof.
  unfold scrape_sub_page, try_catch, bindM, lift, ret, visited_has.
  destruct (get subPage "url") as [url|e] eqn:G; [|eauto 6].
  destruct (set_has (visitedUrls st) url) eqn:V; simpl; [eauto 6|].
  destruct (checkUrlExists_eq url st) as [[|] ->]; [|eauto 6].
  destruct (scrapePage env url (log (Head url) st)) as [[pageData|e] st1] eqn:S.
  2:{ destruct (scrapePage_state url (log (Head url) st)) as [r' E].
      rewrite S in E. inversion E; subst. eauto 6. }
  destruct (scrapePage_state url (log (Head url) st)) as [r' E].
  rewrite S in E. inversion E; subst r' st1. clear E.
  apply scrapePage_url in S.
  destruct (get_after_get _ _ "priority" _ G) as [priority ->].
  destruct (get_after_get _ _ "reason" _ G) as [reason ->].
  unfold visited_add, sleep, emit. simpl.
  do 2 eexists. split; [reflexivity|]. split.
  - intros v Hv. simpl. rewrite set_has_mark. simpl. now rewrite Hv.
  - right. eexists. split; [reflexivity|]. simpl. rewrite S. split; [reflexivity|].
    intros u ->. rewrite set_has_mark. simpl. rewrite String.eqb_refl.
    destruct (set_has _ _); reflexivity.
Qed.

(** The three phases of a run of the executor that returns. *)
Lemma aiExecuteScrapingPlan_phases plan st data st' :
  aiExecuteScrapingPlan env plan st = (Ok data, st') ->
  exists pages0 st0 subPages st1 documents,
    scrape_main_page env plan [] st = (Ok pages0, st0) /\
    for_each (scrape_sub_page env) subPages pages0 st0 = (Ok (allPages data), st1) /\
    for_each (process_document env) documents [] st1 = (Ok (allDocuments data), st').
Proof.
  unfold aiExecuteScrapingPlan, bindM, lift, ret. intros H.
  repeat match type of H with
         | match ?m with _ => _ end = _ => destruct m eqn:?; try discriminate H
         end.
  inversion H; subst; clear H. simpl. eauto 10.
Qed.

(** The sub-page loop: what it pushes is visited when it ends. *)
Lemma sub_page_loop_marks subPages pages0 st0 pages st1 :
  for_each (scrape_sub_page env) subPages pages0 st0 = (Ok pages, st1) ->
  exists pushed,
    pages = (pages0 ++ pushed)%list /\
    forall record u,
      In record pushed -> page_url (pr_data record) = VString u ->
      set_has (visitedUrls st1) (VString u) = true.
Proof.
  intros H.
  destruct (for_each_invariant (scrape_sub_page env)
              (fun acc st =>
                 exists pushed,
                   acc = (pages0 ++ pushed)%list /\
                   forall record u,
                     In record pushed -> page_url (pr_data record) = VString u ->
                     set_has (visitedUrls st) (VString u) = true))
    with (items := subPages) (acc := pages0) (st := st0) as (acc' & st2 & E & HI).
  - intros subPage acc st (pushed & -> & Hp).
    destruct (scrape_sub_page_step subPage (pages0 ++ pushed)%list st)
      as (acc' & st' & E & Hmono & Hcase).
    exists acc', st'. split; [exact E|].
    destruct Hcase as [->|(record & -> & _ & Hr)].
    + exists pushed. split; [reflexivity|]. intros; eapply Hmono, Hp; eauto.
    + exists (pushed ++ [record])%list. split; [now rewrite app_assoc|].
      intros record' u Hin Hu. apply in_app_iff in Hin as [Hin|[<-|[]]].
      * eapply Hmono, Hp; eauto.
      * now apply Hr.
  - exists []. split; [now rewrite app_nil_r | intros ? ? []].
  - rewrite H in E. inversion E; subst. exact HI.
Qed.

(** The document loop sends no request for a URL that is visited when it
    starts. *)
Lemma document_loop_skips_visited documents allDocuments st allDocuments' st' :
  for_each (process_document env) documents allDocuments st = (Ok allDocuments', st') ->
  exists added,
    trace st' = (trace st ++ added)%list /\
    forall u, set_has (visitedUrls st) (VString u) = true ->
              ~ In (Get (VString u)) added /\ ~ In (Head (VString u)) added.
Proof.
  intros H.
  destruct (document_loop_invariant
              (fun _ st0 =>
                 (forall v, set_has (visitedUrls st) v = true ->
                            set_has (visitedUrls st0) v = true) /\
                 exists added,
                   trace st0 = (trace st ++ added)%list /\
                   forall u, set_has (visitedUrls st) (VString u) = true ->
                             ~ In (Get (VString u)) added /\
                             ~ In (Head (VString u)) added))
    with (documents := documents) (acc := allDocuments) (st := st)
    as (acc' & st2 & E & _ & HI).
  - intros document acc st0 acc0 st0' (Hmono & added & Ht & Hno) S.
    destruct S as [Hskip | u' ty G V' T' D | u' ty record G V' T' D Hurl Hty Htext].
    + split; [exact Hmono|]. exists added. auto.
    + split; [exact Hmono|].
      exists (added ++ [Get (VString u')])%list. simpl. rewrite Ht, app_assoc.
      split; [reflexivity|]. intros u Hu.
      assert (u' <> u) as Hne by (intros ->; apply Hmono in Hu; congruence).
      destruct (Hno u Hu) as [Hg Hh].
      split; rewrite in_app_iff; simpl; intros [?|[?|[]]]; auto; congruence.
    + split.
      * intros v Hv. simpl. rewrite set_has_mark. simpl. now rewrite (Hmono v Hv).
      * exists (added ++ [Get (VString u'); Delay 1000])%list. split.
        -- unfold mark. simpl.
           destruct (set_has (visitedUrls st0) (VString u')); simpl;
             rewrite Ht, <- !app_assoc; reflexivity.
        -- intros u Hu.
           assert (u' <> u) as Hne by (intros ->; apply Hmono in Hu; congruence).
           destruct (Hno u Hu) as [Hg Hh].
           split; rewrite in_app_iff; simpl; intros [?|[?|[?|[]]]]; auto; congruence.
  - split; [auto|]. exists []. rewrite app_nil_r. split; [reflexivity|]. auto.
  - rewrite H in E. inversion E; subst. exact HI.
Qed.

(** The first block of the executor leaves the visited set as it was. *)
Lemma scrape_main_page_visited plan allPages st pages st' :
  scrape_main_page env plan allPages st = (Ok pages, st') ->
  visitedUrls st' = visitedUrls st.
Proof.
  unfold scrape_main_page, try_catch, bindM, lift, ret.
  destruct (get plan "main_page") as [main_page|]; [|now intros [= _ <-]].
  destruct (get main_page "url") as [url|]; [|now intros [= _ <-]].
  destruct (scrapePage_state url st) as [[page|] ->]; [|now intros [= _ <-]].
  destruct (get main_page "priority"); now intros [= _ <-].
Qed.

(** A string is put in the visited set by a turn of the sub-page loop only
    as the URL of the page the turn has pushed. *)
Lemma scrape_sub_page_visited subPage allPages st allPages' st' u :
  scrape_sub_page env subPage allPages st = (Ok allPages', st') ->
  set_has (visitedUrls st') (VString u) = true ->
  set_has (visitedUrls st) (VString u) = true \/
  exists record,
    allPages' = (allPages ++ [record])%list /\ page_url (pr_data record) = VString u.
Proof.
  unfold scrape_sub_page, try_catch, bindM, lift, ret, visited_has.
  destruct (get subPage "url") as [url|e] eqn:G; [|intros [= _ <-]; auto].
  destruct (set_has (visitedUrls st) url) eqn:V; cbn [negb]; [intros [= _ <-]; auto|].
  destruct (checkUrlExists_eq url st) as [[|] ->]; [|intros [= _ <-]; auto].
  destruct (scrapePage env url (log (Head url) st)) as [[pageData|e] st1] eqn:S.
  2:{ destruct (scrapePage_state url (log (Head url) st)) as [r' E].
      rewrite S in E. injection E as _ ->. intros [= _ <-]. auto. }
  destruct (scrapePage_state url (log (Head url) st)) as [r' E].
  rewrite S in E. injection E as _ ->.
  apply scrapePage_url in S.
  destruct (get_after_get _ _ "priority" _ G) as [priority ->].
  destruct (get_after_get _ _ "reason" _ G) as [reason ->].
  unfold visited_add, sleep, emit. intros [= <- <-].
  cbn [visitedUrls log]. rewrite set_has_mark. cbn [visitedUrls log].
  intros H. apply orb_true_iff in H as [H|H]; [auto|].
  apply andb_true_iff in H as [_ H]. right. eexists. split; [reflexivity|].
  cbn [pr_data]. rewrite S.
  destruct url; simpl in H; try discriminate H.
  apply String.eqb_eq in H. now subst.
Qed.

(** The same of the whole sub-page loop. *)
Lemma sub_page_loop_visited subPages pages0 st0 pages st1 u :
  for_each (scrape_sub_page env) subPages pages0 st0 = (Ok pages, st1) ->
  set_has (visitedUrls st1) (VString u) = true ->
  set_has (visitedUrls st0) (VString u) = true \/
  exists record, In record pages /\ page_url (pr_data record) = VString u.
Proof.
  revert pages0 st0. induction subPages as [|subPage rest IH]; intros pages0 st0.
  - intros [= <- <-]. auto.
  - cbn [for_each]. unfold bindM at 1.
    destruct (scrape_sub_page_step subPage pages0 st0) as (acc & st & E & _ & Hacc).
    rewrite E. intros Hrest Hv.
    destruct (IH acc st Hrest Hv) as [Hst|Hrec]; [|auto].
    destruct (scrape_sub_page_visited _ _ _ _ _ _ E Hst) as [H0|(record & -> & Hu)];
      [auto|].
    right. exists record. split; [|exact Hu].
    destruct (sub_page_loop_marks _ _ _ _ _ Hrest) as (pushed & -> & _).
    apply in_or_app. left. apply in_or_app. right. now left.
Qed.

End Executor.

Section ExecutorClaims.

Variable env : Env.

(** C10 as the code has it. For a URL that [getDocumentType] classifies
    as ['pptx'], [extractDocumentText] returns the empty string whatever
    the download gives, because its dispatch has no branch for that type;
    so a turn of the document loop on such a target records nothing and
    leaves the visited set as it was, the executor's result holds no
    DocumentRecord for the URL, and the document loop never marks the URL
    visited. The executor as a whole marks the URL visited only when its
    sub-page loop has retrieved the same URL as a page. *)
Theorem pptx_never_recorded (u : string) :
  getDocumentType (VString u) = Ok "pptx" ->
  (forall st,
     extractDocumentText env (VString u) "pptx" st
     = (Ok EmptyString, log (Get (VString u)) st)) /\
  (forall document allDocuments st,
     get document "url" = Ok (VString u) ->
     exists st',
       process_document env document allDocuments st = (Ok allDocuments, st') /\
       visitedUrls st' = visitedUrls st) /\
  (forall plan st data st',
     aiExecuteScrapingPlan env plan st = (Ok data, st') ->
     Forall (fun record => dr_url record <> VString u) (allDocuments data)) /\
  (forall documents allDocuments st allDocuments' st',
     for_each (process_document env) documents allDocuments st
       = (Ok allDocuments', st') ->
     set_has (visitedUrls st') (VString u) = set_has (visitedUrls st) (VString u)) /\
  (forall plan st data st',
     aiExecuteScrapingPlan env plan st = (Ok data, st') ->
     set_has (visitedUrls st') (VString u) = true ->
     set_has (visitedUrls st) (VString u) = true \/
     exists record,
       In record (allPages data) /\ page_url (pr_data record) = VString u).
Proof.
  intros T.
  assert (forall document acc st acc' st',
            DocumentStep env document acc st acc' st' ->
            Forall (fun record => dr_url record <> VString u) acc ->
            Forall (fun record => dr_url record <> VString u) acc' /\
            set_has (visitedUrls st') (VString u) = set_has (visitedUrls st) (VString u) /\
            (get document "url" = Ok (VString u) ->
             acc' = acc /\ visitedUrls st' = visitedUrls st)) as Step.
  { intros document acc st acc' st' S Hacc.
    destruct S as [Hskip | u' ty G V T' D | u' ty record G V T' D Hurl Hty Htext].
    - repeat split; auto.
    - repeat split; auto.
    - assert (u' <> u) as Hne.
      { intros ->. rewrite T in T'. injection T' as T'. rewrite <- T' in D.
        apply D, document_text_pptx. }
      split; [|split].
      + apply Forall_app. split; [assumption|].
        constructor; [|constructor]. rewrite Hurl. congruence.
      + simpl. rewrite set_has_mark. simpl.
        destruct (String.eqb u u') eqn:E; [apply String.eqb_eq in E; congruence|].
        now rewrite andb_false_r, orb_false_r.
      + intros G'. rewrite G in G'. congruence. }
  assert (forall documents allDocuments st allDocuments' st',
            for_each (process_document env) documents allDocuments st
              = (Ok allDocuments', st') ->
            set_has (visitedUrls st') (VString u)
            = set_has (visitedUrls st) (VString u)) as Loop.
  { intros documents allDocuments st allDocuments' st' H.
    destruct (document_loop_invariant env
                (fun _ st0 => set_has (visitedUrls st0) (VString u)
                              = set_has (visitedUrls st) (VString u)))
      with (documents := documents) (acc := allDocuments) (st := st)
      as (acc' & st2 & E & HI).
    - intros document acc st0 acc0 st0' HI S.
      destruct S as [Hskip | u' ty G V T' D | u' ty record G V T' D Hurl Hty Htext];
        try exact HI.
      simpl. rewrite set_has_mark. simpl. rewrite HI.
      destruct (String.eqb u u') eqn:E; simpl.
      + apply String.eqb_eq in E. subst u'. exfalso.
        rewrite T in T'. injection T' as T'. rewrite <- T' in D.
        apply D, document_text_pptx.
      + now rewrite andb_false_r, orb_false_r.
    - reflexivity.
    - rewrite H in E. inversion E; subst. exact HI. }
  split; [|split; [|split; [|split; [exact Loop|]]]].
  - intros st. rewrite extractDocumentText_eq. now rewrite document_text_pptx.
  - intros document allDocuments st G.
    destruct (process_document_step env document allDocuments st) as (acc' & st' & E & S).
    destruct S as [Hskip | u' ty G' V T' D | u' ty record G' V T' D Hurl Hty Htext].
    + exists st. split; [exact E | reflexivity].
    + eexists. split; [exact E | reflexivity].
    + exfalso. rewrite G in G'. injection G' as <-.
      rewrite T in T'. injection T' as T'. rewrite <- T' in D.
      apply D, document_text_pptx.
  - intros plan st data st' H.
    apply aiExecuteScrapingPlan_documents in H as (documents & st1 & H).
    destruct (document_loop_invariant env
                (fun acc _ => Forall (fun record => dr_url record <> VString u) acc))
      with (documents := documents) (acc := @nil DocumentRecord) (st := st1)
      as (acc' & st2 & E & HI).
    + intros document acc st0 acc0 st0' HI S. now apply (Step _ _ _ _ _ S).
    + constructor.
    + rewrite H in E. inversion E; subst. exact HI.
  - intros plan st data st' H Hv.
    apply aiExecuteScrapingPlan_phases in H
      as (pages0 & st0 & subPages & st1 & documents & Hmain & Hsub & Hdoc).
    rewrite (Loop _ _ _ _ _ Hdoc) in Hv.
    destruct (sub_page_loop_visited env _ _ _ _ _ _ Hsub Hv) as [H0|Hrec]; [|auto].
    left. unfold set_has in *. now rewrite <- (scrape_main_page_visited env _ _ _ _ _ Hmain).
Qed.

(** C6 as the code has it. When a document's download succeeds and its
    extractor returns the empty string, the turn of the document loop
    records no DocumentRecord and does not mark the URL visited; the target
    is skipped without an error. *)
Theorem empty_extraction_not_recorded
  (document : value) (u : string) (response : Response)
  (allDocuments : list DocumentRecord) (st : State) :
  let documentType := documentTypeOf (JsString.toLowerCase u) in
  get document "url" = Ok (VString u) ->
  set_has (visitedUrls st) (VString u) = false ->
  http_get env (List.length (trace st)) (VString u) = Ok response ->
  ok response = true ->
  extract_by_type env documentType (body response) = EmptyString ->
  process_document env document allDocuments st
    = (Ok allDocuments, log (Get (VString u)) st) /\
  visitedUrls (log (Get (VString u)) st) = visitedUrls st.
Proof.
  intros documentType G V Hget Hok Hempty. split; [|reflexivity].
  assert (document_text env (List.length (trace st)) (VString u) documentType
          = EmptyString) as D.
  { unfold document_text. now rewrite Hget, Hok. }
  destruct (process_document_step env document allDocuments st) as (acc' & st' & E & S).
  rewrite E.
  destruct S as [Hskip | u' ty G' V' T' D' | u' ty record G' V' T' D' Hurl Hty Htext].
  - destruct (Hskip _ G V) as [e He]. discriminate He.
  - rewrite G in G'. injection G' as <-. reflexivity.
  - exfalso. rewrite G in G'. injection G' as <-.
    simpl in T'. injection T' as T'. apply D'. rewrite <- T'. exact D.
Qed.

(** C9 as the code has it. In a run of the executor, a URL whose page the
    sub-page loop has retrieved and pushed is in the visited set when the
    document loop starts, and the document loop sends no request for it,
    GET or HEAD: after a successful retrieval as a sub-page the URL is not
    fetched again as a document. *)
Theorem visited_url_not_refetched
  (plan : value) (st : State) (data : ScrapedData) (st' : State) :
  aiExecuteScrapingPlan env plan st = (Ok data, st') ->
  exists pages0 st0 subPages st1 documents pushed added,
    scrape_main_page env plan [] st = (Ok pages0, st0) /\
    for_each (scrape_sub_page env) subPages pages0 st0 = (Ok (allPages data), st1) /\
    for_each (process_document env) documents [] st1 = (Ok (allDocuments data), st') /\
    allPages data = (pages0 ++ pushed)%list /\
    trace st' = (trace st1 ++ added)%list /\
    forall record u,
      In record pushed -> page_url (pr_data record) = VString u ->
      set_has (visitedUrls st1) (VString u) = true /\
      ~ In (Get (VString u)) added /\
      ~ In (Head (VString u)) added.
Proof.
  intros H.
  apply aiExecuteScrapingPlan_phases in H
    as (pages0 & st0 & subPages & st1 & documents & Hmain & Hsub & Hdoc).
  destruct (sub_page_loop_marks env _ _ _ _ _ Hsub) as (pushed & Hpages & Hmarked).
  destruct (document_loop_skips_visited env _ _ _ _ _ Hdoc) as (added & Htrace & Hskip).
  exists pages0, st0, subPages, st1, documents, pushed, added.
  repeat (split; [assumption|]).
  intros record u Hin Hu. split; [eauto|]. apply Hskip. eauto.
Qed.

(** C2. The plan of [createFallbackScrapingPlan] has no [documents]
    property, and the executor throws on it, in every world and every
    state: once the main page and the empty [sub_pages] are done,
    [plan.documents.slice] is read off [undefined]. *)
Theorem fallback_plan_not_executable
  (mainUrl : string) (mainPageData : PageData) (st : State) :
  get (createFallbackScrapingPlan mainUrl mainPageData) "documents" = Ok VUndefined /\
  exists st',
    aiExecuteScrapingPlan env (createFallbackScrapingPlan mainUrl mainPageData) st
    = (Throw (TypeError "Cannot read properties of undefined (reading 'slice')"), st').
Proof.
  split; [reflexivity|].
  unfold aiExecuteScrapingPlan, bindM.
  destruct (scrape_main_page_total env (createFallbackScrapingPlan mainUrl mainPageData)
              [] st) as (pages & st1 & ->).
  exists st1. reflexivity.
Qed.

End ExecutorClaims.

(* ================================================================= *)
(** ** Properties of the plan synthesizer and of the classifier *)

Section Oracle.

Variable env : Env.

Lemma complete_eq prompt st :
  complete env prompt st
  = (match chat env (List.length (trace st)) prompt with
     | Some content => Ok (JsString.trim content)
     | None => Throw (Error "completion failed")
     end, log (Chat prompt) st).
Proof.
  unfold complete, bindM, time, emit, ret, throw.
  destruct (chat env (List.length (trace st)) prompt); reflexivity.
Qed.

(** The classification stage, once its prompt is built: one call of the
    oracle, and a RequirementSet in every case. *)
Lemma aiAnalyzeAllData_eq scrapedData originalUrl prompt st :
  classification_prompt env scrapedData = Ok prompt ->
  aiAnalyzeAllData env scrapedData originalUrl st
  = (Ok (match chat env (List.length (trace st)) prompt with
         | Some content => classify_response env scrapedData (JsString.trim content)
         | None => fallbackAnalysis scrapedData
         end), log (Chat prompt) st).
Proof.
  intros P. unfold aiAnalyzeAllData, bindM, lift, try_catch. rewrite P, complete_eq.
  destruct (chat env (List.length (trace st)) prompt); reflexivity.
Qed.

(** The plan stage when the oracle answers: one call, no second one; the
    validated plan when the answer parses and validates, the fallback plan
    otherwise. *)
Lemma aiCreateScrapingPlan_answered mainUrl mainPageData content st st1 :
  scrapePage env (VString mainUrl) st = (Ok mainPageData, st1) ->
  chat env (List.length (trace st1)) (synthesis_prompt env mainUrl mainPageData st1)
    = Some content ->
  aiCreateScrapingPlan env mainUrl st
  = (Ok (match JSON_parse env (JsString.trim content) with
         | Some plan =>
             match validateScrapingPlan plan
                     (extractActualLinks env (visitedUrls st1)
                        (page_html mainPageData) mainUrl) with
             | Ok validPlan => validPlan
             | Throw _ => createFallbackScrapingPlan mainUrl mainPageData
             end
         | None => createFallbackScrapingPlan mainUrl mainPageData
         end),
     log (Chat (synthesis_prompt env mainUrl mainPageData st1)) st1).
Proof.
  intros S C. unfold aiCreateScrapingPlan, try_catch at 1, bindM at 1. rewrite S.
  unfold getState, bindM. rewrite complete_eq.
  fold (synthesis_prompt env mainUrl mainPageData st1). rewrite C.
  unfold try_catch, lift, ret, throw.
  destruct (JSON_parse env (JsString.trim content)) as [plan|]; [|reflexivity].
  destruct (validateScrapingPlan plan _); reflexivity.
Qed.

(** The plan stage when the oracle cannot be reached: the main page is
    fetched again and the fallback plan is returned. *)
Lemma aiCreateScrapingPlan_unanswered mainUrl mainPageData mainPageData' st st1 st2 :
  scrapePage env (VString mainUrl) st = (Ok mainPageData, st1) ->
  chat env (List.length (trace st1)) (synthesis_prompt env mainUrl mainPageData st1) = None ->
  scrapePage env (VString mainUrl)
             (log (Chat (synthesis_prompt env mainUrl mainPageData st1)) st1)
    = (Ok mainPageData', st2) ->
  aiCreateScrapingPlan env mainUrl st
  = (Ok (createFallbackScrapingPlan mainUrl mainPageData'), st2).
Proof.
  intros S C S'. unfold aiCreateScrapingPlan, try_catch at 1, bindM at 1. rewrite S.
  unfold getState, bindM. rewrite complete_eq.
  fold (synthesis_prompt env mainUrl mainPageData st1). rewrite C.
  rewrite S'. reflexivity.
Qed.

(** C3. Classifier fallback totality: when the oracle's answer does not
    parse as JSON after the cleaning, the classification stage returns,
    without throwing, the fallback RequirementSet, whose [attestations] and
    [non_attestations] are empty arrays and whose [analysis_notes] is a
    non-empty string. *)
Theorem classifier_fallback_total
  (scrapedData : ScrapedData) (originalUrl : string) (prompt : Prompt)
  (content : string) (st : State) :
  classification_prompt env scrapedData = Ok prompt ->
  chat env (List.length (trace st)) prompt = Some content ->
  JSON_parse env (extract_json (JsString.trim content)) = None ->
  exists requirements notes,
    aiAnalyzeAllData env scrapedData originalUrl st
      = (Ok requirements, log (Chat prompt) st) /\
    requirements = fallbackAnalysis scrapedData /\
    attestations requirements = VArray [] /\
    non_attestations requirements = VArray [] /\
    analysis_notes requirements = VString notes /\
    notes <> EmptyString.
Proof.
  intros P C J. rewrite (aiAnalyzeAllData_eq _ _ _ _ P), C.
  unfold classify_response, read_classification. rewrite J.
  do 2 eexists. repeat split. discriminate.
Qed.

(** C7 as the code has it. When the cleaned answer parses to a JSON value
    other than [null], the RequirementSet takes each field from it, and a
    missing (or falsy) [attestations], [non_attestations] or
    [analysis_notes] becomes the empty array, the empty array and the
    string ['AI analysis completed']. *)
Theorem classification_defaults
  (scrapedData : ScrapedData) (response : string) (parsed : value) :
  JSON_parse env (extract_json response) = Some parsed ->
  parsed <> VNull ->
  parsed <> VUndefined ->
  exists a n notes,
    get parsed "attestations" = Ok a /\
    get parsed "non_attestations" = Ok n /\
    get parsed "analysis_notes" = Ok notes /\
    classify_response env scrapedData response
      = {| attestations := or_else a (VArray []);
           non_attestations := or_else n (VArray []);
           analysis_notes := or_else notes (VString "AI analysis completed") |} /\
    (a = VUndefined ->
     attestations (classify_response env scrapedData response) = VArray []) /\
    (n = VUndefined ->
     non_attestations (classify_response env scrapedData response) = VArray []) /\
    (notes = VUndefined ->
     analysis_notes (classify_response env scrapedData response)
       = VString "AI analysis completed").
Proof.
  intros J Hnull Hundef.
  assert (forall k, exists v, get parsed k = Ok v) as G.
  { intros k. destruct parsed; try congruence; simpl; eauto.
    destruct (lookup props k); eauto. }
  destruct (G "attestations") as [a Ga].
  destruct (G "non_attestations") as [n Gn].
  destruct (G "analysis_notes") as [notes Gnotes].
  exists a, n, notes.
  assert (classify_response env scrapedData response
          = {| attestations := or_else a (VArray []);
               non_attestations := or_else n (VArray []);
               analysis_notes := or_else notes (VString "AI analysis completed") |}) as E.
  { unfold classify_response, read_classification. now rewrite J, Ga, Gn, Gnotes. }
  rewrite E. repeat split; trivial; intros ->; reflexivity.
Qed.

(** C4 as the code has it. When the oracle is out of reach at
    plan-synthesis time, the main page having been fetched, the run ends
    with the error shape in every world: the synthesizer fetches the main
    page again, and either that fails or the executor throws on the
    fallback plan. When the oracle is out of reach at classification time
    the run does not end with an error: the classifier returns the fallback
    RequirementSet, and [analyzeSubsidy] returns the success shape carrying
    it. *)
Theorem oracle_failure_outcomes :
  (forall url mainPageData st st1,
     scrapePage env (VString url) st = (Ok mainPageData, st1) ->
     chat env (List.length (trace st1)) (synthesis_prompt env url mainPageData st1)
       = None ->
     exists error analyzed_at st',
       analyzeSubsidy env url st = (Ok (AnalysisError url error analyzed_at), st')) /\
  (forall url plan scrapedData prompt st st1 st2,
     aiCreateScrapingPlan env url st = (Ok plan, st1) ->
     aiExecuteScrapingPlan env plan st1 = (Ok scrapedData, st2) ->
     classification_prompt env scrapedData = Ok prompt ->
     chat env (List.length (trace st2)) prompt = None ->
     analyzeSubsidy env url st
       = (Ok (Analysis url (result_title scrapedData) (fallbackAnalysis scrapedData)
                       (now env (S (List.length (trace st2))))
                       (List.length (allPages scrapedData)) plan),
          log (Chat prompt) st2)).
Proof.
  split.
  - intros url mainPageData st st1 S C.
    destruct (scrapePage env (VString url)
                (log (Chat (synthesis_prompt env url mainPageData st1)) st1))
      as [[mainPageData'|e] st2] eqn:S'.
    + unfold analyzeSubsidy, try_catch, bindM at 1.
      rewrite (aiCreateScrapingPlan_unanswered _ _ _ _ _ _ S C S').
      unfold bindM at 1, aiExecuteScrapingPlan, bindM at 1.
      destruct (scrape_main_page_total env
                  (createFallbackScrapingPlan url mainPageData') [] st2)
        as (pages & st3 & ->).
      do 3 eexists. reflexivity.
    + assert (aiCreateScrapingPlan env url st = (Throw e, st2)) as E.
      { unfold aiCreateScrapingPlan, try_catch at 1, bindM at 1. rewrite S.
        unfold getState, bindM. rewrite complete_eq.
        fold (synthesis_prompt env url mainPageData st1). rewrite C, S'.
        reflexivity. }
      unfold analyzeSubsidy, try_catch, bindM at 1. rewrite E.
      do 3 eexists. reflexivity.
  - intros url plan scrapedData prompt st st1 st2 Hplan Hexec P C.
    unfold analyzeSubsidy, try_catch, bindM. rewrite Hplan, Hexec.
    rewrite (aiAnalyzeAllData_eq _ _ _ _ P), C.
    unfold time, ret. simpl. rewrite length_app. simpl.
    now rewrite Nat.add_1_r.
Qed.

End Oracle.

(* ================================================================= *)
(** ** Properties of the link harvester *)

Lemma findIndex_Some {A} (p : A -> bool) items i :
  findIndex p items = Some i -> exists x, nth_error items i = Some x /\ p x = true.
Proof.
  revert i. induction items as [|y rest IH]; simpl; intros i H; [discriminate|].
  destruct (p y) eqn:E.
  - inversion H; subst. exists y. auto.
  - destruct (findIndex p rest) as [j|]; [|discriminate].
    inversion H; subst. destruct (IH j eq_refl) as (x & Hx & Hp). exists x. auto.
Qed.

Lemma findIndex_found {A} (p : A -> bool) items x :
  In x items -> p x = true -> exists i, findIndex p items = Some i.
Proof.
  induction items as [|y rest IH]; simpl; intros Hin Hp; [contradiction|].
  destruct (p y) eqn:E; [eauto|].
  destruct Hin as [->|Hin]; [congruence|].
  destruct (IH Hin Hp) as [i ->]. simpl. eauto.
Qed.

Lemma in_combine_seq {A} (items : list A) i x s :
  nth_error items i = Some x -> In (s + i, x) (combine (seq s (List.length items)) items).
Proof.
  revert i s. induction items as [|y rest IH]; intros [|i] s H; simpl in *;
    try discriminate.
  - inversion H; subst. left. f_equal. lia.
  - right. replace (s + S i) with (S s + i) by lia. now apply IH.
Qed.

(** De-duplication drops no URL: it keeps the first link of each. *)
Lemma uniqueLinks_keeps_urls links u :
  In u (map link_url links) -> In u (map link_url (uniqueLinks links)).
Proof.
  intros Hin. apply in_map_iff in Hin as (l & Hu & Hin).
  destruct (findIndex_found (fun l' => String.eqb (link_url l') u) links l Hin)
    as [i Hi]; [rewrite Hu; apply String.eqb_refl|].
  destruct (findIndex_Some _ _ _ Hi) as (x & Hx & Hp).
  apply String.eqb_eq in Hp.
  apply in_map_iff. exists x. split; [exact Hp|].
  unfold uniqueLinks, filter_indexed.
  apply in_map_iff. exists (i, x). split; [reflexivity|].
  apply filter_In. split.
  - apply (in_combine_seq links i x 0 Hx).
  - simpl. rewrite Hp, Hi. apply Nat.eqb_refl.
Qed.

Section Harvester.

Variable env : Env.

(** C5 as the code has it. Every link of the document-link set has a URL
    that matches a document extension, and every unvisited link with such
    a URL is in that set; but the page-link set is not filtered by
    extension: such a link is in the page-link set too whenever it has a
    text, is not a fragment and its URL contains the site's domain. *)
Theorem document_links_also_page_links (visited : list value) (html baseUrl_ : string) :
  Forall (fun doc => isDocument (doc_url doc) = true)
         (extractDocumentLinks env visited html baseUrl_) /\
  (forall href text,
     In (href, text) (anchors env html) ->
     href <> EmptyString ->
     let fullUrl := if JsString.startsWith href "/" then baseUrl ++ href else href in
     isDocument fullUrl = true ->
     set_has visited (VString fullUrl) = false ->
     In fullUrl (map doc_url (extractDocumentLinks env visited html baseUrl_)) /\
     (JsString.trim text <> EmptyString ->
      JsString.startsWith href "#" = false ->
      JsString.includes fullUrl "rvo.nl" = true ->
      In fullUrl (map link_url (extractActualLinks env visited html baseUrl_)))).
Proof.
  split.
  - unfold extractDocumentLinks. apply Forall_forall. intros doc Hin.
    apply in_flat_map in Hin as ([href text] & _ & Hin).
    unfold document_link_of in Hin. simpl in Hin.
    destruct (negb (JsString.is_empty href)); [|contradiction].
    match type of Hin with
    | In _ (if isDocument ?u && _ then _ else _) =>
        destruct (isDocument u) eqn:D; simpl in Hin; [|contradiction]
    end.
    destruct (negb (set_has visited _)); [|contradiction].
    destruct Hin as [<-|[]]. exact D.
  - intros href text Hin Hhref fullUrl D V.
    assert (JsString.is_empty href = false) as Hne
      by (destruct href; [congruence | reflexivity]).
    assert ((if JsString.startsWith href "/" then baseUrl ++ href
             else if JsString.startsWith href "http" then href else href) = fullUrl)
      as Hfull.
    { unfold fullUrl. destruct (JsString.startsWith href "/"); [reflexivity|].
      destruct (JsString.startsWith href "http"); reflexivity. }
    split.
    + unfold extractDocumentLinks. apply in_map_iff.
      eexists. split; [|apply in_flat_map; exists (href, text); split; [exact Hin|]].
      2:{ unfold document_link_of. cbn [fst snd]. rewrite Hne. cbn [negb].
          rewrite Hfull, D, V. left. reflexivity. }
      reflexivity.
    + intros Htext Hfragment Hdomain.
      assert (JsString.is_empty (JsString.trim text) = false) as Hte
        by (destruct (JsString.trim text); [congruence | reflexivity]).
      unfold extractActualLinks. apply uniqueLinks_keeps_urls.
      apply in_map_iff.
      exists {| link_url := fullUrl;
                link_text := JsString.substring (JsString.trim text) 0 100;
                link_href := href |}.
      split; [reflexivity|].
      apply in_flat_map. exists (href, text). split; [exact Hin|].
      unfold actual_link_of. cbn [fst snd]. rewrite Hne, Hte. cbn [negb andb].
      unfold fullUrl in *.
      destruct (JsString.startsWith href "/") eqn:S1.
      * rewrite Hdomain, V. left. reflexivity.
      * destruct (JsString.startsWith href "http") eqn:S2.
        -- rewrite Hdomain, V. left. reflexivity.
        -- rewrite Hfragment, Hdomain, V. left. reflexivity.
Qed.

End Harvester.

(* ================================================================= *)
(** ** Further properties of the link harvester *)




Lemma filter_all {A} (p : A -> bool) l :
  (forall x, In x l -> p x = true) -> filter p l = l.
Proof.
  induction l as [|y rest IH]; simpl; intros H; [reflexivity|].
  rewrite (H y (or_introl eq_refl)), IH; auto.
Qed.

Lemma filter_indexed_In {A} (p : A -> nat -> bool) items x :
  In x (filter_indexed p items) -> In x items.
Proof.
  unfold filter_indexed. intros H. apply in_map_iff in H as ([i y] & <- & H).
  apply filter_In in H as [H _]. now apply in_combine_r in H.
Qed.

Lemma uniqueLinks_In links link : In link (uniqueLinks links) -> In link links.
Proof. apply filter_indexed_In. Qed.





Lemma substring_length_le n s : String.length (String.substring 0 n s) <= n.
Proof.
  revert s. induction n as [|n IH]; intros [|c s]; simpl; try lia.
  specialize (IH s). lia.
Qed.

Lemma substring_nonempty n c s :
  String.substring 0 (S n) (String c s) <> EmptyString.
Proof. simpl. discriminate. Qed.

Lemma prefix_first d p c r : prefix (String d p) (String c r) = true -> d = c.
Proof. simpl. destruct (Ascii.ascii_dec d c); [auto | discriminate]. Qed.

Section HarvesterMore.

Variable env : Env.


Lemma actual_link_of_spec visited a link :
  In link (actual_link_of visited a) ->
  link_href link = fst a /\
  link_href link <> EmptyString /\
  JsString.startsWith (link_href link) "#" = false /\
  link_url link = resolved (link_href link) /\
  JsString.includes (link_url link) "rvo.nl" = true /\
  set_has visited (VString (link_url link)) = false /\
  link_text link = JsString.substring (JsString.trim (snd a)) 0 100 /\
  link_text link <> EmptyString.
Proof.
  destruct a as [href text]. unfold actual_link_of, resolved. cbn [fst snd].
  destruct href as [|c href']; [intros []|]. cbn [JsString.is_empty negb andb].
  destruct (JsString.trim text) as [|t text'] eqn:T; [intros []|].
  cbn [JsString.is_empty negb].
  set (href := String c href').
  assert (forall fullUrl,
            In link (if JsString.includes fullUrl "rvo.nl"
                        && negb (set_has visited (VString fullUrl))
                     then [ {| link_url := fullUrl;
                               link_text := JsString.substring (String t text') 0 100;
                               link_href := href |} ]
                     else []) ->
            link_href link = href /\ link_url link = fullUrl /\
            JsString.includes fullUrl "rvo.nl" = true /\
            set_has visited (VString fullUrl) = false /\
            link_text link = JsString.substring (String t text') 0 100) as Push.
  { intros fullUrl. destruct (JsString.includes fullUrl "rvo.nl"); [|intros []].
    destruct (set_has visited (VString fullUrl)); [intros []|].
    intros [<-|[]]. auto. }
  assert (JsString.startsWith href "#" = true -> c = "#"%char) as Hfrag
    by (intros H; symmetry; exact (prefix_first _ _ _ _ H)).
  destruct (JsString.startsWith href "/") eqn:S1.
  - assert (c = "/"%char) as Hc by (symmetry; exact (prefix_first _ _ _ _ S1)).
    intros H. apply Push in H as (Hh & Hu & Hd & Hv & Ht).
    rewrite Hh, Hu, Ht, S1.
    destruct (JsString.startsWith href "#") eqn:S3;
      [specialize (Hfrag eq_refl); rewrite Hc in Hfrag; discriminate|].
    repeat split; auto; try discriminate.
  - destruct (JsString.startsWith href "http") eqn:S2.
    + assert (c = "h"%char) as Hc by (symmetry; exact (prefix_first _ _ _ _ S2)).
      intros H. apply Push in H as (Hh & Hu & Hd & Hv & Ht).
      rewrite Hh, Hu, Ht, S1.
      destruct (JsString.startsWith href "#") eqn:S3;
        [specialize (Hfrag eq_refl); rewrite Hc in Hfrag; discriminate|].
      repeat split; auto; try discriminate.
    + destruct (JsString.startsWith href "#") eqn:S3; [intros []|].
      intros H. apply Push in H as (Hh & Hu & Hd & Hv & Ht).
      rewrite Hh, Hu, Ht, S1, S3.
      repeat split; auto; try discriminate.
Qed.

(** X2. Every link of the page-link set comes from an anchor of the page
    with a non-empty [href] that is not a fragment; its URL is the [href]
    resolved against the site's origin, contains the site's domain and is
    not in the visited set; its text is the anchor's trimmed text cut to
    100 characters, and is not empty. *)
Theorem page_links_on_domain (visited : list value) (html baseUrl_ : string) :
  Forall (fun link =>
            (exists text, In (link_href link, text) (anchors env html) /\
                          link_text link
                          = JsString.substring (JsString.trim text) 0 100) /\
            link_href link <> EmptyString /\
            JsString.startsWith (link_href link) "#" = false /\
            link_url link = resolved (link_href link) /\
            JsString.includes (link_url link) "rvo.nl" = true /\
            set_has visited (VString (link_url link)) = false /\
            link_text link <> EmptyString /\
            String.length (link_text link) <= 100)
         (extractActualLinks env visited html baseUrl_).
Proof.
  apply Forall_forall. intros link Hin.
  unfold extractActualLinks in Hin. apply uniqueLinks_In in Hin.
  apply in_flat_map in Hin as ([href text] & Ha & Hin).
  apply actual_link_of_spec in Hin as (Hh & Hne & Hf & Hu & Hd & Hv & Ht & Htn).
  simpl in Hh, Ht. subst href.
  repeat split; auto.
  - exists text. auto.
  - rewrite Ht. apply substring_length_le.
Qed.

End HarvesterMore.

(** A URL is a document link exactly when [getDocumentType] knows its
    type. *)
Lemma isDocument_typed u :
  isDocument u = true <-> documentTypeOf (JsString.toLowerCase u) <> "unknown".
Proof.
  unfold isDocument, documentTypeOf, documentExtensions. simpl.
  destruct (JsString.includes (JsString.toLowerCase u) ".pdf");
    destruct (JsString.includes (JsString.toLowerCase u) ".docx");
    destruct (JsString.includes (JsString.toLowerCase u) ".doc");
    destruct (JsString.includes (JsString.toLowerCase u) ".xlsx");
    destruct (JsString.includes (JsString.toLowerCase u) ".xls");
    destruct (JsString.includes (JsString.toLowerCase u) ".pptx");
    destruct (JsString.includes (JsString.toLowerCase u) ".ppt");
    simpl; split; intros H; try discriminate; try reflexivity; congruence.
Qed.

Lemma documentTypeOf_tags s :
  In (documentTypeOf s) ["pdf"; "docx"; "xlsx"; "pptx"; "unknown"].
Proof.
  unfold documentTypeOf.
  destruct (JsString.includes s ".pdf"); [simpl; auto|].
  destruct (_ || _); [simpl; auto|].
  destruct (_ || _); [simpl; auto|].
  destruct (_ || _); simpl; auto 6.
Qed.

Lemma lower_char_idempotent c :
  JsString.lower_char (JsString.lower_char c) = JsString.lower_char c.
Proof. destruct c as [[] [] [] [] [] [] [] []]; reflexivity. Qed.

Lemma toLowerCase_idempotent s :
  JsString.toLowerCase (JsString.toLowerCase s) = JsString.toLowerCase s.
Proof. induction s; simpl; [reflexivity|]. now rewrite lower_char_idempotent, IHs. Qed.

(** X3. [getDocumentType] and the document test of the harvester agree and
    ignore case: a URL is taken for a document exactly when its type is not
    ['unknown'], the type is one of five tags, and lower-casing the URL
    changes neither answer. *)
Theorem document_type_case_insensitive (u : string) :
  (isDocument u = true <-> getDocumentType (VString u) <> Ok "unknown") /\
  (exists tag, getDocumentType (VString u) = Ok tag /\
               In tag ["pdf"; "docx"; "xlsx"; "pptx"; "unknown"]) /\
  getDocumentType (VString (JsString.toLowerCase u)) = getDocumentType (VString u) /\
  isDocument (JsString.toLowerCase u) = isDocument u.
Proof.
  split; [|split].
  - rewrite isDocument_typed. simpl. split; intros H; congruence.
  - eexists. split; [reflexivity | apply documentTypeOf_tags].
  - unfold isDocument. simpl. rewrite toLowerCase_idempotent. auto.
Qed.

Section DocumentLinks.

Variable env : Env.

(** X4. Every link of the document-link set comes from an anchor with a
    non-empty [href]; its URL is the [href] resolved against the site's
    origin and is not in the visited set; its type is the one
    [getDocumentType] gives the URL, and is never ['unknown']; its text is
    at most 100 characters long. *)
Theorem document_links_typed (visited : list value) (html baseUrl_ : string) :
  Forall (fun doc =>
            (exists text, In (doc_href doc, text) (anchors env html) /\
                          doc_text doc
                          = JsString.substring (JsString.trim text) 0 100) /\
            doc_href doc <> EmptyString /\
            doc_url doc = resolved (doc_href doc) /\
            set_has visited (VString (doc_url doc)) = false /\
            getDocumentType (VString (doc_url doc)) = Ok (doc_type doc) /\
            In (doc_type doc) ["pdf"; "docx"; "xlsx"; "pptx"] /\
            String.length (doc_text doc) <= 100)
         (extractDocumentLinks env visited html baseUrl_).
Proof.
  apply Forall_forall. intros doc Hin.
  unfold extractDocumentLinks in Hin.
  apply in_flat_map in Hin as ([href text] & Ha & Hin).
  unfold document_link_of in Hin. cbn [fst snd] in Hin.
  destruct href as [|c href']; [destruct Hin|]. cbn [JsString.is_empty negb] in Hin.
  set (href := String c href') in *.
  assert ((if JsString.startsWith href "/" then baseUrl ++ href
           else if JsString.startsWith href "http" then href else href)
          = resolved href) as R.
  { unfold resolved. destruct (JsString.startsWith href "/"); [reflexivity|].
    destruct (JsString.startsWith href "http"); reflexivity. }
  rewrite R in Hin.
  destruct (isDocument (resolved href)) eqn:D; [|destruct Hin].
  destruct (set_has visited (VString (resolved href))) eqn:V; [destruct Hin|].
  destruct Hin as [<-|[]]. simpl.
  repeat split; auto.
  - exists text. auto.
  - discriminate.
  - apply isDocument_typed in D.
    pose proof (documentTypeOf_tags (JsString.toLowerCase (resolved href))) as T.
    simpl in T. simpl. intuition congruence.
  - apply substring_length_le.
Qed.

End DocumentLinks.

(* ================================================================= *)
(** ** Further properties of the plan validator *)

Lemma store_store props k v w : store (store props k v) k w = store props k w.
Proof.
  induction props as [|[k' v'] rest IH]; simpl.
  - now rewrite String.eqb_refl.
  - destruct (String.eqb k' k) eqn:E; simpl.
    + now rewrite String.eqb_refl.
    + now rewrite E, IH.
Qed.

Lemma store_unchanged props k v : lookup props k = Some v -> store props k v = props.
Proof.
  induction props as [|[k' v'] rest IH]; simpl; intros H; [discriminate|].
  destruct (String.eqb k' k) eqn:E.
  - apply String.eqb_eq in E. congruence.
  - now rewrite IH.
Qed.

Lemma filter_result_each {A} (f : A -> result bool) items kept :
  filter_result f items = Ok kept -> Forall (fun x => exists b, f x = Ok b) items.
Proof.
  revert kept. induction items as [|x rest IH]; simpl; intros kept H; constructor.
  - destruct (f x); [eauto | discriminate].
  - destruct (f x); [|discriminate]. simpl in H.
    destruct (filter_result f rest); [eauto | discriminate].
Qed.

(** X5. Validation returns exactly on the plans that are objects whose
    [sub_pages] is an array without [null] entries; on every other value
    it throws, and what it throws is a TypeError. *)
Theorem validation_succeeds_iff (plan : value) (actualLinks : list LinkRecord) :
  ((exists validPlan, validateScrapingPlan plan actualLinks = Ok validPlan)
   <-> validatable plan) /\
  (forall e, validateScrapingPlan plan actualLinks = Throw e ->
             exists msg, e = TypeError msg).
Proof.
  split; [split|].
  - intros [validPlan H]. pose proof H as H'.
    apply validateScrapingPlan_Ok in H' as (props & proposed & -> & L & _).
    exists props, proposed. repeat split; trivial.
    unfold validateScrapingPlan in H. simpl in H. rewrite L in H. simpl in H.
    apply bind_Ok in H as (kept & Hf & _).
    apply filter_result_each in Hf.
    eapply Forall_impl; [|exact Hf]. intros x [b Hb].
    destruct x; simpl in Hb; try discriminate; split; discriminate.
  - intros (props & proposed & -> & L & Hall).
    eapply validateScrapingPlan_total; eauto.
  - intros e. unfold validateScrapingPlan.
    destruct (get plan "sub_pages") as [sub_pages|e'] eqn:G; simpl.
    + destruct sub_pages; try (intros H; inversion H; subst; unfold reading,
        not_a_function; eauto; fail).
      match goal with |- context [filter_result ?f items] => set (ff := f) end.
      assert (forall l e0, filter_result ff l = Throw e0 -> exists msg, e0 = TypeError msg)
        as Hthrow.
      { induction l as [|x rest IH]; simpl; intros e0 H0; [discriminate|].
        destruct (ff x) as [b|e1] eqn:Fx; simpl in H0.
        - destruct (filter_result ff rest) as [k|e2]; simpl in H0;
            [discriminate | inversion H0; subst; eauto].
        - inversion H0; subst. unfold ff in Fx.
          destruct x; simpl in Fx; try discriminate;
            try (destruct (lookup props "url"); discriminate);
            inversion Fx; unfold reading; eauto. }
      destruct (filter_result ff items) as [kept|e1] eqn:F; simpl; [discriminate|].
      intros H. inversion H; subst. eauto.
    + intros H. inversion H; subst.
      destruct plan; simpl in G; try discriminate;
        try (destruct (lookup props "sub_pages"); discriminate);
        inversion G; unfold reading; eauto.
Qed.

(** The result of validation, on a plan whose entries can be read. *)
Lemma validateScrapingPlan_eq props proposed actualLinks :
  lookup props "sub_pages" = Some (VArray proposed) ->
  Forall (fun subPage => exists url, get subPage "url" = Ok url) proposed ->
  validateScrapingPlan (VObject props) actualLinks
  = Ok (VObject (store props "sub_pages" (VArray (filter (listed actualLinks) proposed)))).
Proof.
  intros L Hall.
  destruct (validateScrapingPlan_total props proposed actualLinks L) as [validPlan H].
  - eapply Forall_impl; [|exact Hall]. intros x [url Hx].
    destruct x; simpl in Hx; try discriminate; split; discriminate.
  - rewrite H. apply validateScrapingPlan_Ok in H as (props' & proposed' & E & L' & ->).
    inversion E; subst props'. rewrite L in L'. inversion L'; subst. reflexivity.
Qed.

Lemma listed_readable actualLinks subPage :
  listed actualLinks subPage = true -> exists url, get subPage "url" = Ok url.
Proof. unfold listed. destruct (get subPage "url"); [eauto | discriminate]. Qed.

Lemma filter_filter {A} (p : A -> bool) l : filter p (filter p l) = filter p l.
Proof.
  induction l as [|x rest IH]; simpl; [reflexivity|].
  destruct (p x) eqn:E; simpl; [rewrite E, IH|]; auto.
Qed.

(** X6. Validation is idempotent: a validated plan passes validation
    against the same links unchanged. *)
Theorem validation_idempotent
  (plan : value) (actualLinks : list LinkRecord) (validPlan : value) :
  validateScrapingPlan plan actualLinks = Ok validPlan ->
  validateScrapingPlan validPlan actualLinks = Ok validPlan.
Proof.
  intros H. apply validateScrapingPlan_Ok in H as (props & proposed & -> & L & ->).
  rewrite (validateScrapingPlan_eq _ (filter (listed actualLinks) proposed)).
  - now rewrite filter_filter, store_store.
  - apply lookup_store_same.
  - apply Forall_forall. intros x Hx. apply filter_In in Hx as [_ Hx].
    eapply listed_readable; eauto.
Qed.

(** X7. A plan that proposes only harvested links is returned as it is;
    and against an empty set of links every proposed sub-page is dropped. *)
Theorem validation_keeps_listed_plan
  (props : list (string * value)) (proposed : list value)
  (actualLinks : list LinkRecord) :
  lookup props "sub_pages" = Some (VArray proposed) ->
  Forall (fun subPage =>
            exists url, get subPage "url" = Ok (VString url) /\
                        In url (map link_url actualLinks)) proposed ->
  validateScrapingPlan (VObject props) actualLinks = Ok (VObject props) /\
  validateScrapingPlan (VObject props) []
  = Ok (VObject (store props "sub_pages" (VArray []))).
Proof.
  intros L Hall.
  assert (Forall (fun subPage => exists url, get subPage "url" = Ok url) proposed) as Hr.
  { eapply Forall_impl; [|exact Hall]. intros x (url & Hx & _). eauto. }
  rewrite !(validateScrapingPlan_eq _ proposed) by assumption. split.
  - rewrite filter_all; [now rewrite store_unchanged|].
    intros x Hx. rewrite Forall_forall in Hall.
    destruct (Hall x Hx) as (url & G & Hin). unfold listed. rewrite G.
    unfold set_has. apply existsb_exists. exists (VString url). split.
    + apply in_map_iff in Hin as (link & <- & Hin).
      apply in_map_iff. exists link. auto.
    + simpl. apply String.eqb_refl.
  - replace (filter (listed []) proposed) with (@nil value); [reflexivity|].
    clear. induction proposed as [|x rest IH]; simpl; [reflexivity|].
    rewrite <- IH. unfold listed. destruct (get x "url"); reflexivity.
Qed.

(* ================================================================= *)
(** ** Further properties of the crawl executor *)

Section ExecutorMore.

Variable env : Env.

Lemma scrape_main_page_cases plan st :
  exists pages0 st0,
    scrape_main_page env plan [] st = (Ok pages0, st0) /\
    visitedUrls st0 = visitedUrls st /\
    List.length pages0 <= 1 /\
    (st0 = st \/ exists url, st0 = log (Get url) st).
Proof.
  unfold scrape_main_page, try_catch, bindM, lift, ret.
  assert (forall pages0 st0,
            visitedUrls st0 = visitedUrls st -> List.length pages0 <= 1 ->
            (st0 = st \/ exists url, st0 = log (Get url) st) ->
            exists pages1 st1,
              (Ok pages0, st0) = (@Ok (list PageRecord) pages1, st1) /\
              visitedUrls st1 = visitedUrls st /\
              List.length pages1 <= 1 /\
              (st1 = st \/ exists url, st1 = log (Get url) st)) as Done
    by (intros; do 2 eexists; eauto).
  destruct (get plan "main_page") as [main_page|]; [|apply Done; simpl; auto].
  destruct (get main_page "url") as [url|]; [|apply Done; simpl; auto].
  destruct (scrapePage_state env url st) as [[page|] ->].
  - destruct (get main_page "priority"); apply Done; simpl; eauto.
  - apply Done; simpl; eauto.
Qed.

(** One turn of the sub-page loop, by what it sends: nothing; a probe that
    fails; a probe and a retrieval that fails; or a probe, a retrieval, the
    record of the page, the URL marked visited and a delay. *)
Lemma scrape_sub_page_cases subPage allPages st :
  exists allPages' st',
    scrape_sub_page env subPage allPages st = (Ok allPages', st') /\
    ((allPages' = allPages /\ st' = st) \/
     (exists url, get subPage "url" = Ok url /\
                  set_has (visitedUrls st) url = false /\
                  allPages' = allPages /\
                  (st' = log (Head url) st \/
                   st' = log (Get url) (log (Head url) st))) \/
     (exists url pageData,
        get subPage "url" = Ok url /\
        set_has (visitedUrls st) url = false /\
        scrapePage env url (log (Head url) st)
          = (Ok pageData, log (Get url) (log (Head url) st)) /\
        allPages' = (allPages ++ [ {| pr_data := pageData;
                                      pr_priority := prop subPage "priority";
                                      pr_reason := prop subPage "reason" |} ])%list /\
        st' = log (Delay 1000) (mark url (log (Get url) (log (Head url) st))))).
Proof.
  unfold scrape_sub_page, try_catch, bindM, lift, ret, visited_has.
  destruct (get subPage "url") as [url|e] eqn:G;
    [|do 2 eexists; split; [reflexivity | left; auto]].
  destruct (set_has (visitedUrls st) url) eqn:V; simpl;
    [do 2 eexists; split; [reflexivity | left; auto]|].
  destruct (checkUrlExists_eq env url st) as [[|] ->];
    [|do 2 eexists; split; [reflexivity | right; left; exists url; auto 6]].
  destruct (scrapePage_state env url (log (Head url) st)) as [[pageData|e] S];
    rewrite S;
    [|do 2 eexists; split; [reflexivity | right; left; exists url; auto 6]].
  unfold prop.
  destruct (get_after_get _ _ "priority" _ G) as [priority ->].
  destruct (get_after_get _ _ "reason" _ G) as [reason ->].
  unfold visited_add, sleep, emit. simpl.
  do 2 eexists. split; [reflexivity|]. right. right.
  exists url, pageData. auto 6.
Qed.

(** One turn of the document loop, by what it sends: nothing; a retrieval
    that gives no text; or a retrieval, the record of the document, the
    URL marked visited and a delay. *)
Lemma process_document_cases document allDocuments st :
  exists allDocuments' st',
    process_document env document allDocuments st = (Ok allDocuments', st') /\
    ((allDocuments' = allDocuments /\ st' = st) \/
     (exists u, get document "url" = Ok (VString u) /\
                set_has (visitedUrls st) (VString u) = false /\
                allDocuments' = allDocuments /\
                st' = log (Get (VString u)) st) \/
     (exists u,
        let documentType := documentTypeOf (JsString.toLowerCase u) in
        let documentText :=
          document_text env (List.length (trace st)) (VString u) documentType in
        get document "url" = Ok (VString u) /\
        set_has (visitedUrls st) (VString u) = false /\
        documentText <> EmptyString /\
        allDocuments'
        = (allDocuments ++
           [ {| dr_url := VString u;
                dr_title := if JsString.is_empty (JsString.lastSegment u "/")
                            then "Document" else JsString.lastSegment u "/";
                dr_textContent := documentText;
                dr_priority := prop document "priority";
                dr_reason := prop document "reason";
                dr_type := documentType |} ])%list /\
        st' = log (Delay 1000)
                  (mark (VString u) (log (Get (VString u)) st)))).
Proof.
  unfold process_document, try_catch, bindM, lift, ret, visited_has.
  destruct (get document "url") as [url|e] eqn:G;
    [|do 2 eexists; split; [reflexivity | left; auto]].
  destruct (set_has (visitedUrls st) url) eqn:V; simpl;
    [do 2 eexists; split; [reflexivity | left; auto]|].
  destruct (getDocumentType url) as [documentType|e] eqn:T;
    [|do 2 eexists; split; [reflexivity | left; auto]].
  destruct (getDocumentType_string _ _ T) as [u ->].
  simpl in T. injection T as <-.
  rewrite extractDocumentText_eq.
  destruct (document_text env (List.length (trace st)) (VString u) _)
    as [|c text] eqn:D; simpl;
    [do 2 eexists; split; [reflexivity | right; left; exists u; auto 6]|].
  unfold prop.
  destruct (get_after_get _ _ "priority" _ G) as [priority ->].
  destruct (get_after_get _ _ "reason" _ G) as [reason ->].
  unfold visited_add, sleep, emit. simpl.
  do 2 eexists. split; [reflexivity|]. right. right.
  exists u. cbv zeta. rewrite D. repeat split; auto. discriminate.
Qed.

(** A run of the executor that returns, phase by phase. *)
Lemma aiExecuteScrapingPlan_run plan st data st' :
  aiExecuteScrapingPlan env plan st = (Ok data, st') ->
  exists pages0 st0 subPages st1 documents,
    scrape_main_page env plan [] st = (Ok pages0, st0) /\
    Js.slice_items (NumberToString env) (StringToNumber env) "plan.sub_pages"
      (prop plan "sub_pages") (or_else (prop plan "max_pages") (VNumber (number_of_Z 8)))
      = Ok subPages /\
    for_each (scrape_sub_page env) subPages pages0 st0 = (Ok (allPages data), st1) /\
    Js.slice_items (NumberToString env) (StringToNumber env) "plan.documents"
      (prop plan "documents")
      (or_else (prop plan "max_documents") (VNumber (number_of_Z 5)))
      = Ok documents /\
    for_each (process_document env) documents [] st1 = (Ok (allDocuments data), st') /\
    mainPage data = hd_error (allPages data).
Proof.
  unfold aiExecuteScrapingPlan, bindM, lift, ret, prop. intros H.
  repeat match type of H with
         | match ?m with _ => _ end = _ => destruct m eqn:?; try discriminate H
         end.
  inversion H; subst; clear H. simpl. eauto 12.
Qed.

End ExecutorMore.

Lemma delays_app l l' : delays (l ++ l') = delays l + delays l'.
Proof. unfold delays. now rewrite filter_app, length_app. Qed.

Lemma for_each_total {A B} (body : A -> B -> M B) :
  (forall x acc st, exists acc' st', body x acc st = (Ok acc', st')) ->
  forall items acc st, exists acc' st', for_each body items acc st = (Ok acc', st').
Proof.
  intros Hbody items acc st.
  destruct (for_each_invariant body (fun _ _ => True)) with (items := items)
    (acc := acc) (st := st) as (acc' & st' & E & _); eauto.
  intros x a s _. destruct (Hbody x a s) as (a' & s' & E). eauto.
Qed.

Section ExecutorBounds.

Variable env : Env.

Lemma sub_page_loop_total subPages allPages st :
  exists allPages' st',
    for_each (scrape_sub_page env) subPages allPages st = (Ok allPages', st').
Proof.
  apply for_each_total. intros x acc s.
  destruct (scrape_sub_page_cases env x acc s) as (a & s' & E & _). eauto.
Qed.

Lemma document_loop_total documents allDocuments st :
  exists allDocuments' st',
    for_each (process_document env) documents allDocuments st = (Ok allDocuments', st').
Proof.
  apply for_each_total. intros x acc s.
  destruct (process_document_cases env x acc s) as (a & s' & E & _). eauto.
Qed.

Lemma to_number_primitive v :
  primitive v ->
  exists x, Js.to_number (NumberToString env) (StringToNumber env) v = Ok x.
Proof. destruct v as [| |[]| | | |]; simpl; intros H; try contradiction; eauto. Qed.

Lemma or_else_primitive v d : primitive v -> primitive d -> primitive (or_else v d).
Proof. unfold or_else. destruct (truthy v); auto. Qed.

(** X8. Whether the executor throws is decided by the plan alone: a run
    returns exactly when [plan.sub_pages] and [plan.documents] can both be
    sliced, whatever the network answers; in particular it returns on
    every plan whose [sub_pages] and [documents] are arrays and whose
    [max_pages] and [max_documents] are absent or primitive. *)
Theorem executor_throws_on_plan_shape_only (plan : value) (st : State) :
  let sliced what items limit default :=
    exists kept,
      Js.slice_items (NumberToString env) (StringToNumber env) what
        (prop plan items) (or_else (prop plan limit) (VNumber (number_of_Z default)))
      = Ok kept in
  ((exists data st', aiExecuteScrapingPlan env plan st = (Ok data, st'))
   <-> sliced "plan.sub_pages" "sub_pages" "max_pages" 8%Z
       /\ sliced "plan.documents" "documents" "max_documents" 5%Z) /\
  (forall subPages documents,
     get plan "sub_pages" = Ok (VArray subPages) ->
     get plan "documents" = Ok (VArray documents) ->
     primitive (prop plan "max_pages") ->
     primitive (prop plan "max_documents") ->
     exists data st', aiExecuteScrapingPlan env plan st = (Ok data, st')).
Proof.
  cbv zeta.
  assert ((exists kept,
             Js.slice_items (NumberToString env) (StringToNumber env) "plan.sub_pages"
               (prop plan "sub_pages")
               (or_else (prop plan "max_pages") (VNumber (number_of_Z 8))) = Ok kept) ->
          (exists kept,
             Js.slice_items (NumberToString env) (StringToNumber env) "plan.documents"
               (prop plan "documents")
               (or_else (prop plan "max_documents") (VNumber (number_of_Z 5))) = Ok kept) ->
          exists data st', aiExecuteScrapingPlan env plan st = (Ok data, st')) as Run.
  { intros [subPages Hs] [documents Hd].
    unfold aiExecuteScrapingPlan, bindM, lift, ret.
    destruct (scrape_main_page_total env plan [] st) as (pages0 & st0 & ->).
    unfold prop in Hs, Hd.
    destruct (get plan "sub_pages") as [sp|] eqn:G1; [|discriminate Hs].
    destruct (get_after_get _ _ "max_pages" _ G1) as [mp Gmp]. rewrite Gmp in *.
    destruct (get_after_get _ _ "documents" _ G1) as [dc Gdc]. rewrite Gdc in *.
    destruct (get_after_get _ _ "max_documents" _ G1) as [md Gmd]. rewrite Gmd in *.
    rewrite Hs.
    destruct (sub_page_loop_total subPages pages0 st0) as (pages & st1 & ->).
    rewrite Hd.
    destruct (document_loop_total documents [] st1) as (docs & st2 & ->).
    eauto. }
  split; [split|].
  - intros (data & st' & H).
    apply aiExecuteScrapingPlan_run in H
      as (pages0 & st0 & subPages & st1 & documents & _ & Hs & _ & Hd & _).
    eauto.
  - intros [Hs Hd]. auto.
  - intros subPages documents Gs Gd Pp Pd. apply Run.
    + unfold prop at 1. rewrite Gs. unfold Js.slice_items.
      destruct (to_number_primitive (or_else (prop plan "max_pages")
                                             (VNumber (number_of_Z 8)))) as [x ->];
        [apply or_else_primitive; [assumption | exact I]|].
      cbn [Js.bind]. eauto.
    + unfold prop at 1. rewrite Gd. unfold Js.slice_items.
      destruct (to_number_primitive (or_else (prop plan "max_documents")
                                             (VNumber (number_of_Z 5)))) as [x ->];
        [apply or_else_primitive; [assumption | exact I]|].
      cbn [Js.bind]. eauto.
Qed.

End ExecutorBounds.

Section ExecutorOutput.

Variable env : Env.

Lemma slice_items_length what x limit items n :
  Js.slice_items (NumberToString env) (StringToNumber env) what x (VNumber limit)
    = Ok items ->
  Js.to_integer_or_infinity limit = Js.Finite n ->
  (0 <= n)%Z ->
  List.length items <= Z.to_nat n.
Proof.
  intros H Hn Hpos. unfold Js.slice_items in H.
  destruct x; try discriminate; simpl in H; rewrite Hn in H; inversion H; subst;
    rewrite length_firstn; unfold Js.slice_count;
    destruct (n <? 0)%Z eqn:E; try (apply Z.ltb_lt in E; lia); lia.
Qed.

Lemma sub_page_loop_length subPages allPages st allPages' st' :
  for_each (scrape_sub_page env) subPages allPages st = (Ok allPages', st') ->
  List.length allPages' <= List.length allPages + List.length subPages.
Proof.
  revert allPages st. induction subPages as [|x rest IH]; simpl; intros acc st H.
  - inversion H; subst. lia.
  - unfold bindM in H.
    destruct (scrape_sub_page_cases env x acc st) as (a & s & E & Hc). rewrite E in H.
    apply IH in H.
    destruct Hc as [[-> _]|[(url & _ & _ & -> & _)|(url & pd & _ & _ & _ & -> & _)]];
      try rewrite length_app in H; simpl in H; lia.
Qed.

Lemma document_loop_length documents allDocuments st allDocuments' st' :
  for_each (process_document env) documents allDocuments st = (Ok allDocuments', st') ->
  List.length allDocuments' <= List.length allDocuments + List.length documents.
Proof.
  revert allDocuments st. induction documents as [|x rest IH]; simpl; intros acc st H.
  - inversion H; subst. lia.
  - unfold bindM in H.
    destruct (process_document_cases env x acc st) as (a & s & E & Hc). rewrite E in H.
    apply IH in H.
    destruct Hc as [[-> _]|[(u & _ & _ & -> & _)|(u & _ & _ & _ & -> & _)]];
      try rewrite length_app in H; simpl in H; lia.
Qed.

(** X9. The executor retrieves at most [max_pages] sub-pages and records
    at most [max_documents] documents; a limit that is absent, zero or
    otherwise falsy counts as 8 sub-pages and 5 documents, so that a run
    analyses at most 9 pages by default. *)
Theorem executor_respects_limits
  (plan : value) (st : State) (data : ScrapedData) (st' : State) :
  aiExecuteScrapingPlan env plan st = (Ok data, st') ->
  (truthy (prop plan "max_pages") = false -> List.length (allPages data) <= 9) /\
  (truthy (prop plan "max_documents") = false ->
   List.length (allDocuments data) <= 5) /\
  (forall limit n,
     prop plan "max_pages" = VNumber limit -> truthy (VNumber limit) = true ->
     Js.to_integer_or_infinity limit = Js.Finite n -> (0 <= n)%Z ->
     List.length (allPages data) <= 1 + Z.to_nat n) /\
  (forall limit n,
     prop plan "max_documents" = VNumber limit -> truthy (VNumber limit) = true ->
     Js.to_integer_or_infinity limit = Js.Finite n -> (0 <= n)%Z ->
     List.length (allDocuments data) <= Z.to_nat n).
Proof.
  intros H.
  apply aiExecuteScrapingPlan_run in H
    as (pages0 & st0 & subPages & st1 & documents & Hmain & Hs & Hsub & Hd & Hdoc & _).
  destruct (scrape_main_page_cases env plan st) as (p0 & s0 & Hm & _ & Hlen & _).
  rewrite Hmain in Hm. inversion Hm; subst p0 s0. clear Hm.
  apply sub_page_loop_length in Hsub. apply document_loop_length in Hdoc.
  simpl in Hdoc.
  repeat split.
  - intros F. unfold or_else in Hs. rewrite F in Hs.
    apply slice_items_length with (n := 8%Z) in Hs; [lia | reflexivity | lia].
  - intros F. unfold or_else in Hd. rewrite F in Hd.
    apply slice_items_length with (n := 5%Z) in Hd; [lia | reflexivity | lia].
  - intros limit n P T Hn Hpos. unfold or_else in Hs. rewrite P, T in Hs.
    apply slice_items_length with (n := n) in Hs; trivial. lia.
  - intros limit n P T Hn Hpos. unfold or_else in Hd. rewrite P, T in Hd.
    apply slice_items_length with (n := n) in Hd; trivial. lia.
Qed.

Lemma crawl_events_app l l' :
  Forall crawl_event l -> Forall crawl_event l' -> Forall crawl_event (l ++ l').
Proof. intros. apply Forall_app. auto. Qed.

(** X10. What a run of the executor does to the outside world: it sends
    GET and HEAD requests and waits, one second at a time; it never calls
    the oracle; and it waits exactly once for every sub-page it has
    retrieved and once for every document it has recorded. The pages of
    the result are those of the first block, [pages0], at most one,
    followed by the sub-pages the loop has pushed. *)
Theorem executor_one_delay_per_target
  (plan : value) (st : State) (data : ScrapedData) (st' : State) :
  aiExecuteScrapingPlan env plan st = (Ok data, st') ->
  exists added pages0 st0 pushed,
    scrape_main_page env plan [] st = (Ok pages0, st0) /\
    trace st' = (trace st ++ added)%list /\
    Forall crawl_event added /\
    allPages data = (pages0 ++ pushed)%list /\
    List.length pages0 <= 1 /\
    delays added = List.length pushed + List.length (allDocuments data).
Proof.
  intros H.
  apply aiExecuteScrapingPlan_run in H
    as (pages0 & st0 & subPages & st1 & documents & Hmain & _ & Hsub & _ & Hdoc & _).
  destruct (scrape_main_page_cases env plan st) as (p0 & s0 & Hm & _ & Hlen & Hst0).
  rewrite Hmain in Hm. inversion Hm; subst p0 s0. clear Hm.
  assert (exists added0, trace st0 = (trace st ++ added0)%list /\
                         Forall crawl_event added0 /\ delays added0 = 0)
    as (added0 & T0 & C0 & D0).
  { destruct Hst0 as [->|[url ->]].
    - exists []. rewrite app_nil_r. repeat split; auto.
    - exists [Get url]. simpl. repeat split; auto. repeat constructor. }
  destruct (for_each_invariant (scrape_sub_page env)
              (fun acc s =>
                 exists pushed added,
                   acc = (pages0 ++ pushed)%list /\
                   trace s = (trace st0 ++ added)%list /\
                   Forall crawl_event added /\
                   delays added = List.length pushed))
    with (items := subPages) (acc := pages0) (st := st0)
    as (acc1 & s1 & E1 & pushed & added1 & Hp & T1 & C1 & D1).
  { intros x acc s (pushed & added & -> & T & C & D).
    destruct (scrape_sub_page_cases env x (pages0 ++ pushed)%list s)
      as (a & s' & E & Hc).
    exists a, s'. split; [exact E|].
    destruct Hc as [[-> ->]|[(url & _ & _ & -> & Hs')|(url & pd & _ & _ & _ & -> & ->)]].
    - exists pushed, added. auto.
    - destruct Hs' as [->| ->]; simpl; rewrite T.
      + exists pushed, (added ++ [Head url])%list. rewrite app_assoc.
        split; [reflexivity|]. split; [reflexivity|]. split.
        * apply crawl_events_app; [assumption | repeat constructor].
        * rewrite delays_app, D. unfold delays. simpl. lia.
      + exists pushed, (added ++ [Head url; Get url])%list. rewrite <- !app_assoc.
        split; [reflexivity|]. split; [reflexivity|]. split.
        * apply crawl_events_app; [assumption | repeat constructor].
        * rewrite delays_app, D. unfold delays. simpl. lia.
    - eexists (pushed ++ [_])%list, (added ++ [Head url; Get url; Delay 1000])%list.
      split; [now rewrite app_assoc|]. split; [|split].
      + unfold mark. simpl. destruct (set_has _ _); simpl; rewrite T, <- !app_assoc;
          reflexivity.
      + apply crawl_events_app; [assumption | repeat constructor].
      + rewrite delays_app, D, length_app. unfold delays. simpl. lia. }
  { exists [], []. rewrite !app_nil_r. repeat split; auto. }
  rewrite Hsub in E1. inversion E1; subst acc1 s1. clear E1.
  destruct (for_each_invariant (process_document env)
              (fun acc s =>
                 exists added,
                   trace s = (trace st1 ++ added)%list /\
                   Forall crawl_event added /\
                   delays added = List.length acc))
    with (items := documents) (acc := @nil DocumentRecord) (st := st1)
    as (acc2 & s2 & E2 & added2 & T2 & C2 & D2).
  { intros x acc s (added & T & C & D).
    destruct (process_document_cases env x acc s) as (a & s' & E & Hc).
    exists a, s'. split; [exact E|].
    destruct Hc as [[-> ->]|[(u & _ & _ & -> & ->)|(u & _ & _ & _ & -> & ->)]].
    - exists added. auto.
    - exists (added ++ [Get (VString u)])%list. simpl. rewrite T, app_assoc.
      split; [reflexivity|]. split.
      + apply crawl_events_app; [assumption | repeat constructor].
      + rewrite delays_app, D. unfold delays. simpl. lia.
    - exists (added ++ [Get (VString u); Delay 1000])%list. split; [|split].
      + unfold mark. simpl. destruct (set_has _ _); simpl; rewrite T, <- !app_assoc;
          reflexivity.
      + apply crawl_events_app; [assumption | repeat constructor].
      + rewrite delays_app, D, length_app. unfold delays. simpl. lia. }
  { exists []. rewrite app_nil_r. repeat split; auto. }
  rewrite Hdoc in E2. inversion E2; subst acc2 s2. clear E2.
  exists (added0 ++ added1 ++ added2)%list, pages0, st0, pushed.
  split; [exact Hmain|].
  split; [rewrite T2, T1, T0, <- !app_assoc; reflexivity|].
  split; [repeat apply crawl_events_app; assumption|].
  split; [assumption|]. split; [assumption|].
  rewrite !delays_app. lia.
Qed.

End ExecutorOutput.

Section ExecutorRecords.

Variable env : Env.

Lemma extract_by_type_nonempty documentType buffer :
  extract_by_type env documentType buffer <> EmptyString ->
  In documentType ["pdf"; "docx"; "xlsx"].
Proof.
  unfold extract_by_type.
  destruct (String.eqb documentType "pdf") eqn:E1;
    [apply String.eqb_eq in E1; subst; simpl; auto|].
  destruct (String.eqb documentType "docx") eqn:E2;
    [apply String.eqb_eq in E2; subst; simpl; auto|].
  destruct (String.eqb documentType "xlsx") eqn:E3;
    [apply String.eqb_eq in E3; subst; simpl; auto|].
  congruence.
Qed.

Lemma document_text_nonempty t url documentType :
  document_text env t url documentType <> EmptyString ->
  In documentType ["pdf"; "docx"; "xlsx"] /\
  exists response,
    http_get env t url = Ok response /\ ok response = true /\
    document_text env t url documentType
    = extract_by_type env documentType (body response).
Proof.
  unfold document_text.
  destruct (http_get env t url) as [response|]; [|intros H; now contradiction H].
  destruct (ok response) eqn:Hok; [|intros H; now contradiction H].
  intros H. split; [eapply extract_by_type_nonempty; eauto|].
  exists response. repeat split. exact Hok.
Qed.

Lemma sub_page_loop_monotone subPages allPages st allPages' st' :
  for_each (scrape_sub_page env) subPages allPages st = (Ok allPages', st') ->
  forall v, set_has (visitedUrls st) v = true -> set_has (visitedUrls st') v = true.
Proof.
  revert allPages st. induction subPages as [|x rest IH]; simpl; intros acc st H v Hv.
  - inversion H; subst. exact Hv.
  - unfold bindM in H.
    destruct (scrape_sub_page_step env x acc st) as (a & s & E & Hmono & _).
    rewrite E in H. eapply IH; eauto.
Qed.

(** X11. Every DocumentRecord of a run has a string URL that was not
    visited when the run began and is visited when it ends, a non-empty
    text, a non-empty title and a type among ['pdf'], ['docx'] and
    ['xlsx'], the one [getDocumentType] gives its URL; and no two records
    have the same URL. *)
Theorem recorded_documents_invariant
  (plan : value) (st : State) (data : ScrapedData) (st' : State) :
  aiExecuteScrapingPlan env plan st = (Ok data, st') ->
  Forall (recorded st st') (allDocuments data) /\
  NoDup (map dr_url (allDocuments data)).
Proof.
  intros H.
  apply aiExecuteScrapingPlan_run in H
    as (pages0 & st0 & subPages & st1 & documents & Hmain & _ & Hsub & _ & Hdoc & _).
  destruct (scrape_main_page_cases env plan st) as (p0 & s0 & Hm & Hv0 & _).
  rewrite Hmain in Hm. inversion Hm; subst p0 s0. clear Hm.
  assert (forall v, set_has (visitedUrls st) v = true ->
                    set_has (visitedUrls st1) v = true) as Mono01.
  { intros v Hv. eapply sub_page_loop_monotone; eauto. now rewrite Hv0. }
  destruct (for_each_invariant (process_document env)
              (fun acc s =>
                 (forall v, set_has (visitedUrls st1) v = true ->
                            set_has (visitedUrls s) v = true) /\
                 Forall (recorded st1 s) acc /\
                 NoDup (map dr_url acc)))
    with (items := documents) (acc := @nil DocumentRecord) (st := st1)
    as (acc2 & s2 & E2 & _ & Hrec & Hnd).
  { intros x acc s (Mono & Hrec & Hnd).
    destruct (process_document_cases env x acc s) as (a & s' & E & Hc).
    exists a, s'. split; [exact E|].
    destruct Hc as [[-> ->]|[(u & _ & _ & -> & ->)|(u & G & V & D & -> & ->)]];
      [auto | auto |].
    assert (forall v, set_has (visitedUrls s) v = true ->
                      set_has (visitedUrls (log (Delay 1000)
                                 (mark (VString u) (log (Get (VString u)) s)))) v = true)
      as Step.
    { intros v Hv. simpl. rewrite set_has_mark. simpl. now rewrite Hv. }
    split; [auto|]. split.
    - apply Forall_app. split.
      + eapply Forall_impl; [|exact Hrec].
        intros r (u' & ? & ? & ? & ? & ? & ? & Hvis).
        exists u'. repeat split; auto.
      + constructor; [|constructor].
        apply document_text_nonempty in D as D'. destruct D' as [Hty _].
        exists u. simpl. repeat split; auto.
        * destruct (JsString.is_empty (JsString.lastSegment u "/")) eqn:L;
            [discriminate|].
          destruct (JsString.lastSegment u "/"); [discriminate L | discriminate].
        * destruct (set_has (visitedUrls st1) (VString u)) eqn:V1; [|reflexivity].
          apply Mono in V1. congruence.
        * rewrite set_has_mark. simpl. rewrite V, String.eqb_refl. reflexivity.
    - rewrite map_app. simpl. apply NoDup_app; [assumption | repeat constructor; auto |].
      intros url Hin [<-|[]].
      apply in_map_iff in Hin as (r & Hr & Hin).
      rewrite Forall_forall in Hrec.
      destruct (Hrec r Hin) as (u' & Hu' & _ & _ & _ & _ & _ & Hvis).
      rewrite Hr in Hu'. injection Hu' as <-. congruence. }
  { repeat split; auto; constructor. }
  rewrite Hdoc in E2. inversion E2; subst acc2 s2. clear E2.
  split; [|assumption].
  eapply Forall_impl; [|exact Hrec].
  intros r (u & ? & ? & ? & ? & ? & Hnot & ?).
  exists u. repeat split; auto.
  destruct (set_has (visitedUrls st) (VString u)) eqn:V; [|reflexivity].
  apply Mono01 in V. congruence.
Qed.

End ExecutorRecords.

(* ================================================================= *)
(** ** The agent's state only grows *)

Lemma extends_refl st : extends st st.
Proof. split; exists []; now rewrite app_nil_r. Qed.

Lemma extends_trans st1 st2 st3 : extends st1 st2 -> extends st2 st3 -> extends st1 st3.
Proof.
  intros [[n1 V1] [a1 T1]] [[n2 V2] [a2 T2]]. split.
  - exists (n1 ++ n2)%list. now rewrite V2, V1, app_assoc.
  - exists (a1 ++ a2)%list. now rewrite T2, T1, app_assoc.
Qed.

Lemma extends_log ev st : extends st (log ev st).
Proof. split; simpl; [exists []; now rewrite app_nil_r | eauto]. Qed.

Lemma extends_mark v st : extends st (mark v st).
Proof.
  unfold mark. destruct (set_has (visitedUrls st) v); [apply extends_refl|].
  split; simpl; [eauto | exists []; now rewrite app_nil_r].
Qed.

Lemma extends_has st st' v :
  extends st st' -> set_has (visitedUrls st) v = true -> set_has (visitedUrls st') v = true.
Proof.
  intros [[new ->] _] H. unfold set_has in *. rewrite existsb_app, H. reflexivity.
Qed.

Create HintDb extending.

Lemma Extending_ret {A} (a : A) : Extending (ret a).
Proof. intros st. apply extends_refl. Qed.

Lemma Extending_throw {A} e : Extending (@throw A e).
Proof. intros st. apply extends_refl. Qed.

Lemma Extending_lift {A} (r : result A) : Extending (lift r).
Proof. intros st. apply extends_refl. Qed.

Lemma Extending_bindM {A B} (m : M A) (k : A -> M B) :
  Extending m -> (forall a, Extending (k a)) -> Extending (bindM m k).
Proof.
  intros Hm Hk st. unfold bindM. specialize (Hm st).
  destruct (m st) as [[a|e] st1]; simpl in *; [|assumption].
  eapply extends_trans; [exact Hm | apply Hk].
Qed.

Lemma Extending_try_catch {A} (m : M A) (h : exn -> M A) :
  Extending m -> (forall e, Extending (h e)) -> Extending (try_catch m h).
Proof.
  intros Hm Hh st. unfold try_catch. specialize (Hm st).
  destruct (m st) as [[a|e] st1]; simpl in *; [assumption|].
  eapply extends_trans; [exact Hm | apply Hh].
Qed.

Lemma Extending_emit ev : Extending (emit ev).
Proof. intros st. apply extends_log. Qed.

Lemma Extending_time : Extending time.
Proof. intros st. apply extends_refl. Qed.

Lemma Extending_getState : Extending getState.
Proof. intros st. apply extends_refl. Qed.

Lemma Extending_visited_has v : Extending (visited_has v).
Proof. intros st. apply extends_refl. Qed.

Lemma Extending_visited_add v : Extending (visited_add v).
Proof. intros st. apply extends_mark. Qed.

Lemma Extending_for_each {A B} (body : A -> B -> M B) items acc :
  (forall x a, Extending (body x a)) -> Extending (for_each body items acc).
Proof.
  intros Hbody. revert acc. induction items as [|x rest IH]; intros acc; simpl.
  - apply Extending_ret.
  - apply Extending_bindM; auto.
Qed.

#[local] Hint Resolve Extending_ret Extending_throw Extending_lift Extending_emit
  Extending_time Extending_getState Extending_visited_has Extending_visited_add
  : extending.

(** Takes a computation apart along its binds, handlers and branches. *)
Ltac extending :=
  repeat first
    [ progress intros
    | apply Extending_bindM
    | apply Extending_try_catch
    | apply Extending_for_each
    | solve [auto with extending]
    | match goal with
      | |- Extending (if ?b then _ else _) => destruct b
      | |- Extending (match ?x with _ => _ end) => destruct x
      end ].

Section Growth.

Variable env : Env.

Lemma Extending_fetch url : Extending (fetch env url).
Proof. unfold fetch. extending. Qed.

Lemma Extending_fetch_head url : Extending (fetch_head env url).
Proof. unfold fetch_head. extending. Qed.

Lemma Extending_sleep ms : Extending (sleep ms).
Proof. unfold sleep. extending. Qed.

#[local] Hint Resolve Extending_fetch Extending_fetch_head Extending_sleep : extending.

Lemma Extending_scrapePage url : Extending (scrapePage env url).
Proof. unfold scrapePage. extending. Qed.

Lemma Extending_checkUrlExists url : Extending (checkUrlExists env url).
Proof. unfold checkUrlExists. extending. Qed.

Lemma Extending_extractDocumentText url documentType :
  Extending (extractDocumentText env url documentType).
Proof. unfold extractDocumentText. extending. Qed.

Lemma Extending_complete prompt : Extending (complete env prompt).
Proof. unfold complete. extending. Qed.

#[local] Hint Resolve Extending_scrapePage Extending_checkUrlExists
  Extending_extractDocumentText Extending_complete : extending.

Lemma Extending_aiCreateScrapingPlan mainUrl : Extending (aiCreateScrapingPlan env mainUrl).
Proof. unfold aiCreateScrapingPlan. extending. Qed.

Lemma Extending_aiExecuteScrapingPlan plan : Extending (aiExecuteScrapingPlan env plan).
Proof.
  unfold aiExecuteScrapingPlan, scrape_main_page, scrape_sub_page, process_document.
  extending.
Qed.

Lemma Extending_aiAnalyzeAllData scrapedData originalUrl :
  Extending (aiAnalyzeAllData env scrapedData originalUrl).
Proof. unfold aiAnalyzeAllData. extending. Qed.

#[local] Hint Resolve Extending_aiCreateScrapingPlan Extending_aiExecuteScrapingPlan
  Extending_aiAnalyzeAllData : extending.

(** X12. Whatever the world answers and whether a stage returns or throws,
    a run of [analyzeSubsidy], like a run of the executor alone, only
    appends to the visited set and to the sequence of events: nothing is
    ever removed from the visited set, and a URL visited before the run is
    visited after it. *)
Theorem state_only_grows (url : string) (plan : value) (st : State) :
  extends st (snd (analyzeSubsidy env url st)) /\
  extends st (snd (aiExecuteScrapingPlan env plan st)) /\
  (forall v, set_has (visitedUrls st) v = true ->
             set_has (visitedUrls (snd (analyzeSubsidy env url st))) v = true).
Proof.
  assert (Extending (analyzeSubsidy env url)) as H
    by (unfold analyzeSubsidy; extending).
  split; [apply H|]. split; [apply Extending_aiExecuteScrapingPlan|].
  intros v. apply extends_has, H.
Qed.

End Growth.

(* ================================================================= *)
(** ** Further properties of the plan synthesizer *)

Section Synthesizer.

Variable env : Env.

Lemma listed_crawlable visited html baseUrl_ subPage :
  listed (extractActualLinks env visited html baseUrl_) subPage = true ->
  crawlable visited subPage.
Proof.
  unfold listed. destruct (get subPage "url") as [url|] eqn:G; [|discriminate].
  intros H. apply set_has_urls in H as (u & -> & Hin).
  apply in_map_iff in Hin as (link & <- & Hin).
  unfold extractActualLinks in Hin. apply uniqueLinks_In in Hin.
  apply in_flat_map in Hin as (a & _ & Hin).
  apply actual_link_of_spec in Hin as (_ & _ & _ & _ & Hd & Hv & _).
  exists (link_url link). auto.
Qed.

Lemma fallback_sub_pages visited mainUrl mainPageData :
  exists items,
    get (createFallbackScrapingPlan mainUrl mainPageData) "sub_pages" = Ok (VArray items) /\
    Forall (crawlable visited) items.
Proof. exists []. split; [reflexivity | constructor]. Qed.

Lemma aiCreateScrapingPlan_unreachable mainUrl e st st1 :
  scrapePage env (VString mainUrl) st = (Throw e, st1) ->
  aiCreateScrapingPlan env mainUrl st = second_attempt env mainUrl st1.
Proof.
  intros S. unfold aiCreateScrapingPlan, try_catch at 1, bindM at 1. rewrite S.
  unfold second_attempt, bindM, ret.
  destruct (scrapePage env (VString mainUrl) st1) as [[d|e'] st2]; reflexivity.
Qed.

Lemma aiCreateScrapingPlan_oracle_down mainUrl mainPageData st st1 :
  scrapePage env (VString mainUrl) st = (Ok mainPageData, st1) ->
  chat env (List.length (trace st1)) (synthesis_prompt env mainUrl mainPageData st1) = None ->
  aiCreateScrapingPlan env mainUrl st
  = second_attempt env mainUrl (log (Chat (synthesis_prompt env mainUrl mainPageData st1)) st1).
Proof.
  intros S C. unfold aiCreateScrapingPlan, try_catch at 1, bindM at 1. rewrite S.
  unfold getState, bindM. rewrite complete_eq.
  fold (synthesis_prompt env mainUrl mainPageData st1). rewrite C.
  unfold second_attempt, bindM, ret.
  destruct (scrapePage env (VString mainUrl) _) as [[d|e'] st2]; reflexivity.
Qed.

Lemma second_attempt_spec mainUrl st1 :
  snd (second_attempt env mainUrl st1) = log (Get (VString mainUrl)) st1 /\
  forall plan visited,
    fst (second_attempt env mainUrl st1) = Ok plan ->
    exists items,
      get plan "sub_pages" = Ok (VArray items) /\ Forall (crawlable visited) items.
Proof.
  unfold second_attempt.
  destruct (scrapePage_state env (VString mainUrl) st1) as [[d|e] ->]; simpl.
  - split; [reflexivity|]. intros plan visited H. injection H as <-.
    apply fallback_sub_pages.
  - split; [reflexivity | discriminate].
Qed.

(** X13. Plan synthesis, in every world: it leaves the visited set as it
    was; it fetches the main page, asks the oracle at most once, and
    fetches the main page a second time only when the first fetch or the
    oracle has failed, sending nothing else; and every sub-page of a plan
    it returns has a string URL on the site's domain that is not in the
    visited set. *)
Theorem synthesizer_output (mainUrl : string) (st : State) :
  let r := fst (aiCreateScrapingPlan env mainUrl st) in
  let st' := snd (aiCreateScrapingPlan env mainUrl st) in
  let main := Get (VString mainUrl) in
  visitedUrls st' = visitedUrls st /\
  ((exists prompt, trace st' = (trace st ++ [main; Chat prompt])%list) \/
   (exists prompt, trace st' = (trace st ++ [main; Chat prompt; main])%list) \/
   trace st' = (trace st ++ [main; main])%list) /\
  (forall plan, r = Ok plan ->
     exists items,
       get plan "sub_pages" = Ok (VArray items) /\
       Forall (crawlable (visitedUrls st)) items).
Proof.
  cbv zeta.
  destruct (scrapePage_state env (VString mainUrl) st) as [[data|e] S1].
  - destruct (chat env (List.length (trace (log (Get (VString mainUrl)) st)))
                (synthesis_prompt env mainUrl data (log (Get (VString mainUrl)) st)))
      as [content|] eqn:C.
    + rewrite (aiCreateScrapingPlan_answered env _ _ _ _ _ S1 C). simpl.
      split; [reflexivity|]. split; [left; eexists; now rewrite <- app_assoc|].
      intros plan H. injection H as <-.
      destruct (JSON_parse env (JsString.trim content)) as [plan0|];
        [|apply fallback_sub_pages].
      destruct (validateScrapingPlan plan0 _) as [validPlan|] eqn:V;
        [|apply fallback_sub_pages].
      apply validateScrapingPlan_Ok in V as (props & proposed & -> & L & ->).
      eexists. split; [simpl; rewrite lookup_store_same; reflexivity|].
      apply Forall_forall. intros x Hx. apply filter_In in Hx as [_ Hx].
      eapply listed_crawlable; eauto.
    + rewrite (aiCreateScrapingPlan_oracle_down _ _ _ _ S1 C).
      destruct (second_attempt_spec mainUrl
                  (log (Chat (synthesis_prompt env mainUrl data
                                (log (Get (VString mainUrl)) st)))
                       (log (Get (VString mainUrl)) st))) as [-> Hplan].
      simpl. split; [reflexivity|].
      split; [right; left; eexists; now rewrite <- !app_assoc | auto].
  - rewrite (aiCreateScrapingPlan_unreachable _ _ _ _ S1).
    destruct (second_attempt_spec mainUrl (log (Get (VString mainUrl)) st)) as [-> Hplan].
    simpl. split; [reflexivity|].
    split; [right; right; now rewrite <- !app_assoc | auto].
Qed.

End Synthesizer.

(* ================================================================= *)
(** ** Every exception carries a message *)

Lemma bind_Throw {A B} (r : result A) (k : A -> result B) e :
  Js.bind r k = Throw e -> r = Throw e \/ exists a, r = Ok a /\ k a = Throw e.
Proof. destruct r as [a|e']; simpl; intros H; [eauto | left; congruence]. Qed.

Lemma informative_bind {A B} (r : result A) (k : A -> result B) :
  informative_result r -> (forall a, informative_result (k a)) ->
  informative_result (Js.bind r k).
Proof.
  intros Hr Hk e H. apply bind_Throw in H as [H|(a & _ & H)]; [eapply Hr | eapply Hk];
    eauto.
Qed.

Lemma informative_Ok {A} (a : A) : informative_result (Ok a).
Proof. intros e H. discriminate. Qed.

Lemma informative_get v k : informative_result (get v k).
Proof.
  intros e. destruct v; simpl; try discriminate;
    try (destruct (lookup props k); discriminate);
    intros H; injection H as <-; discriminate.
Qed.

Lemma informative_to_string nts v : informative_result (Js.to_string nts v).
Proof.
  revert v. fix IH 1. intros v e. destruct v; simpl; try discriminate.
  - destruct b; discriminate.
  - intros H. apply bind_Throw in H as [H|(ss & _ & H)]; [|discriminate].
    revert e H.
    match goal with
    | |- forall e, ?each items = Throw e -> _ =>
        refine ((fix IHl (l : list value) :
                   forall e, each l = Throw e -> informative e := _) items)
    end.
    intros e. destruct l as [|x rest]; simpl; [discriminate|].
    intros H. apply bind_Throw in H as [H|(s & _ & H)].
    + apply (IH x). destruct x; try discriminate H; exact H.
    + apply bind_Throw in H as [H|(ss & _ & H)]; [|discriminate].
      eapply IHl; exact H.
  - destruct (lookup props "toString"); [|discriminate].
    intros H. injection H as <-. discriminate.
Qed.

Lemma informative_to_number nts stn v : informative_result (Js.to_number nts stn v).
Proof.
  intros e. unfold Js.to_number.
  destruct v as [| |[]| | |items|props]; try discriminate;
    intros H; apply bind_Throw in H as [H|(s & _ & H)]; try discriminate H;
    eapply informative_to_string; exact H.
Qed.

Lemma informative_slice_items nts stn what x limit :
  informative_result (Js.slice_items nts stn what x limit).
Proof.
  intros e. unfold Js.slice_items.
  destruct x;
    try (intros H; injection H as <-; unfold informative; simpl;
         destruct what; discriminate);
    intros H; apply bind_Throw in H as [H|(n & _ & H)]; try discriminate;
    eapply informative_to_number; exact H.
Qed.

Lemma informative_entries v : informative_result (Js.entries v).
Proof.
  intros e. destruct v; simpl; try discriminate; intros H; injection H as <-;
    discriminate.
Qed.

Lemma informative_map_result {A B} (f : A -> result B) items :
  (forall x, informative_result (f x)) -> informative_result (map_result f items).
Proof.
  intros Hf. induction items as [|x rest IH]; simpl; [apply informative_Ok|].
  apply informative_bind; [apply Hf|]. intros y.
  apply informative_bind; [exact IH|]. intros ys. apply informative_Ok.
Qed.

Lemma Informative_ret {A} (a : A) : Informative (ret a).
Proof. intros st e st' H. discriminate. Qed.

Lemma Informative_throw {A} e : informative e -> Informative (@throw A e).
Proof. intros He st e' st' H. injection H as <- _. exact He. Qed.

Lemma Informative_lift {A} (r : result A) : informative_result r -> Informative (lift r).
Proof. intros Hr st e st' H. injection H as H _. eapply Hr; eauto. Qed.

Lemma Informative_bindM {A B} (m : M A) (k : A -> M B) :
  Informative m -> (forall a, Informative (k a)) -> Informative (bindM m k).
Proof.
  intros Hm Hk st e st'. unfold bindM.
  destruct (m st) as [[a|e1] st1] eqn:E; intros H.
  - eapply Hk; eauto.
  - injection H as <- _. eapply Hm; eauto.
Qed.

(** Of a [try] block only the handler's exceptions get out. *)
Lemma Informative_try_catch {A} (m : M A) (h : exn -> M A) :
  (forall e, Informative (h e)) -> Informative (try_catch m h).
Proof.
  intros Hh st e st'. unfold try_catch.
  destruct (m st) as [[a|e1] st1]; intros H; [discriminate|]. eapply Hh; eauto.
Qed.

Lemma Informative_for_each {A B} (body : A -> B -> M B) items acc :
  (forall x a, Informative (body x a)) -> Informative (for_each body items acc).
Proof.
  intros Hbody. revert acc. induction items as [|x rest IH]; intros acc; simpl.
  - apply Informative_ret.
  - apply Informative_bindM; auto.
Qed.

Section Messages.

Variable env : Env.

Lemma Informative_scrapePage url : Informative (scrapePage env url).
Proof.
  unfold scrapePage. apply Informative_try_catch. intros e.
  apply Informative_bindM.
  - apply Informative_lift, informative_to_string.
  - intros shown. apply Informative_throw. discriminate.
Qed.

Lemma Informative_aiCreateScrapingPlan mainUrl :
  Informative (aiCreateScrapingPlan env mainUrl).
Proof.
  unfold aiCreateScrapingPlan. apply Informative_try_catch. intros e.
  apply Informative_bindM; [apply Informative_scrapePage|].
  intros d. apply Informative_ret.
Qed.

Lemma Informative_aiExecuteScrapingPlan plan :
  Informative (aiExecuteScrapingPlan env plan).
Proof.
  unfold aiExecuteScrapingPlan.
  repeat first
    [ progress intros
    | apply Informative_bindM
    | apply Informative_ret
    | apply Informative_for_each
    | apply Informative_lift; first [apply informative_get | apply informative_slice_items]
    | apply Informative_try_catch; intros; apply Informative_ret ].
Qed.

Lemma informative_classification_prompt scrapedData :
  informative_result (classification_prompt env scrapedData).
Proof.
  unfold classification_prompt, all_content, page_section, document_section,
    createSchemaBasedPrompt, js_to_string.
  repeat first
    [ progress intros
    | apply informative_Ok
    | apply informative_get
    | apply informative_entries
    | apply informative_to_string
    | apply informative_map_result
    | apply informative_bind
    | match goal with
      | |- informative_result (if ?b then _ else _) => destruct b
      end ].
Qed.

Lemma Informative_aiAnalyzeAllData scrapedData originalUrl :
  Informative (aiAnalyzeAllData env scrapedData originalUrl).
Proof.
  unfold aiAnalyzeAllData. apply Informative_bindM.
  - apply Informative_lift, informative_classification_prompt.
  - intros prompt. apply Informative_try_catch. intros e. apply Informative_ret.
Qed.

(** The steps of [analyzeSubsidy] inside its [try] block throw only
    informative exceptions, and its handler none: it returns, a success
    with the URL it was given, an error with a message that is not empty. *)
Lemma analyzeSubsidy_returns url st :
  exists answer st',
    analyzeSubsidy env url st = (Ok answer, st') /\
    (forall u title requirements analyzed_at pages_analyzed plan,
       answer = Analysis u title requirements analyzed_at pages_analyzed plan ->
       u = url) /\
    (forall u error analyzed_at,
       answer = AnalysisError u error analyzed_at -> error <> EmptyString).
Proof.
  unfold analyzeSubsidy, try_catch.
  match goal with
  | |- context [match ?m st with _ => _ end] =>
      assert (Informative m) as Hm; [|destruct (m st) as [[answer|e] st1] eqn:E]
  end.
  - apply Informative_bindM; [apply Informative_aiCreateScrapingPlan|]. intros plan.
    apply Informative_bindM; [apply Informative_aiExecuteScrapingPlan|]. intros data.
    apply Informative_bindM; [apply Informative_aiAnalyzeAllData|]. intros reqs.
    apply Informative_bindM; [intros s e s' H; discriminate|]. intros t.
    apply Informative_ret.
  - exists answer, st1. split; [reflexivity|].
    unfold bindM in E.
    repeat match type of E with
           | match ?m with _ => _ end = _ =>
               destruct m as [[?|?] ?] eqn:?; try discriminate E
           end.
    unfold time, ret in E. injection E as <- _.
    split; [intros ? ? ? ? ? ? H; now injection H | discriminate].
  - unfold bindM, time, ret. eexists _, _. split; [reflexivity|].
    split; [discriminate|].
    intros u error t H. injection H as _ <- _. eapply Hm; eauto.
Qed.

(** X14. [analyzeSubsidy] never throws: in every world it returns one of
    its two shapes, with the URL it was given. An error result always
    carries a non-empty [error] message, and a success result a non-empty
    [title], ['Unknown'] when no page gave one, and the number of its
    pages. *)
Theorem analyzeSubsidy_always_answers (url : string) (st : State) :
  exists answer st',
    analyzeSubsidy env url st = (Ok answer, st') /\
    match answer with
    | Analysis u title _ _ pages_analyzed plan =>
        u = url /\ title <> EmptyString /\
        exists st1 scrapedData st2,
          aiCreateScrapingPlan env url st = (Ok plan, st1) /\
          aiExecuteScrapingPlan env plan st1 = (Ok scrapedData, st2) /\
          pages_analyzed = List.length (allPages scrapedData) /\
          title = result_title scrapedData
    | AnalysisError u error _ => u = url /\ error <> EmptyString
    end.
Proof.
  destruct (analyzeSubsidy_returns url st) as (answer & st' & E & _ & Herr).
  exists answer, st'. split; [exact E|].
  unfold analyzeSubsidy, try_catch, bindM in E.
  destruct (aiCreateScrapingPlan env url st) as [[plan|e1] st1] eqn:E1.
  - destruct (aiExecuteScrapingPlan env plan st1) as [[data|e2] st2] eqn:E2.
    + destruct (aiAnalyzeAllData env data url st2) as [[reqs|e3] st3] eqn:E3;
        unfold time, ret in E; injection E as <- _.
      * split; [reflexivity|]. split.
        -- unfold result_title. destruct (mainPage data) as [page|]; [|discriminate].
           destruct (page_title (pr_data page)); discriminate.
        -- exists st1, data, st2. auto.
      * split; [reflexivity|]. eapply Herr; reflexivity.
    + unfold time, ret in E. injection E as <- _.
      split; [reflexivity|]. eapply Herr; reflexivity.
  - unfold time, ret in E. injection E as <- _.
    split; [reflexivity|]. eapply Herr; reflexivity.
Qed.

End Messages.

(* ================================================================= *)
(** ** Further properties of the classifier *)

Lemma or_else_truthy v d : truthy d = true -> truthy (or_else v d) = true.
Proof. unfold or_else. destruct (truthy v) eqn:E; auto. Qed.

Section ClassifierMore.

Variable env : Env.

Lemma classify_response_truthy scrapedData response :
  let requirements := classify_response env scrapedData response in
  truthy (attestations requirements) = true /\
  truthy (non_attestations requirements) = true /\
  truthy (analysis_notes requirements) = true.
Proof.
  cbv zeta. unfold classify_response, read_classification.
  destruct (JSON_parse env (extract_json response)) as [parsed|]; [|repeat split].
  destruct (get parsed "attestations") as [a|]; [|repeat split].
  destruct (get parsed "non_attestations") as [n|]; [|repeat split].
  destruct (get parsed "analysis_notes") as [notes|]; [|repeat split].
  simpl. repeat split; apply or_else_truthy; reflexivity.
Qed.

Lemma aiAnalyzeAllData_truthy scrapedData originalUrl st requirements st' :
  aiAnalyzeAllData env scrapedData originalUrl st = (Ok requirements, st') ->
  truthy (attestations requirements) = true /\
  truthy (non_attestations requirements) = true /\
  truthy (analysis_notes requirements) = true.
Proof.
  unfold aiAnalyzeAllData, bindM, lift.
  destruct (classification_prompt env scrapedData) as [prompt|e] eqn:P; [|discriminate].
  fold (@lift Prompt (Ok prompt)). intros H.
  pose proof (aiAnalyzeAllData_eq env scrapedData originalUrl prompt st P) as E.
  unfold aiAnalyzeAllData, bindM, lift in E. rewrite P in E. rewrite E in H.
  injection H as <- _.
  destruct (chat env _ prompt); [apply classify_response_truthy | repeat split].
Qed.

(** X15. The classification stage throws only while it builds its prompt.
    Once the prompt is built it asks the oracle exactly once, touches
    nothing else, and returns a RequirementSet whose three fields are all
    truthy: no field is ever missing, [null], or an empty string, whatever
    the oracle answers. *)
Theorem classifier_always_populated
  (scrapedData : ScrapedData) (originalUrl : string) (st : State) :
  match classification_prompt env scrapedData with
  | Ok prompt =>
      exists requirements,
        aiAnalyzeAllData env scrapedData originalUrl st
          = (Ok requirements, log (Chat prompt) st) /\
        truthy (attestations requirements) = true /\
        truthy (non_attestations requirements) = true /\
        truthy (analysis_notes requirements) = true
  | Throw e => aiAnalyzeAllData env scrapedData originalUrl st = (Throw e, st)
  end.
Proof.
  destruct (classification_prompt env scrapedData) as [prompt|e] eqn:P.
  - rewrite (aiAnalyzeAllData_eq env _ _ _ _ P). eexists. split; [reflexivity|].
    destruct (chat env _ prompt); [apply classify_response_truthy | repeat split].
  - unfold aiAnalyzeAllData, bindM, lift. now rewrite P.
Qed.

End ClassifierMore.

(* ================================================================= *)
(** ** Properties of the handler of [POST /analyze] *)

Section ServerProperties.

Variable env : Env.

Lemma analyzeSubsidy_requirements url st u title requirements t n plan st' :
  analyzeSubsidy env url st = (Ok (Analysis u title requirements t n plan), st') ->
  truthy (attestations requirements) = true /\
  truthy (non_attestations requirements) = true /\
  truthy (analysis_notes requirements) = true.
Proof.
  unfold analyzeSubsidy, try_catch, bindM. intros E.
  destruct (aiCreateScrapingPlan env url st) as [[p|e1] st1];
    [|unfold time, ret in E; discriminate E].
  destruct (aiExecuteScrapingPlan env p st1) as [[data|e2] st2];
    [|unfold time, ret in E; discriminate E].
  destruct (aiAnalyzeAllData env data url st2) as [[reqs|e3] st3] eqn:E3;
    unfold time, ret in E; [|discriminate E].
  injection E as _ _ <- _ _ _ _. eapply aiAnalyzeAllData_truthy; eauto.
Qed.

Lemma or_else_kept v d : truthy v = true -> or_else v d = v.
Proof. unfold or_else. now intros ->. Qed.

Lemma body_url_get body url : get body "url" = Ok url -> body_url body = Ok url.
Proof. destruct body; simpl; try discriminate; auto. Qed.

(** X16. The handler lets the agent run only for a request whose [url] is
    a string that starts with [http://] or [https://]: every other request
    is answered 400 (no [url], or a string without the prefix) or 500 (no
    body, or a [url] that is not a string) without a single event. Its
    status is always 200, 400 or 500. *)
Theorem post_analyze_guards (body : value) :
  let reply := fst (post_analyze env body) in
  let events := snd (post_analyze env body) in
  In (reply_status reply) [200; 400; 500] /\
  (reply_status reply = 200 \/ events <> [] ->
   exists u, get body "url" = Ok (VString u) /\
             JsString.startsWith u "http://" || JsString.startsWith u "https://" = true) /\
  (reply_status reply = 400 ->
   events = [] /\ (reply = url_required \/ reply = invalid_url_format)).
Proof.
  cbv zeta. unfold post_analyze, analyze_request.
  assert (forall e : exn,
            In (reply_status (internal_server_error e)) [200; 400; 500] /\
            (reply_status (internal_server_error e) = 200 \/ @nil Event <> [] ->
             exists u, get body "url" = Ok (VString u) /\
                       JsString.startsWith u "http://"
                       || JsString.startsWith u "https://" = true) /\
            (reply_status (internal_server_error e) = 400 ->
             @nil Event = [] /\ (internal_server_error e = url_required \/
                                 internal_server_error e = invalid_url_format))) as Err.
  { intros e. simpl. split; [auto|]. split; [intros [H|H]; [discriminate | congruence]|].
    discriminate. }
  destruct (body_url body) as [url|e] eqn:B; [|apply Err].
  destruct (truthy url) eqn:T; simpl.
  2:{ split; [auto|]. split; [intros [H|H]; [discriminate | congruence] | auto]. }
  destruct url as [| |b|x|u|items|props]; simpl; try apply Err.
  assert (get body "url" = Ok (VString u)) as G
    by (destruct body; simpl in B; try discriminate; exact B).
  assert ((if negb (JsString.startsWith u "http://")
           then Ok (JsString.startsWith u "https://") else Ok true)
          = @Ok bool (JsString.startsWith u "http://"
                      || JsString.startsWith u "https://")) as ->
    by (destruct (JsString.startsWith u "http://"); reflexivity).
  destruct (JsString.startsWith u "http://" || JsString.startsWith u "https://") eqn:P.
  - destruct (analyzeSubsidy_returns env u new_agent) as (answer & agent & -> & _ & Herr).
    destruct (reply_to env (VString u) answer) as [reply|e] eqn:R.
    + assert (reply_status reply = 200 \/ reply_status reply = 500) as Hs.
      { destruct answer as [u' title reqs t n plan|u' error t]; cbn [reply_to] in R.
        - destruct (completion_log env _ _ _); [|discriminate R].
          injection R as <-. auto.
        - destruct error as [|c error]; [now contradiction (Herr u' EmptyString t)|].
          injection R as <-. auto. }
      cbn [fst snd]. split; [destruct Hs as [-> | ->]; simpl; auto|].
      split; [eauto|]. intros H. destruct Hs; congruence.
    + cbn [fst snd]. split; [simpl; auto|]. split; [eauto|]. discriminate.
  - simpl. split; [auto|]. split; [intros [H|H]; [discriminate | congruence] | auto].
Qed.

Lemma completion_log_arrays url items items' :
  exists logged, completion_log env (VString url) (VArray items) (VArray items') = Ok logged.
Proof. eexists. reflexivity. Qed.

(** X17. For a request whose [url] starts with [http://] or [https://] the
    handler reports what the agent, created for the request, returns. When
    the analysis fails the reply is 500 ['Analysis failed'] with the agent's
    error message. When it succeeds the handler first writes its log line:
    if the two lengths in it can be printed the reply is 200 with the
    result, whose three requirement fields are the classifier's own, the
    handler's defaults never applying; if not, the reply is 500 ['Internal
    server error'] although the analysis has succeeded. The lengths can be
    printed whenever [attestations] and [non_attestations] are arrays. *)
Theorem post_analyze_reports_analysis (body : value) (u : string) :
  get body "url" = Ok (VString u) ->
  JsString.startsWith u "http://" || JsString.startsWith u "https://" = true ->
  exists answer agent,
    analyzeSubsidy env u new_agent = (Ok answer, agent) /\
    snd (post_analyze env body) = trace agent /\
    match answer with
    | Analysis url title requirements analyzed_at pages_analyzed _ =>
        match completion_log env (VString u) (attestations requirements)
                             (non_attestations requirements) with
        | Ok _ =>
            fst (post_analyze env body)
            = {| reply_status := 200;
                 reply_body :=
                   VObject [ ("success", VBool true);
                             ("url", VString u);
                             ("title", VString title);
                             ("analyzed_at", VString analyzed_at);
                             ("pages_analyzed",
                              VNumber (number_of_Z (Z.of_nat pages_analyzed)));
                             ("attestations", attestations requirements);
                             ("non_attestations", non_attestations requirements);
                             ("analysis_notes", analysis_notes requirements) ] |}
        | Throw e => fst (post_analyze env body) = internal_server_error e
        end /\
        (forall items items',
           attestations requirements = VArray items ->
           non_attestations requirements = VArray items' ->
           reply_status (fst (post_analyze env body)) = 200)
    | AnalysisError _ error _ =>
        error <> EmptyString /\
        fst (post_analyze env body) = analysis_failed error (VString u)
    end.
Proof.
  intros G P.
  assert (u <> EmptyString) as Hu by (intros ->; discriminate P).
  destruct (analyzeSubsidy_returns env u new_agent) as (answer & agent & E & Hurl & Herr).
  exists answer, agent. split; [exact E|].
  unfold post_analyze, analyze_request. rewrite (body_url_get _ _ G).
  assert (truthy (VString u) = true) as -> by (destruct u; [congruence | reflexivity]).
  cbn [negb url_startsWith].
  assert ((if negb (JsString.startsWith u "http://")
           then Ok (JsString.startsWith u "https://") else Ok true)
          = @Ok bool true) as ->
    by (destruct (JsString.startsWith u "http://"); simpl in *; congruence).
  rewrite E.
  destruct answer as [u' title reqs t n plan|u' error t]; cbn [reply_to].
  - destruct (analyzeSubsidy_requirements _ _ _ _ _ _ _ _ _ E) as (Ta & Tn & Tnotes).
    assert (analysis_response u' title t n reqs
            = {| reply_status := 200;
                 reply_body :=
                   VObject [ ("success", VBool true);
                             ("url", VString u);
                             ("title", VString title);
                             ("analyzed_at", VString t);
                             ("pages_analyzed", VNumber (number_of_Z (Z.of_nat n)));
                             ("attestations", attestations reqs);
                             ("non_attestations", non_attestations reqs);
                             ("analysis_notes", analysis_notes reqs) ] |}) as ->.
    { unfold analysis_response. rewrite !or_else_kept by assumption.
      rewrite (Hurl _ _ _ _ _ _ eq_refl). reflexivity. }
    change (prop (reply_body _) "attestations") with (attestations reqs).
    change (prop (reply_body _) "non_attestations") with (non_attestations reqs).
    destruct (completion_log env (VString u) (attestations reqs) (non_attestations reqs))
      as [logged|e] eqn:L; cbn [Js.bind fst snd].
    + repeat split; reflexivity.
    + split; [reflexivity|]. split; [reflexivity|].
      intros items items' Ha Hn. rewrite Ha, Hn in L.
      destruct (completion_log_arrays u items items') as [logged L'].
      rewrite L' in L. discriminate L.
  - assert (error <> EmptyString) as He by (eapply Herr; reflexivity).
    destruct error as [|c error]; [congruence|]. simpl. repeat split. discriminate.
Qed.

End ServerProperties.

(* ================================================================= *)
(** ** Properties of the document text extractors *)

Lemma append_nil_r s : s ++ EmptyString = s.
Proof. induction s; simpl; [reflexivity | now rewrite IHs]. Qed.

Lemma append_assoc (a b c : string) : (a ++ b) ++ c = a ++ b ++ c.
Proof. induction a; simpl; [reflexivity | now rewrite IHa]. Qed.

Lemma append_empty a b : a ++ b = EmptyString -> a = EmptyString /\ b = EmptyString.
Proof. destruct a; simpl; [auto | discriminate]. Qed.

Lemma fold_sheets sheets text :
  fold_left
    (fun text sheet =>
       text ++ JsString.LF ++ "=== Sheet: " ++ fst sheet ++ " ===" ++ JsString.LF
            ++ snd sheet ++ JsString.LF)
    sheets text
  = text ++ String.concat EmptyString (map sheet_block sheets).
Proof.
  revert text. induction sheets as [|sheet rest IH]; intros text.
  - simpl. now rewrite append_nil_r.
  - cbn [fold_left map]. rewrite IH.
    fold (sheet_block sheet). rewrite append_assoc. f_equal.
    destruct rest as [|next rest']; [simpl; now rewrite append_nil_r | reflexivity].
Qed.

Section Extractors.

Variable env : Env.

(** X18. The spreadsheet extractor writes one block per sheet, in the
    order of the workbook, each under the name of its sheet; its result is
    empty exactly when the workbook cannot be read or has no sheet, so a
    workbook of empty sheets still gives a text. *)
Theorem xlsx_text_by_sheet (buffer : string) :
  (forall sheets,
     XLSX_read env buffer = Some sheets ->
     extractXlsxText env buffer = String.concat EmptyString (map sheet_block sheets)) /\
  (extractXlsxText env buffer = EmptyString <->
   XLSX_read env buffer = None \/ XLSX_read env buffer = Some []).
Proof.
  unfold extractXlsxText. split.
  - intros sheets ->. apply (fold_sheets sheets EmptyString).
  - destruct (XLSX_read env buffer) as [sheets|]; [|split; auto].
    rewrite (fold_sheets sheets EmptyString). simpl.
    destruct sheets as [|sheet rest]; [split; auto|].
    split; [|intros [H|H]; discriminate].
    destruct rest; simpl; discriminate.
Qed.

(** X19. Fetching and extracting a document never throws and sends one GET
    request; the text is empty when the request fails, when the status is
    not 2xx, when the type has no extractor and when the extractor of the
    type fails; a non-empty text is the output of that extractor on the
    body of a 2xx response. *)
Theorem document_extraction_isolated (url : value) (documentType : string) (st : State) :
  exists text,
    extractDocumentText env url documentType st = (Ok text, log (Get url) st) /\
    (forall e, http_get env (List.length (trace st)) url = Throw e ->
               text = EmptyString) /\
    (forall response,
       http_get env (List.length (trace st)) url = Ok response ->
       (ok response = false -> text = EmptyString) /\
       (ok response = true ->
        (documentType = "pdf" ->
         text = match pdf env (body response) with
                | Some t => t | None => EmptyString end) /\
        (documentType = "docx" ->
         text = match mammoth_extractRawText env (body response) with
                | Some t => t | None => EmptyString end) /\
        (documentType = "xlsx" -> text = extractXlsxText env (body response)) /\
        (~ In documentType ["pdf"; "docx"; "xlsx"] -> text = EmptyString))).
Proof.
  rewrite extractDocumentText_eq. eexists. split; [reflexivity|].
  unfold document_text. split.
  - intros e ->. reflexivity.
  - intros response ->. split; [intros ->; reflexivity|]. intros ->.
    unfold extract_by_type. repeat split.
    + intros ->. reflexivity.
    + intros ->. reflexivity.
    + intros ->. reflexivity.
    + intros Hnot.
      destruct (String.eqb documentType "pdf") eqn:E1;
        [apply String.eqb_eq in E1; subst; simpl in Hnot; tauto|].
      destruct (String.eqb documentType "docx") eqn:E2;
        [apply String.eqb_eq in E2; subst; simpl in Hnot; tauto|].
      destruct (String.eqb documentType "xlsx") eqn:E3;
        [apply String.eqb_eq in E3; subst; simpl in Hnot; tauto|].
      reflexivity.
Qed.

End Extractors.

(* ================================================================= *)
(** ** The cleaning of the oracle's answer *)

Lemma prefix_app p b : prefix p (p ++ b) = true.
Proof.
  induction p as [|c p IH]; simpl; [now destruct b|].
  destruct (Ascii.ascii_dec c c); [exact IH | congruence].
Qed.

Lemma includes_prefix s p : prefix p s = true -> JsString.includes s p = true.
Proof. intros H. destruct s; simpl in *; now rewrite H. Qed.

Lemma includes_app a p b : JsString.includes (a ++ p ++ b) p = true.
Proof.
  induction a as [|c a IH].
  - cbn [append]. apply includes_prefix, prefix_app.
  - cbn [append JsString.includes]. rewrite IH. apply orb_true_r.
Qed.

Lemma prefix_char_only c d r r' :
  prefix (String d EmptyString) (String c r) = prefix (String d EmptyString) (String c r').
Proof. simpl. destruct (Ascii.ascii_dec d c); [now destruct r, r' | reflexivity]. Qed.

Lemma indexOf_after pre c rest :
  JsString.includes pre (String c EmptyString) = false ->
  JsString.indexOf (pre ++ String c rest) (String c EmptyString) = Some (String.length pre).
Proof.
  induction pre as [|d pre IH]; intros H.
  - simpl. destruct (Ascii.ascii_dec c c); [now destruct rest | congruence].
  - cbn [JsString.includes] in H. apply orb_false_elim in H as [Hp Hi].
    cbn [append JsString.indexOf].
    rewrite (prefix_char_only d c (pre ++ String c rest) pre), Hp, (IH Hi).
    reflexivity.
Qed.

Lemma lastIndexOf_none post c :
  JsString.includes post (String c EmptyString) = false ->
  JsString.lastIndexOf post c = None.
Proof.
  induction post as [|d post IH]; simpl; intros H; [reflexivity|].
  apply orb_false_elim in H as [Hp Hi]. rewrite (IH Hi).
  destruct (Ascii.ascii_dec c d) as [->|Hne].
  - now destruct post.
  - destruct (Ascii.eqb d c) eqn:E; [apply Ascii.eqb_eq in E; congruence | reflexivity].
Qed.

Lemma lastIndexOf_before a c post :
  JsString.lastIndexOf post c = None ->
  JsString.lastIndexOf (a ++ String c post) c = Some (String.length a).
Proof.
  intros H. induction a as [|d a IH]; simpl.
  - now rewrite H, Ascii.eqb_refl.
  - now rewrite IH.
Qed.

Lemma substring_middle a b c :
  String.substring (String.length a) (String.length b) (a ++ b ++ c) = b.
Proof.
  induction a as [|x a IH]; simpl; [|exact IH].
  revert c. induction b as [|y b IHb]; intros c; simpl.
  - now destruct c.
  - now rewrite IHb.
Qed.

Lemma length_append (a b : string) :
  String.length (a ++ b) = String.length a + String.length b.
Proof. induction a; simpl; [reflexivity | now rewrite IHa]. Qed.

(** X20. An answer that, once trimmed, holds no [```json] fence and one
    JSON object, possibly with prose before its first brace and after its
    last one, is cleaned to just that object, from the first [{] to the
    last [}]. *)
Theorem object_recovered_from_prose (response pre inner post : string) :
  JsString.trim response = pre ++ "{" ++ inner ++ "}" ++ post ->
  JsString.includes (JsString.trim response) "```json" = false ->
  JsString.includes pre "{" = false ->
  JsString.includes post "}" = false ->
  extract_json response = "{" ++ inner ++ "}".
Proof.
  intros T F Hpre Hpost. unfold extract_json. rewrite F, T.
  assert (pre ++ "{" ++ inner ++ "}" ++ post
          = (pre ++ "{" ++ inner) ++ String "}" post) as Eclose
    by (rewrite !append_assoc; reflexivity).
  assert (JsString.includes (pre ++ "{" ++ inner ++ "}" ++ post) "{" = true) as ->
    by apply includes_app.
  assert (JsString.includes (pre ++ "{" ++ inner ++ "}" ++ post) "}" = true) as ->.
  { rewrite Eclose. apply (includes_app (pre ++ "{" ++ inner) "}" post). }
  cbn [andb].
  assert (JsString.indexOf (pre ++ "{" ++ inner ++ "}" ++ post) "{"
          = Some (String.length pre)) as ->
    by exact (indexOf_after pre "{" (inner ++ "}" ++ post) Hpre).
  assert (JsString.lastIndexOf (pre ++ "{" ++ inner ++ "}" ++ post) "}"
          = Some (String.length (pre ++ "{" ++ inner))) as ->.
  { rewrite Eclose.
    exact (lastIndexOf_before _ "}" post (lastIndexOf_none _ _ Hpost)). }
  assert ((String.length pre <? String.length (pre ++ "{" ++ inner)) = true) as ->.
  { apply Nat.ltb_lt. rewrite length_append. cbn [append String.length]. lia. }
  unfold JsString.substring.
  replace (String.length (pre ++ "{" ++ inner) + 1 - String.length pre)
    with (String.length ("{" ++ inner ++ "}")).
  - replace (pre ++ "{" ++ inner ++ "}" ++ post)
      with (pre ++ ("{" ++ inner ++ "}") ++ post)
      by (cbn [append]; rewrite (append_assoc inner); reflexivity).
    exact (substring_middle pre ("{" ++ inner ++ "}") post).
  - cbn [append String.length]. rewrite !length_append.
    cbn [String.length]. lia.
Qed.

(* ================================================================= *)
(** ** What a run sends to the outside world *)

Lemma chats_app l l' : chats (l ++ l') = (chats l ++ chats l')%list.
Proof. apply flat_map_app. Qed.

Lemma Emitting_silent {A} P (m : M A) :
  (forall st, trace (snd (m st)) = trace st) -> Emitting P 0 m.
Proof.
  intros H st. exists []. rewrite H, app_nil_r. repeat split; [constructor | simpl; lia].
Qed.

Lemma Emitting_more {A} P n n' (m : M A) : Emitting P n m -> n <= n' -> Emitting P n' m.
Proof.
  intros H Hn st. destruct (H st) as (added & T & F & L).
  exists added. repeat split; auto. lia.
Qed.

Lemma Emitting_ret {A} P (a : A) : Emitting P 0 (ret a).
Proof. now apply Emitting_silent. Qed.

Lemma Emitting_throw {A} P e : Emitting P 0 (@throw A e).
Proof. now apply Emitting_silent. Qed.

Lemma Emitting_lift {A} P (r : result A) : Emitting P 0 (lift r).
Proof. now apply Emitting_silent. Qed.

Lemma Emitting_time P : Emitting P 0 time.
Proof. now apply Emitting_silent. Qed.

Lemma Emitting_getState P : Emitting P 0 getState.
Proof. now apply Emitting_silent. Qed.

Lemma Emitting_visited_has P v : Emitting P 0 (visited_has v).
Proof. now apply Emitting_silent. Qed.

Lemma Emitting_visited_add P v : Emitting P 0 (visited_add v).
Proof.
  apply Emitting_silent. intros st. unfold visited_add, mark. simpl.
  now destruct (set_has (visitedUrls st) v).
Qed.

Lemma Emitting_emit P ev : P ev -> Emitting P (List.length (chats [ev])) (emit ev).
Proof.
  intros H st. exists [ev]. repeat split; [repeat constructor; exact H | lia].
Qed.

(** The continuation is only run from a result of the first step. *)
Lemma Emitting_bindM {A B} P n k (m : M A) (f : A -> M B) :
  Emitting P n m ->
  (forall st a st', m st = (Ok a, st') -> Emitting P k (f a)) ->
  Emitting P (n + k) (bindM m f).
Proof.
  intros Hm Hf st. unfold bindM. destruct (Hm st) as (added & T & F & L).
  destruct (m st) as [[a|e] st1] eqn:E; simpl in T.
  - destruct (Hf st a st1 E st1) as (added' & T' & F' & L').
    exists (added ++ added')%list. rewrite T', T, app_assoc, chats_app, length_app.
    repeat split; [apply Forall_app; auto | lia].
  - exists added. simpl. repeat split; auto. lia.
Qed.

Lemma Emitting_try_catch {A} P n k (m : M A) (h : exn -> M A) :
  Emitting P n m -> (forall e, Emitting P k (h e)) -> Emitting P (n + k) (try_catch m h).
Proof.
  intros Hm Hh st. unfold try_catch. destruct (Hm st) as (added & T & F & L).
  destruct (m st) as [[a|e] st1] eqn:E; simpl in T.
  - exists added. simpl. repeat split; auto. lia.
  - destruct (Hh e st1) as (added' & T' & F' & L').
    exists (added ++ added')%list. rewrite T', T, app_assoc, chats_app, length_app.
    repeat split; [apply Forall_app; auto | lia].
Qed.

Lemma Emitting_for_each {A B} P (body : A -> B -> M B) items acc :
  (forall x a, In x items -> Emitting P 0 (body x a)) ->
  Emitting P 0 (for_each body items acc).
Proof.
  revert acc. induction items as [|x rest IH]; intros acc Hbody; simpl.
  - apply Emitting_ret.
  - apply (Emitting_bindM P 0 0); [apply Hbody; now left|].
    intros _ acc' _ _. apply IH. intros y a Hy. apply Hbody. now right.
Qed.

Create HintDb emitting.

#[local] Hint Resolve Emitting_ret Emitting_throw Emitting_lift Emitting_time
  Emitting_getState Emitting_visited_has Emitting_visited_add : emitting.

(** Takes a computation without prompts apart along its binds, handlers
    and branches. *)
Ltac emitting :=
  repeat first
    [ solve [auto with emitting]
    | apply (Emitting_bindM _ 0 0); [|intros ? ? ? ?]
    | apply (Emitting_try_catch _ 0 0); [|intros ?]
    | match goal with
      | |- Emitting _ 0 (if ?b then _ else _) => destruct b
      end ].

Lemma lift_Ok {A} (r : result A) (st st' : State) a : lift r st = (Ok a, st') -> r = Ok a.
Proof. unfold lift. now intros [= ->]. Qed.

Lemma firstn_In {A} n (l : list A) x : In x (firstn n l) -> In x l.
Proof.
  revert l. induction n as [|n IH]; intros [|y l]; simpl; try tauto.
  intros [->|H]; [now left | right; auto].
Qed.

Lemma slice_items_In number_to_string string_to_number what items limit kept x :
  Js.slice_items number_to_string string_to_number what (VArray items) limit = Ok kept ->
  In x kept -> In x items.
Proof.
  unfold Js.slice_items. destruct (Js.to_number _ _ limit); [|discriminate].
  cbn [Js.bind]. intros [= <-]. apply firstn_In.
Qed.

Section Outside.

Variable env : Env.

Lemma Emitting_fetch url : Emitting polite 0 (fetch env url).
Proof.
  unfold fetch. emitting. apply (Emitting_emit polite (Get url)). exact I.
Qed.

Lemma Emitting_sleep : Emitting polite 0 (sleep 1000).
Proof. apply (Emitting_emit polite (Delay 1000)). reflexivity. Qed.

#[local] Hint Resolve Emitting_fetch Emitting_sleep : emitting.

Lemma Emitting_scrapePage url : Emitting polite 0 (scrapePage env url).
Proof. unfold scrapePage. emitting. Qed.

Lemma Emitting_extractDocumentText url documentType :
  Emitting polite 0 (extractDocumentText env url documentType).
Proof. unfold extractDocumentText. emitting. Qed.

Lemma Emitting_checkUrlExists url :
  on_site url -> Emitting polite 0 (checkUrlExists env url).
Proof.
  intros H. unfold checkUrlExists, fetch_head. emitting.
  apply (Emitting_emit polite (Head url)). exact H.
Qed.

#[local] Hint Resolve Emitting_scrapePage Emitting_extractDocumentText
  Emitting_checkUrlExists : emitting.

Lemma Emitting_complete prompt :
  String.length (prompt_content prompt) <= prompt_limit prompt ->
  Emitting polite 1 (complete env prompt).
Proof.
  intros H. unfold complete.
  apply (Emitting_bindM polite 0 1); [apply Emitting_time|]. intros _ t _ _.
  apply (Emitting_bindM polite 1 0); [apply (Emitting_emit polite (Chat prompt)), H|].
  intros. destruct (chat env t prompt); emitting.
Qed.

(** The synthesizer: two fetches of the main page at most, one prompt. *)
Lemma Emitting_aiCreateScrapingPlan mainUrl :
  Emitting polite 1 (aiCreateScrapingPlan env mainUrl).
Proof.
  unfold aiCreateScrapingPlan.
  apply (Emitting_try_catch polite 1 0); [|intros e; emitting].
  apply (Emitting_bindM polite 0 1); [apply Emitting_scrapePage|].
  intros _ mainPageData _ _.
  apply (Emitting_bindM polite 0 1); [apply Emitting_getState|]. intros _ this _ _.
  apply (Emitting_bindM polite 1 0).
  - apply Emitting_complete. apply substring_length_le.
  - intros _ response _ _. apply (Emitting_try_catch polite 0 0); [|emitting].
    destruct (JSON_parse env response); emitting.
Qed.

(** The executor, on a plan whose sub-pages are on the site. *)
Lemma Emitting_aiExecuteScrapingPlan plan items :
  get plan "sub_pages" = Ok (VArray items) ->
  Forall (fun subPage => forall url, get subPage "url" = Ok url -> on_site url) items ->
  Emitting polite 0 (aiExecuteScrapingPlan env plan).
Proof.
  intros G Hitems. unfold aiExecuteScrapingPlan.
  apply (Emitting_bindM polite 0 0); [unfold scrape_main_page; emitting|].
  intros _ allPages _ _.
  apply (Emitting_bindM polite 0 0); [apply Emitting_lift|].
  intros st1 sub_pages st1' Hsub. apply lift_Ok in Hsub. rewrite G in Hsub.
  injection Hsub as <-.
  apply (Emitting_bindM polite 0 0); [apply Emitting_lift|]. intros _ max_pages _ _.
  apply (Emitting_bindM polite 0 0); [apply Emitting_lift|].
  intros st2 subPages st2' Hslice. apply lift_Ok in Hslice.
  apply (Emitting_bindM polite 0 0).
  { apply Emitting_for_each. intros subPage pages Hin.
    apply (slice_items_In _ _ _ _ _ _ _ Hslice) in Hin.
    rewrite Forall_forall in Hitems. specialize (Hitems subPage Hin).
    unfold scrape_sub_page. apply (Emitting_try_catch polite 0 0); [|intros; emitting].
    apply (Emitting_bindM polite 0 0); [apply Emitting_lift|].
    intros st3 url st3' Hurl. apply lift_Ok in Hurl. specialize (Hitems url Hurl).
    emitting. }
  intros _ allPages' _ _. emitting.
  apply Emitting_for_each. intros document docs _.
  unfold process_document. emitting.
Qed.

Lemma prompt_within_limit scrapedData prompt :
  classification_prompt env scrapedData = Ok prompt ->
  String.length (prompt_content prompt) <= prompt_limit prompt.
Proof.
  unfold classification_prompt, createSchemaBasedPrompt, createBasicPrompt.
  destruct (all_content env scrapedData) as [allContent|]; [|discriminate].
  cbn [Js.bind]. destruct (truthy (loadAttestationSchema env)).
  - destruct (get _ "attestation_schema") as [schema|]; [|discriminate]. cbn [Js.bind].
    destruct (Js.entries schema) as [fields|]; [|discriminate]. cbn [Js.bind].
    destruct (map_result _ fields) as [shown|]; [|discriminate]. cbn [Js.bind].
    intros [= <-]. apply substring_length_le.
  - intros [= <-]. apply substring_length_le.
Qed.

Lemma Emitting_aiAnalyzeAllData scrapedData originalUrl :
  Emitting polite 1 (aiAnalyzeAllData env scrapedData originalUrl).
Proof.
  unfold aiAnalyzeAllData.
  apply (Emitting_bindM polite 0 1); [apply Emitting_lift|].
  intros st prompt st' H. apply lift_Ok, prompt_within_limit in H.
  apply (Emitting_try_catch polite 1 0); [|emitting].
  apply (Emitting_bindM polite 1 0); [apply Emitting_complete, H|].
  intros _ response _ _. emitting.
Qed.

End Outside.

Section Pipeline.

Variable env : Env.

(** Every sub-page of a plan the synthesizer returns names the site. *)
Lemma synthesized_sub_pages mainUrl st plan st' :
  aiCreateScrapingPlan env mainUrl st = (Ok plan, st') ->
  exists items,
    get plan "sub_pages" = Ok (VArray items) /\
    Forall (fun subPage => forall url, get subPage "url" = Ok url -> on_site url) items.
Proof.
  intros H.
  assert (exists items, get plan "sub_pages" = Ok (VArray items) /\
                        Forall (crawlable (visitedUrls st)) items) as (items & G & F).
  { destruct (scrapePage_state env (VString mainUrl) st) as [[data|e] S1].
    - destruct (chat env (List.length (trace (log (Get (VString mainUrl)) st)))
                  (synthesis_prompt env mainUrl data (log (Get (VString mainUrl)) st)))
        as [content|] eqn:C.
      + rewrite (aiCreateScrapingPlan_answered env _ _ _ _ _ S1 C) in H.
        injection H as <- _.
        destruct (JSON_parse env (JsString.trim content)) as [plan0|];
          [|apply fallback_sub_pages].
        destruct (validateScrapingPlan plan0 _) as [validPlan|] eqn:V;
          [|apply fallback_sub_pages].
        apply validateScrapingPlan_Ok in V as (props & proposed & -> & L & ->).
        eexists. split; [simpl; rewrite lookup_store_same; reflexivity|].
        apply Forall_forall. intros x Hx. apply filter_In in Hx as [_ Hx].
        eapply listed_crawlable; eauto.
      + rewrite (aiCreateScrapingPlan_oracle_down _ _ _ _ _ S1 C) in H.
        eapply second_attempt_spec. rewrite H. reflexivity.
    - rewrite (aiCreateScrapingPlan_unreachable _ _ _ _ _ S1) in H.
      eapply second_attempt_spec. rewrite H. reflexivity. }
  exists items. split; [exact G|].
  eapply Forall_impl; [|exact F]. intros subPage (u & Gu & Hu & _) url Hurl.
  rewrite Gu in Hurl. injection Hurl as <-. exists u. auto.
Qed.

Lemma Emitting_analyzeSubsidy url : Emitting polite 2 (analyzeSubsidy env url).
Proof.
  unfold analyzeSubsidy.
  apply (Emitting_try_catch polite 2 0); [|intros e; emitting].
  apply (Emitting_bindM polite 1 1); [apply Emitting_aiCreateScrapingPlan|].
  intros st plan st' H. apply synthesized_sub_pages in H as (items & G & F).
  apply (Emitting_bindM polite 0 1);
    [exact (Emitting_aiExecuteScrapingPlan env plan items G F)|].
  intros _ scrapedData _ _.
  apply (Emitting_bindM polite 1 0); [apply Emitting_aiAnalyzeAllData|].
  intros _ requirements _ _. emitting.
Qed.

Lemma Forall_chats (P : Event -> Prop) (Q : Prompt -> Prop) events :
  (forall p, P (Chat p) -> Q p) -> Forall P events -> Forall Q (chats events).
Proof.
  intros H F. induction F as [|ev events Hev _ IH]; [constructor|].
  destruct ev; simpl; auto.
Qed.

(** X21. The prompt budget of a run: in every world, and whichever stages
    fail, [analyzeSubsidy] consults the completion service at most twice,
    and no prompt carries more scraped text than its template allows, 3000
    characters of the main page in the plan prompt and 12000 characters of
    the collected content in the classification prompt. *)
Theorem prompt_budget (url : string) (st : State) :
  exists added,
    trace (snd (analyzeSubsidy env url st)) = (trace st ++ added)%list /\
    List.length (chats added) <= 2 /\
    Forall (fun p => String.length (prompt_content p) <= prompt_limit p) (chats added).
Proof.
  destruct (Emitting_analyzeSubsidy url st) as (added & T & F & L).
  exists added. repeat split; auto.
  eapply Forall_chats; [|exact F]. auto.
Qed.

(** X22. Existence probes stay on the site: in every world, every HEAD
    request a run of [analyzeSubsidy] sends goes to a string URL that
    contains ['rvo.nl'], whatever sub-pages the oracle proposed; and every
    pause of the run lasts one second. *)
Theorem probes_stay_on_site (url : string) (st : State) :
  exists added,
    trace (snd (analyzeSubsidy env url st)) = (trace st ++ added)%list /\
    (forall v, In (Head v) added ->
       exists u, v = VString u /\ JsString.includes u "rvo.nl" = true) /\
    (forall ms, In (Delay ms) added -> ms = 1000).
Proof.
  destruct (Emitting_analyzeSubsidy url st) as (added & T & F & _).
  exists added. rewrite Forall_forall in F.
  repeat split; auto; intros x Hx; exact (F _ Hx).
Qed.

End Pipeline.

(* ================================================================= *)
(** ** What [scrapePage] returns *)

Lemma collapse_from_single_spaced in_run s :
  single_spaced in_run (JsString.collapse_from in_run s) = true.
Proof.
  revert in_run. induction s as [|c r IH]; intros in_run; [reflexivity|].
  cbn [JsString.collapse_from]. destruct (JsString.is_space c) eqn:C.
  - destruct in_run; [apply IH|].
    cbn [single_spaced]. change (JsString.is_space " ") with true.
    cbn [negb andb]. rewrite IH. reflexivity.
  - cbn [single_spaced]. rewrite C. apply IH.
Qed.

Lemma single_spaced_trimStart after_space s :
  single_spaced after_space s = true -> single_spaced false (JsString.trimStart s) = true.
Proof.
  revert after_space. induction s as [|c r IH]; intros after_space H; [reflexivity|].
  cbn [JsString.trimStart]. cbn [single_spaced] in H.
  destruct (JsString.is_space c) eqn:C.
  - apply andb_true_iff in H as [_ H]. exact (IH true H).
  - cbn [single_spaced]. rewrite C. exact H.
Qed.

Lemma single_spaced_trimEnd after_space s :
  single_spaced after_space s = true ->
  single_spaced after_space (JsString.trimEnd s) = true.
Proof.
  revert after_space. induction s as [|c r IH]; intros after_space H; [reflexivity|].
  cbn [JsString.trimEnd]. cbn [single_spaced] in H.
  destruct (JsString.is_space c) eqn:C; cbn [andb].
  - apply andb_true_iff in H as [H1 H2].
    destruct (JsString.is_empty (JsString.trimEnd r)); [reflexivity|].
    cbn [single_spaced]. rewrite C, H1, (IH true H2). reflexivity.
  - cbn [single_spaced]. rewrite C. exact (IH false H).
Qed.

Lemma trimEnd_idempotent s : JsString.trimEnd (JsString.trimEnd s) = JsString.trimEnd s.
Proof.
  induction s as [|c r IH]; [reflexivity|]. cbn [JsString.trimEnd].
  destruct (JsString.is_space c && JsString.is_empty (JsString.trimEnd r)) eqn:E;
    [reflexivity|].
  cbn [JsString.trimEnd]. rewrite IH, E. reflexivity.
Qed.

Lemma trimStart_fixed s :
  match s with String c _ => JsString.is_space c = false | EmptyString => True end ->
  JsString.trimStart s = s.
Proof. destruct s as [|c r]; [reflexivity|]. cbn [JsString.trimStart]. now intros ->. Qed.

Lemma trimStart_head s :
  match JsString.trimStart s with
  | String c _ => JsString.is_space c = false
  | EmptyString => True
  end.
Proof.
  induction s as [|c r IH]; [exact I|]. cbn [JsString.trimStart].
  destruct (JsString.is_space c) eqn:C; [exact IH | exact C].
Qed.

Lemma trimEnd_head s :
  match s with String c _ => JsString.is_space c = false | EmptyString => True end ->
  match JsString.trimEnd s with
  | String c _ => JsString.is_space c = false
  | EmptyString => True
  end.
Proof.
  destruct s as [|c r]; [trivial|]. intros C. cbn [JsString.trimEnd].
  rewrite C. exact C.
Qed.

Lemma trim_idempotent s : JsString.trim (JsString.trim s) = JsString.trim s.
Proof.
  unfold JsString.trim.
  rewrite (trimStart_fixed _ (trimEnd_head _ (trimStart_head s))).
  apply trimEnd_idempotent.
Qed.

Section Pages.

Variable env : Env.

(** X23. A page that [scrapePage] returns comes from a 2xx answer to the
    one GET request it sent: it carries the URL it was asked for and the
    body of the answer as its HTML; its title has no white space around
    it; and its text is normalised, with no white space around it and no
    white space inside it but single spaces. *)
Theorem scraped_page_normalised
  (url : value) (st : State) (page : PageData) (st' : State) :
  scrapePage env url st = (Ok page, st') ->
  st' = log (Get url) st /\
  page_url page = url /\
  (exists response,
     http_get env (List.length (trace st)) url = Ok response /\
     ok response = true /\
     page_html page = body response) /\
  JsString.trim (page_title page) = page_title page /\
  JsString.trim (page_textContent page) = page_textContent page /\
  single_spaced false (page_textContent page) = true.
Proof.
  unfold scrapePage, try_catch, fetch, bindM, time, emit, lift, ret, throw.
  destruct (http_get env (List.length (trace st)) url) as [response|e] eqn:G.
  - destruct (ok response) eqn:O; cbn [negb].
    + intros [= <- <-]. cbn [page_url page_html page_title page_textContent].
      split; [reflexivity|]. split; [reflexivity|].
      split; [exists response; auto|]. split; [|split].
      * destruct (JsString.is_empty _); apply trim_idempotent.
      * apply trim_idempotent.
      * unfold JsString.trim. apply single_spaced_trimEnd.
        apply (single_spaced_trimStart false).
        apply collapse_from_single_spaced.
    + destruct (js_to_string env url); discriminate.
  - destruct (js_to_string env url); discriminate.
Qed.

(** With a schema file that holds a truthy value without the field list,
    the classifier's prompt cannot be built. *)
Lemma classification_prompt_without_fields scrapedData :
  truthy (loadAttestationSchema env) = true ->
  prop (loadAttestationSchema env) "attestation_schema" = VUndefined \/
  prop (loadAttestationSchema env) "attestation_schema" = VNull ->
  exists e, classification_prompt env scrapedData = Throw e.
Proof.
  intros T F. unfold classification_prompt.
  destruct (all_content env scrapedData) as [allContent|e]; cbn [Js.bind];
    [|eexists; reflexivity].
  rewrite T. unfold createSchemaBasedPrompt, prop in *.
  destruct (get (loadAttestationSchema env) "attestation_schema") as [schema|e];
    cbn [Js.bind]; [|eexists; reflexivity].
  destruct F as [-> | ->]; eexists; reflexivity.
Qed.

(** X24. A schema file without its field list fails every analysis: when
    [attestation-schema.json] parses to a truthy value whose
    [attestation_schema] is missing or [null], [analyzeSubsidy] returns an
    error result for every URL in every world, also when the crawl has
    succeeded, instead of falling back to the basic prompt. *)
Theorem schema_without_fields_fails_analysis (url : string) (st : State) :
  truthy (loadAttestationSchema env) = true ->
  prop (loadAttestationSchema env) "attestation_schema" = VUndefined \/
  prop (loadAttestationSchema env) "attestation_schema" = VNull ->
  exists error analyzed_at st',
    analyzeSubsidy env url st = (Ok (AnalysisError url error analyzed_at), st').
Proof.
  intros T F. unfold analyzeSubsidy, try_catch, bindM at 1.
  destruct (aiCreateScrapingPlan env url st) as [[plan|e] st1];
    [|do 3 eexists; reflexivity].
  unfold bindM at 1.
  destruct (aiExecuteScrapingPlan env plan st1) as [[data|e] st2];
    [|do 3 eexists; reflexivity].
  unfold bindM at 1, aiAnalyzeAllData, bindM at 1, lift.
  destruct (classification_prompt_without_fields data T F) as [e ->].
  do 3 eexists. reflexivity.
Qed.

End Pages.

(* ================================================================= *)
(** ** The properties on the concrete worlds *)

Import Scenario.

(** The scenario of the specification, end to end: the invented sub-page
    is dropped, the documents pass through, both real targets are fetched
    with a delay after each, and the oracle's classification is returned
    as it is. *)
Example scenario_end_to_end :
  validateScrapingPlan proposed_plan links = Ok validated_plan /\
  exists st',
    analyzeSubsidy world mainUrl new_agent
    = (Ok (Analysis mainUrl "DHI"
             {| attestations := VArray [VString "chamber_of_commerce_kvk_nummer"];
                non_attestations := VArray [VString "projectplan"];
                analysis_notes := VString "ok" |}
             "2025-01-01T00:00:00.000Z" 2 validated_plan), st') /\
    visitedUrls st' = [VString pageUrl; VString planUrl] /\
    filter (fun ev => match ev with Chat _ => false | _ => true end) (trace st')
    = [ Get (VString mainUrl); Get (VString mainUrl);
        Head (VString pageUrl); Get (VString pageUrl); Delay 1000;
        Get (VString planUrl); Delay 1000 ].
Proof.
  split; [vm_compute; reflexivity|].
  eexists. split; [vm_compute; reflexivity|]. split; reflexivity.
Qed.

(** The empty string, prose and unbalanced braces are not JSON, cleaned or
    not. *)
Example not_json :
  Json.parse (extract_json EmptyString) = None /\
  Json.parse (extract_json prose) = None /\
  Json.parse (extract_json "{ attestations: [") = None /\
  Json.parse (extract_json "}{") = None /\
  Json.parse (extract_json "```json {'a': } ```") = None.
Proof. vm_compute. repeat split. Qed.

(** The cleaning finds the object inside a fenced block and inside
    surrounding text. *)
Example cleaning :
  extract_json ("```json" ++ JsString.LF ++ "{}" ++ JsString.LF ++ "```") = "{}" /\
  extract_json "Here it is: {} - done" = "{}".
Proof. vm_compute. split; reflexivity. Qed.

Lemma validate_sound_witness :
  validateScrapingPlan proposed_plan links = Ok validated_plan /\
  exists proposed kept,
    get proposed_plan "sub_pages" = Ok (VArray proposed) /\
    get validated_plan "sub_pages" = Ok (VArray kept) /\
    kept = filter (listed links) proposed /\
    Forall (fun subPage =>
              exists url, get subPage "url" = Ok (VString url) /\
                          In url (map link_url links)) kept.
Proof.
  split; [vm_compute; reflexivity|].
  apply (validate_sound proposed_plan links validated_plan).
  vm_compute. reflexivity.
Defined.

Lemma validate_frame_witness :
  validateScrapingPlan proposed_plan links = Ok validated_plan /\
  (forall k, k <> "sub_pages" -> get validated_plan k = get proposed_plan k) /\
  map fst (spread_props validated_plan) = map fst (spread_props proposed_plan) /\
  get validated_plan "documents" = get proposed_plan "documents" /\
  get validated_plan "main_page" = get proposed_plan "main_page" /\
  get validated_plan "max_pages" = get proposed_plan "max_pages" /\
  get validated_plan "max_documents" = get proposed_plan "max_documents" /\
  get validated_plan "focus_keywords" = get proposed_plan "focus_keywords".
Proof.
  split; [vm_compute; reflexivity|].
  apply (validate_frame proposed_plan links validated_plan).
  vm_compute. reflexivity.
Defined.

Lemma pptx_never_recorded_witness :
  getDocumentType (VString slidesUrl) = Ok "pptx" /\
  (forall st,
     extractDocumentText world (VString slidesUrl) "pptx" st
     = (Ok EmptyString, log (Get (VString slidesUrl)) st)) /\
  (forall document allDocuments st,
     get document "url" = Ok (VString slidesUrl) ->
     exists st',
       process_document world document allDocuments st = (Ok allDocuments, st') /\
       visitedUrls st' = visitedUrls st) /\
  (forall plan st data st',
     aiExecuteScrapingPlan world plan st = (Ok data, st') ->
     Forall (fun record => dr_url record <> VString slidesUrl) (allDocuments data)) /\
  (forall documents allDocuments st allDocuments' st',
     for_each (process_document world) documents allDocuments st
       = (Ok allDocuments', st') ->
     set_has (visitedUrls st') (VString slidesUrl)
     = set_has (visitedUrls st) (VString slidesUrl)) /\
  (forall plan st data st',
     aiExecuteScrapingPlan world plan st = (Ok data, st') ->
     set_has (visitedUrls st') (VString slidesUrl) = true ->
     set_has (visitedUrls st) (VString slidesUrl) = true \/
     exists record,
       In record (allPages data) /\ page_url (pr_data record) = VString slidesUrl).
Proof.
  split; [reflexivity|].
  apply (pptx_never_recorded world slidesUrl). reflexivity.
Defined.

Lemma empty_extraction_not_recorded_witness :
  process_document world_empty_pdf (entry planUrl "plan" "high") [] new_agent
    = (Ok [], log (Get (VString planUrl)) new_agent) /\
  visitedUrls (log (Get (VString planUrl)) new_agent) = visitedUrls new_agent.
Proof.
  apply (empty_extraction_not_recorded world_empty_pdf (entry planUrl "plan" "high")
           planUrl {| status := 200; body := pdf_bytes |} [] new_agent);
    reflexivity.
Defined.

Lemma visited_url_not_refetched_witness :
  exists data st',
    aiExecuteScrapingPlan world overlapping_plan new_agent = (Ok data, st') /\
    exists pages0 st0 subPages st1 documents pushed added,
      scrape_main_page world overlapping_plan [] new_agent = (Ok pages0, st0) /\
      for_each (scrape_sub_page world) subPages pages0 st0 = (Ok (allPages data), st1) /\
      for_each (process_document world) documents [] st1
        = (Ok (allDocuments data), st') /\
      allPages data = (pages0 ++ pushed)%list /\
      trace st' = (trace st1 ++ added)%list /\
      forall record u,
        In record pushed -> page_url (pr_data record) = VString u ->
        set_has (visitedUrls st1) (VString u) = true /\
        ~ In (Get (VString u)) added /\
        ~ In (Head (VString u)) added.
Proof.
  do 2 eexists. split; [vm_compute; reflexivity|].
  apply (visited_url_not_refetched world overlapping_plan new_agent).
  vm_compute. reflexivity.
Defined.

(** On that run the document is retrieved once, as a sub-page. *)
Example overlapping_plan_run :
  exists data st',
    aiExecuteScrapingPlan world overlapping_plan new_agent = (Ok data, st') /\
    trace st' = [ Get (VString mainUrl); Head (VString planUrl);
                  Get (VString planUrl); Delay 1000 ] /\
    allDocuments data = [].
Proof.
  do 2 eexists. split; [vm_compute; reflexivity|]. split; reflexivity.
Qed.

Lemma classifier_fallback_total_witness :
  exists requirements notes,
    aiAnalyzeAllData world_prose nothing_scraped mainUrl new_agent
      = (Ok requirements, log (Chat (BasicPrompt EmptyString)) new_agent) /\
    requirements = fallbackAnalysis nothing_scraped /\
    attestations requirements = VArray [] /\
    non_attestations requirements = VArray [] /\
    analysis_notes requirements = VString notes /\
    notes <> EmptyString.
Proof.
  apply (classifier_fallback_total world_prose nothing_scraped mainUrl
           (BasicPrompt EmptyString) prose new_agent);
    vm_compute; reflexivity.
Defined.

Lemma classification_defaults_witness :
  exists a n notes,
    get (VObject []) "attestations" = Ok a /\
    get (VObject []) "non_attestations" = Ok n /\
    get (VObject []) "analysis_notes" = Ok notes /\
    classify_response world nothing_scraped "{}"
      = {| attestations := or_else a (VArray []);
           non_attestations := or_else n (VArray []);
           analysis_notes := or_else notes (VString "AI analysis completed") |} /\
    (a = VUndefined ->
     attestations (classify_response world nothing_scraped "{}") = VArray []) /\
    (n = VUndefined ->
     non_attestations (classify_response world nothing_scraped "{}") = VArray []) /\
    (notes = VUndefined ->
     analysis_notes (classify_response world nothing_scraped "{}")
       = VString "AI analysis completed").
Proof.
  apply (classification_defaults world nothing_scraped "{}" (VObject []));
    [vm_compute; reflexivity | discriminate | discriminate].
Defined.

Lemma oracle_failure_outcomes_witness :
  (exists error analyzed_at st',
     analyzeSubsidy world_oracle_down mainUrl new_agent
     = (Ok (AnalysisError mainUrl error analyzed_at), st')) /\
  (exists scrapedData prompt st2,
     analyzeSubsidy world_classifier_down mainUrl new_agent
     = (Ok (Analysis mainUrl (result_title scrapedData) (fallbackAnalysis scrapedData)
                     (now world_classifier_down (S (List.length (trace st2))))
                     (List.length (allPages scrapedData)) validated_plan),
        log (Chat prompt) st2)).
Proof.
  split.
  - eapply (proj1 (oracle_failure_outcomes world_oracle_down) mainUrl _ new_agent);
      lazy; reflexivity.
  - do 3 eexists.
    eapply (proj2 (oracle_failure_outcomes world_classifier_down) mainUrl validated_plan
              _ _ new_agent);
      lazy; reflexivity.
Defined.

Lemma document_links_also_page_links_witness :
  In planUrl (map doc_url (extractDocumentLinks world [] main_html mainUrl)) /\
  In planUrl (map link_url (extractActualLinks world [] main_html mainUrl)).
Proof.
  destruct (document_links_also_page_links world [] main_html mainUrl) as [_ H].
  destruct (H "/doc/plan.pdf" " Projectplan ") as [Hdoc Hpage];
    [vm_compute; auto | discriminate | reflexivity | reflexivity |].
  split; [exact Hdoc|].
  apply Hpage; [vm_compute; discriminate | reflexivity | reflexivity].
Defined.

(** C4, as stated, fails in its second half: with the oracle out of reach
    at classification time the run returns the success shape, not the
    error shape. *)
Lemma oracle_down_counterexample :
  (forall t content, chat world_classifier_down t (BasicPrompt content) = None) /\
  (exists st',
     analyzeSubsidy world_classifier_down mainUrl new_agent
     = (Ok (Analysis mainUrl "DHI"
              {| attestations := VArray [];
                 non_attestations := VArray [];
                 analysis_notes :=
                   VString "Fallback analysis - no hardcoded patterns used" |}
              "2025-01-01T00:00:00.000Z" 2 validated_plan), st')) /\
  ~ (exists error analyzed_at,
       fst (analyzeSubsidy world_classifier_down mainUrl new_agent)
       = Ok (AnalysisError mainUrl error analyzed_at)).
Proof.
  split; [reflexivity|]. split.
  - eexists. vm_compute. reflexivity.
  - intros (error & analyzed_at & H). vm_compute in H. discriminate H.
Qed.

(** C5, as stated, fails: the link to [/doc/plan.pdf] is in the page-link
    set and in the document-link set. *)
Lemma harvest_overlap_counterexample :
  ~ (forall u,
       In u (map link_url (extractActualLinks world [] main_html mainUrl)) ->
       ~ In u (map doc_url (extractDocumentLinks world [] main_html mainUrl))).
Proof.
  intros H. apply (H planUrl); vm_compute; auto.
Qed.

(** C6, as stated, fails: the download of the document succeeds, the PDF
    extractor returns the empty string, and the executor's output holds no
    DocumentRecord for it. *)
Lemma empty_extraction_counterexample :
  (forall t, http_get world_empty_pdf t (VString planUrl)
             = Ok {| status := 200; body := pdf_bytes |}) /\
  extractPdfText world_empty_pdf pdf_bytes = EmptyString /\
  exists data st',
    aiExecuteScrapingPlan world_empty_pdf validated_plan new_agent = (Ok data, st') /\
    In (Get (VString planUrl)) (trace st') /\
    ~ (exists record, In record (allDocuments data) /\ dr_url record = VString planUrl).
Proof.
  split; [reflexivity|]. split; [reflexivity|].
  do 2 eexists. split; [vm_compute; reflexivity|]. split.
  - simpl. auto 10.
  - intros (record & [] & _).
Qed.

(** C7, as stated, fails: for the answer [{}] the notes are not the empty
    string. *)
Lemma notes_default_counterexample :
  JSON_parse world (extract_json "{}") = Some (VObject []) /\
  get (VObject []) "analysis_notes" = Ok VUndefined /\
  analysis_notes (classify_response world nothing_scraped "{}")
    <> VString EmptyString.
Proof.
  split; [vm_compute; reflexivity|]. split; [reflexivity|].
  vm_compute. discriminate.
Qed.

(** C9, as stated, fails: the plan passes validation, names the same URL
    as a sub-page and as a document, the retrieval of the sub-page fails
    after a successful probe, and the URL is fetched a second time as a
    document. *)
Lemma refetch_counterexample :
  validateScrapingPlan overlapping_plan links = Ok overlapping_plan /\
  exists data st',
    aiExecuteScrapingPlan world_failing_get overlapping_plan new_agent = (Ok data, st') /\
    trace st' = [ Get (VString mainUrl); Head (VString planUrl);
                  Get (VString planUrl); Get (VString planUrl) ] /\
    ~ (gets planUrl (trace st') <= 1).
Proof.
  split; [vm_compute; reflexivity|].
  do 2 eexists. split; [vm_compute; reflexivity|]. split; [reflexivity|].
  vm_compute. lia.
Qed.

(** C10, as stated, fails in its last clause: a presentation that the plan
    lists as a sub-page and as a document, a plan that passes validation
    because the page links to it, is retrieved as a page and marked
    visited by the executor, while no DocumentRecord is made for it. *)
Lemma pptx_marked_counterexample :
  getDocumentType (VString slidesUrl) = Ok "pptx" /\
  validateScrapingPlan slides_plan (extractActualLinks world_slides [] main_html mainUrl)
  = Ok slides_plan /\
  exists data st',
    aiExecuteScrapingPlan world_slides slides_plan new_agent = (Ok data, st') /\
    allDocuments data = [] /\
    set_has (visitedUrls new_agent) (VString slidesUrl) = false /\
    set_has (visitedUrls st') (VString slidesUrl) = true.
Proof.
  split; [reflexivity|]. split; [vm_compute; reflexivity|].
  do 2 eexists. split; [vm_compute; reflexivity|].
  repeat split; reflexivity.
Qed.

(** A run in which the oracle answers the plan prompt in prose: it is asked
    once, the fallback plan is substituted, the executor throws on it and
    the run ends with the error shape. *)
Example fallback_run_fails :
  Json.parse (JsString.trim prose) = None /\
  exists st',
    analyzeSubsidy world_prose mainUrl new_agent
    = (Ok (AnalysisError mainUrl
             "Cannot read properties of undefined (reading 'slice')"
             "2025-01-01T00:00:00.000Z"), st') /\
    List.length (filter (fun ev => match ev with Chat _ => true | _ => false end)
                        (trace st')) = 1.
Proof.
  split; [vm_compute; reflexivity|].
  eexists. split; [vm_compute; reflexivity|]. reflexivity.
Qed.

(* ================================================================= *)
(** ** The further properties on the concrete worlds *)

Lemma validation_idempotent_witness :
  validateScrapingPlan proposed_plan links = Ok validated_plan /\
  validateScrapingPlan validated_plan links = Ok validated_plan.
Proof.
  assert (validateScrapingPlan proposed_plan links = Ok validated_plan) as H
    by (vm_compute; reflexivity).
  split; [exact H|].
  exact (validation_idempotent proposed_plan links validated_plan H).
Defined.

Lemma validation_keeps_listed_plan_witness :
  exists props,
    validated_plan = VObject props /\
    validateScrapingPlan (VObject props) links = Ok (VObject props) /\
    validateScrapingPlan (VObject props) []
    = Ok (VObject (store props "sub_pages" (VArray []))).
Proof.
  eexists. split; [reflexivity|].
  apply (validation_keeps_listed_plan _ [entry pageUrl "conditions" "high"] links).
  - reflexivity.
  - repeat constructor. exists pageUrl. split; [reflexivity|].
    vm_compute. left. reflexivity.
Defined.

Lemma executor_respects_limits_witness :
  exists data st',
    aiExecuteScrapingPlan world validated_plan new_agent = (Ok data, st') /\
    List.length (allPages data) <= 1 + 8 /\
    List.length (allDocuments data) <= 5.
Proof.
  assert (exists data st',
            aiExecuteScrapingPlan world validated_plan new_agent = (Ok data, st'))
    as (data & st' & E) by (do 2 eexists; vm_compute; reflexivity).
  exists data, st'. split; [exact E|].
  destruct (executor_respects_limits world validated_plan new_agent data st' E)
    as (_ & _ & Hpages & Hdocuments).
  split.
  - apply (Hpages (number_of_Z 8) 8%Z); [reflexivity | reflexivity | vm_compute; reflexivity | lia].
  - apply (Hdocuments (number_of_Z 5) 5%Z);
      [reflexivity | reflexivity | vm_compute; reflexivity | lia].
Defined.

Lemma executor_one_delay_per_target_witness :
  exists data st',
    aiExecuteScrapingPlan world validated_plan new_agent = (Ok data, st') /\
    exists added pages0 st0 pushed,
      scrape_main_page world validated_plan [] new_agent = (Ok pages0, st0) /\
      trace st' = (trace new_agent ++ added)%list /\
      Forall crawl_event added /\
      allPages data = (pages0 ++ pushed)%list /\
      List.length pages0 <= 1 /\
      delays added = List.length pushed + List.length (allDocuments data).
Proof.
  do 2 eexists. split; [vm_compute; reflexivity|].
  apply (executor_one_delay_per_target world validated_plan new_agent).
  vm_compute. reflexivity.
Defined.

Lemma recorded_documents_invariant_witness :
  exists data st',
    aiExecuteScrapingPlan world validated_plan new_agent = (Ok data, st') /\
    allDocuments data <> [] /\
    Forall (recorded new_agent st') (allDocuments data) /\
    NoDup (map dr_url (allDocuments data)).
Proof.
  do 2 eexists. split; [vm_compute; reflexivity|]. split; [discriminate|].
  apply (recorded_documents_invariant world validated_plan new_agent).
  vm_compute. reflexivity.
Defined.

Lemma post_analyze_reports_analysis_witness :
  exists answer agent,
    analyzeSubsidy world mainUrl new_agent = (Ok answer, agent) /\
    snd (post_analyze world (VObject [("url", VString mainUrl)])) = trace agent /\
    reply_status (fst (post_analyze world (VObject [("url", VString mainUrl)]))) = 200.
Proof.
  assert (get (VObject [("url", VString mainUrl)]) "url" = Ok (VString mainUrl)) as G
    by reflexivity.
  assert (JsString.startsWith mainUrl "http://" || JsString.startsWith mainUrl "https://"
          = true) as P by reflexivity.
  destruct (post_analyze_reports_analysis world _ mainUrl G P)
    as (answer & agent & E & T & _).
  exists answer, agent. split; [exact E|]. split; [exact T|].
  vm_compute. reflexivity.
Defined.

Lemma object_recovered_from_prose_witness :
  extract_json (Json.quoted "Here is the result: {'attestations':[]} I hope this helps. ")
  = Json.quoted "{'attestations':[]}".
Proof.
  apply (object_recovered_from_prose _ "Here is the result: "
           (Json.quoted "'attestations':[]") " I hope this helps.");
    vm_compute; reflexivity.
Defined.

Lemma scraped_page_normalised_witness :
  exists page st',
    scrapePage world (VString mainUrl) new_agent = (Ok page, st') /\
    page_textContent page = "DHI subsidie" /\
    st' = log (Get (VString mainUrl)) new_agent /\
    page_url page = VString mainUrl /\
    (exists response,
       http_get world (List.length (trace new_agent)) (VString mainUrl) = Ok response /\
       ok response = true /\
       page_html page = body response) /\
    JsString.trim (page_title page) = page_title page /\
    JsString.trim (page_textContent page) = page_textContent page /\
    single_spaced false (page_textContent page) = true.
Proof.
  do 2 eexists. split; [vm_compute; reflexivity|]. split; [reflexivity|].
  apply (scraped_page_normalised world (VString mainUrl) new_agent).
  vm_compute. reflexivity.
Defined.

Lemma schema_without_fields_fails_analysis_witness :
  exists error analyzed_at st',
    analyzeSubsidy world_schema_without_fields mainUrl new_agent
    = (Ok (AnalysisError mainUrl error analyzed_at), st').
Proof.
  apply (schema_without_fields_fails_analysis world_schema_without_fields mainUrl new_agent).
  - vm_compute. reflexivity.
  - left. vm_compute. reflexivity.
Defined.

(** A successful analysis that the handler still answers with 500: the
    classification gives [attestations] a [length] that cannot be printed,
    and the log line throws. *)
Example unprintable_length_reply :
  (exists requirements st',
     analyzeSubsidy world_unprintable mainUrl new_agent
     = (Ok (Analysis mainUrl "DHI" requirements "2025-01-01T00:00:00.000Z" 2
                     validated_plan), st')) /\
  fst (post_analyze world_unprintable (VObject [("url", VString mainUrl)]))
  = internal_server_error (TypeError "Cannot convert object to primitive value").
Proof.
  split; [do 2 eexists; vm_compute; reflexivity | vm_compute; reflexivity].
Qed.
